(** * Document-translation server: job lifecycle, naming and normalisation

    A shallow embedding of the translation server's core:
    - [BlobService]  (src/services/blob_service.py): blob-name normalisation,
      output naming, existence probe, download, cleanup, URL preparation
      and the listing of the input container;
    - [GraphService] (src/services/graph_service.py): token acquisition,
      the two probes and the OneDrive upload;
    - [Config]       (src/config.py): validation and the URLs;
    - [ApiServer]    (api_server.py): the REST handlers [translate_document],
      [check_status], [get_result] and [list_files] over the global table
      [active_translations];
    - [McpServer]    (server.py): [call_tool] and the tool handlers of
      [TranslationMCPServer].

    Conventions.  A Python [str] is a [string], one [ascii] per code point
    (code points above 255 are outside the model; every operation below
    treats them like the other non-ASCII characters).  Message literals keep
    the UTF-8 bytes of the source text.  [bytes] is a list of bytes.  Storage,
    the translation provider, HTTP, the clock and [sleep] are external: they
    are answered by an arbitrary backend, and every call is recorded with its
    outcome in the trace of the run. *)

From Stdlib Require Import ZArith Ascii String List Lia Bool.
From stdpp Require Import base gmap strings list fin_maps pretty sorting.

Local Open Scope Z_scope.

(* ===================================================================== *)
(** * Python string operations                                            *)
(* ===================================================================== *)

Module Py.

(** [c in s] for a one-character [c]. *)
Fixpoint contains (c : ascii) (s : string) : bool :=
  match s with
  | EmptyString => false
  | String a s' => if Ascii.eqb a c then true else contains c s'
  end.

(** [s.replace(old, new)] for one-character [old] and [new]. *)
Fixpoint replace (old new : ascii) (s : string) : string :=
  match s with
  | EmptyString => EmptyString
  | String a s' =>
      String (if Ascii.eqb a old then new else a) (replace old new s')
  end.

(** [s.rsplit(sep, 1)] for a one-character [sep] that occurs in [s]: the
    text before and after the last [sep].  [None] stands for the
    one-element list Python returns when [sep] does not occur. *)
Fixpoint rsplit1 (sep : ascii) (s : string) : option (string * string) :=
  match s with
  | EmptyString => None
  | String a s' =>
      match rsplit1 sep s' with
      | Some (before, after) => Some (String a before, after)
      | None => if Ascii.eqb a sep then Some (EmptyString, s') else None
      end
  end.

(** The two-element unpacking [x, y = s.rsplit(sep, 1)]; every use in the
    source is guarded by [sep in s], where [rsplit1] is [Some]. *)
Definition rsplit_pair (sep : ascii) (s : string) : string * string :=
  match rsplit1 sep s with
  | Some p => p
  | None => (s, EmptyString)
  end.

(** [s.split(sep)] for a one-character [sep]. *)
Fixpoint split (sep : ascii) (s : string) : list string :=
  match s with
  | EmptyString => [EmptyString]
  | String a s' =>
      match split sep s' with
      | [] => [EmptyString]
      | hd :: tl =>
          if Ascii.eqb a sep then EmptyString :: hd :: tl
          else String a hd :: tl
      end
  end.

(** [s.lstrip(c)] and [s.rstrip(c)] for a one-character [c]. *)
Fixpoint lstrip (c : ascii) (s : string) : string :=
  match s with
  | EmptyString => EmptyString
  | String a s' => if Ascii.eqb a c then lstrip c s' else s
  end.

Fixpoint rstrip (c : ascii) (s : string) : string :=
  match s with
  | EmptyString => EmptyString
  | String a s' =>
      match rstrip c s' with
      | EmptyString => if Ascii.eqb a c then EmptyString
                       else String a EmptyString
      | r => String a r
      end
  end.

(** [s.strip(c)]. *)
Definition strip (c : ascii) (s : string) : string := rstrip c (lstrip c s).

(** The first [n] characters. *)
Fixpoint take (n : nat) (s : string) : string :=
  match n, s with
  | O, _ => EmptyString
  | _, EmptyString => EmptyString
  | S n', String a s' => String a (take n' s')
  end.

Definition len (s : string) : Z := Z.of_nat (String.length s).

(** The slice [s[:k]]; a negative [k] counts from the end, and the bound
    is clamped to the string. *)
Definition slice_to (k : Z) (s : string) : string :=
  let stop := if k <? 0 then Z.max 0 (k + len s) else Z.min k (len s) in
  take (Z.to_nat stop) s.

(** [l[-1]] and [l[-2]]; [None] stands for [IndexError]. *)
Definition last1 {A} (l : list A) : option A := last l.
Definition last2 {A} (l : list A) : option A :=
  match rev l with
  | _ :: x :: _ => Some x
  | _ => None
  end.

(** [s.endswith(suffix)]. *)
Definition endswith (suffix s : string) : bool :=
  let n := String.length s in
  let k := String.length suffix in
  (k <=? n)%nat && String.eqb (String.substring (n - k) k s) suffix.

(** [s.lower()] on the ASCII letters. *)
Definition lower_char (c : ascii) : ascii :=
  let n := N_of_ascii c in
  if (65 <=? n)%N && (n <=? 90)%N then ascii_of_N (n + 32) else c.

Fixpoint lower (s : string) : string :=
  match s with
  | EmptyString => EmptyString
  | String a s' => String (lower_char a) (lower s')
  end.

(** An f-string field holding an optional value ([None] prints as None). *)
Definition fmt (o : option string) : string := default "None" o.

(** [c * n] for a one-character [c]. *)
Fixpoint mul (c : ascii) (n : nat) : string :=
  match n with
  | O => EmptyString
  | S n' => String c (mul c n')
  end.

(** [d.get(key)] on a dictionary kept as an association list. *)
Fixpoint get {A} (key : string) (d : list (string * A)) : option A :=
  match d with
  | [] => None
  | (k, v) :: rest => if String.eqb k key then Some v else get key rest
  end.

(** Truthiness of a string: non-empty. *)
Definition truthy (s : string) : bool :=
  match s with EmptyString => false | _ => true end.

(** The character classes of the regular expressions in the source. *)
Definition in_range (lo hi : N) (c : ascii) : bool :=
  (lo <=? N_of_ascii c)%N && (N_of_ascii c <=? hi)%N.

Definition is_lower (c : ascii) : bool := in_range 97 122 c.
Definition is_upper (c : ascii) : bool := in_range 65 90 c.
Definition is_digit (c : ascii) : bool := in_range 48 57 c.

(** [s.lower()] on every code point of the model: the ASCII capitals and
    the capitals of Latin-1 (À to Þ, the sign × excepted) move 32 places
    up; the other characters stay. *)
Definition str_lower_char (c : ascii) : ascii :=
  let n := N_of_ascii c in
  if ((65 <=? n) && (n <=? 90)
      || (192 <=? n) && (n <=? 222) && negb (n =? 215))%N
  then ascii_of_N (n + 32) else c.

Fixpoint str_lower (s : string) : string :=
  match s with
  | EmptyString => EmptyString
  | String a s' => String (str_lower_char a) (str_lower s')
  end.

(** [sorted(l)] on strings: the order of [str] is the lexicographic order
    of the code points. *)
Definition sorted (l : list string) : list string :=
  merge_sort String.le l.

(** [sep.join(l)]. *)
Fixpoint join (sep : string) (l : list string) : string :=
  match l with
  | [] => EmptyString
  | [x] => x
  | x :: rest => x +:+ sep +:+ join sep rest
  end.

(** [repr(s)] on the code points of the model (0 to 255), as CPython's
    [unicode_repr] writes it: the text stands between single quotes, or
    between double quotes when it holds a single quote and no double
    quote; the backslash and the enclosing quote are escaped with a
    backslash; tab, line feed and carriage return are written [\t], [\n]
    and [\r]; every other character that is not printable (below 32, 127,
    128 to 160 and 173) is written [\x] and two hexadecimal digits in
    lower case. *)
Definition single_quote : ascii := "'"%char.
Definition double_quote : ascii := ascii_of_N 34.
Definition backslash : ascii := ascii_of_N 92.

Definition hex_digit (n : N) : ascii :=
  ascii_of_N (if (n <? 10)%N then 48 + n else 87 + n).

Definition printable (c : ascii) : bool :=
  let n := N_of_ascii c in
  (32 <=? n)%N && negb (n =? 127)%N
  && negb ((128 <=? n) && (n <=? 160))%N && negb (n =? 173)%N.

Definition repr_quote (s : string) : ascii :=
  if contains single_quote s && negb (contains double_quote s)
  then double_quote else single_quote.

Definition repr_char (quote c : ascii) : string :=
  let n := N_of_ascii c in
  if Ascii.eqb c quote || Ascii.eqb c backslash then
    String backslash (String c EmptyString)
  else if (n =? 9)%N then String backslash "t"
  else if (n =? 10)%N then String backslash "n"
  else if (n =? 13)%N then String backslash "r"
  else if printable c then String c EmptyString
  else
    String backslash
      (String "x"
         (String (hex_digit (n / 16))
            (String (hex_digit (n mod 16)) EmptyString))).

Fixpoint repr_body (quote : ascii) (s : string) : string :=
  match s with
  | EmptyString => EmptyString
  | String c s' => repr_char quote c +:+ repr_body quote s'
  end.

Definition repr (s : string) : string :=
  let quote := repr_quote s in
  String quote (repr_body quote s +:+ String quote EmptyString).

End Py.

(* ===================================================================== *)
(** * Exceptions, data and the external world                             *)
(* ===================================================================== *)

(** The exceptions the code raises or catches by class.  All of them derive
    from [Exception]; [RequestException] is the base class of the
    exceptions of [requests], the error of its JSON decoder among them;
    [ExternalError] is any other exception raised by a library (the
    storage SDK, the provider client). *)
Inductive PyExc :=
| Exception (msg : string)
| FileNotFoundError (msg : string)
| KeyError (key : string)
| IndexError (msg : string)
| AttributeError (msg : string)
| TypeError (msg : string)
| RequestException (msg : string)
| ExternalError (msg : string).

(** [str(e)]; a [KeyError] prints the [repr] of its key. *)
Definition str_exc (e : PyExc) : string :=
  match e with
  | KeyError key => Py.repr key
  | Exception msg | FileNotFoundError msg | IndexError msg
  | AttributeError msg | TypeError msg | RequestException msg
  | ExternalError msg => msg
  end.

Definition is_RequestException (e : PyExc) : bool :=
  match e with RequestException _ => true | _ => false end.

Definition bytes := list Byte.byte.

(** An item of [container_client.list_blobs()]; times are microseconds. *)
Record BlobProperties := {
  bp_name : string;
  bp_size : Z;
  bp_last_modified : option Z
}.

(** The dictionary returned by [check_translation_status]. *)
Record StatusDict := {
  st_status : string;
  st_progress : option string;
  st_error : option string
}.

(** A [requests] response: [json] is [None] when the body is not JSON. *)
Record HttpResponse := {
  status_code : Z;
  text : string;
  json : option (list (string * string))
}.

(** Calls that leave the process.  The translation client
    (src/services/translation_service.py) is not part of the sources: its
    two methods are calls answered by the backend. *)
Inductive Call : Type -> Type :=
| BlobExists (container blob : string) : Call bool
| BlobDownload (container blob : string) : Call bytes
| BlobDelete (container blob : string) : Call unit
| BlobUpload (container blob : string) (data : bytes) : Call unit
| ListBlobs (container : string) : Call (list BlobProperties)
| GenerateSas (container blob permissions : string) : Call string
| StartTranslation (source_url target_url target_language : string)
    : Call string
| CheckTranslationStatus (translation_id : string) : Call StatusDict
| HttpPost (url : string) (bearer : option string)
    (data : list (string * option string)) : Call HttpResponse
| HttpGet (url : string) (bearer : option string) : Call HttpResponse
| HttpPut (url : string) (bearer : option string) (data : bytes)
    : Call HttpResponse.

(** One entry of a run's trace: a call with its outcome, or a sleep. *)
Inductive Event :=
| EvCall {A : Type} (c : Call A) (r : PyExc + A)
| EvSleep (seconds : Z).

(** The external world.  [perform] answers a call and moves the world on;
    any call may raise.  [TranslationService_init] and
    [BlobServiceClient_init] are the constructors of the two clients (no
    I/O: they depend on the configuration only); [b64decode] is
    [base64.b64decode]; [json_error] is the text of the
    [requests.exceptions.JSONDecodeError] that [response.json()] raises
    on a body that is not JSON. *)
Class Backend (W : Type) := {
  perform : forall {A : Type}, Call A -> W -> (PyExc + A) * W;
  utcnow : W -> Z;
  sleep : Z -> W -> W;
  TranslationService_init : gmap string string -> option PyExc;
  BlobServiceClient_init : string -> string -> option PyExc;
  b64decode : string -> PyExc + bytes;
  json_error : string -> string
}.

(* ===================================================================== *)
(** * The monad of runs: state, exceptions and a trace                    *)
(* ===================================================================== *)

Definition M (S A : Type) : Type := S -> (PyExc + A) * S * list Event.

Definition ret {S A} (a : A) : M S A := fun s => (inr a, s, []).

Definition raise {S A} (e : PyExc) : M S A := fun s => (inl e, s, []).

Definition bind {S A B} (m : M S A) (k : A -> M S B) : M S B :=
  fun s =>
    match m s with
    | (inr a, s1, ev1) =>
        match k a s1 with (r, s2, ev2) => (r, s2, ev1 ++ ev2) end
    | (inl e, s1, ev1) => (inl e, s1, ev1)
    end.

(** [try: m except Exception as e: handler e]. *)
Definition try_except {S A} (m : M S A) (handler : PyExc -> M S A) : M S A :=
  fun s =>
    match m s with
    | (inl e, s1, ev1) =>
        match handler e s1 with (r, s2, ev2) => (r, s2, ev1 ++ ev2) end
    | (inr a, s1, ev1) => (inr a, s1, ev1)
    end.

Definition gets {S A} (f : S -> A) : M S A := fun s => (inr (f s), s, []).

Definition modify {S} (f : S -> S) : M S unit := fun s => (inr tt, f s, []).

(** Run a computation on a part of the state. *)
Definition zoom {S T A} (get : S -> T) (set : T -> S -> S) (m : M T A)
  : M S A :=
  fun s => match m (get s) with (r, t, ev) => (r, set t s, ev) end.

(** [d[key]] on an optional entry. *)
Definition getitem {S A} (key : string) (o : option A) : M S A :=
  match o with
  | Some a => ret a
  | None => raise (KeyError key)
  end.

Declare Scope run_scope.
Delimit Scope run_scope with run.
Notation "x <- m ;; k" := (bind m (fun x => k))
  (at level 100, m at next level, right associativity) : run_scope.
Notation "m ;;; k" := (bind m (fun _ => k))
  (at level 100, right associativity) : run_scope.
Local Open Scope run_scope.

Section Primitives.
Context {W : Type} `{Backend W}.

Definition call {A} (c : Call A) : M W A :=
  fun w => match perform c w with (r, w1) => (r, w1, [EvCall c r]) end.

(** [await asyncio.sleep(seconds)]. *)
Definition asyncio_sleep (seconds : Z) : M W unit :=
  fun w => (inr tt, sleep seconds w, [EvSleep seconds]).

(** [datetime.utcnow()]. *)
Definition datetime_utcnow : M W Z := gets utcnow.

End Primitives.

(** Observations on a trace. *)
Definition is_status_call (e : Event) : bool :=
  match e with
  | EvCall (CheckTranslationStatus _) _ => true
  | _ => false
  end.

Definition is_start_translation (e : Event) : bool :=
  match e with
  | EvCall (StartTranslation _ _ _) _ => true
  | _ => false
  end.

Definition is_token_request (token_url : string) (e : Event) : bool :=
  match e with
  | EvCall (HttpPost url _ _) _ => String.eqb url token_url
  | _ => false
  end.

Definition sleep_seconds (e : Event) : option Z :=
  match e with
  | EvSleep n => Some n
  | _ => None
  end.

(** A status request answered with [status], and whether that answer is
    [Succeeded]. *)
Definition poll (translation_id : string) (status : StatusDict) : Event :=
  EvCall (CheckTranslationStatus translation_id) (inr status).

Definition succeeded (status : StatusDict) : bool :=
  String.eqb (st_status status) "Succeeded".

Definition token_requests (token_url : string) (ev : list Event) : nat :=
  length (filter (fun e => is_token_request token_url e = true) ev).

(** The sleeps of a trace, in order, and the delay they add up to. *)
Definition sleeps (ev : list Event) : list Z := omap sleep_seconds ev.
Definition total_sleep (ev : list Event) : Z := foldr Z.add 0 (sleeps ev).
Definition status_calls (ev : list Event) : nat :=
  length (filter (fun e => is_status_call e = true) ev).

(* ===================================================================== *)
(** * src/services/blob_service.py                                        *)
(* ===================================================================== *)

Module BlobService.

Definition underscore : ascii := "_"%char.
Definition dot : ascii := "."%char.
Definition hyphen : ascii := "-"%char.
Definition space : ascii := " "%char.

(** The class [[a-zA-Z0-9._]]. *)
Definition allowed (c : ascii) : bool :=
  Py.is_lower c || Py.is_upper c || Py.is_digit c
  || Ascii.eqb c dot || Ascii.eqb c underscore.

(** [re.sub(r'[^a-zA-Z0-9._]', '_', s)]. *)
Fixpoint sub_disallowed (s : string) : string :=
  match s with
  | EmptyString => EmptyString
  | String a s' =>
      String (if allowed a then a else underscore) (sub_disallowed s')
  end.

Definition starts_with (c : ascii) (s : string) : bool :=
  match s with
  | String a _ => Ascii.eqb a c
  | EmptyString => false
  end.

(** [re.sub(r'_+', '_', s)]: every maximal run of underscores becomes one
    underscore (an underscore followed by another one is dropped). *)
Fixpoint sub_underscore_runs (s : string) : string :=
  match s with
  | EmptyString => EmptyString
  | String a s' =>
      if Ascii.eqb a underscore && starts_with underscore s'
      then sub_underscore_runs s'
      else String a (sub_underscore_runs s')
  end.

Definition max_length : Z := 200.

(** The first statements of [_normalize_blob_name] (lines 280-289): the
    name before its length is limited. *)
Definition cleaned (file_name : string) : string :=
  let normalized := Py.replace hyphen underscore
                      (Py.replace space underscore file_name) in
  let normalized := sub_disallowed normalized in
  let normalized := sub_underscore_runs normalized in
  Py.strip underscore normalized.

(** The length limit of [_normalize_blob_name] (lines 292-299). *)
Definition limit_length (normalized : string) : string :=
  if Py.len normalized >? max_length then
    if Py.contains dot normalized then
      let '(name_part, ext) := Py.rsplit_pair dot normalized in
      let max_name_length := max_length - Py.len ext - 1 in
      Py.slice_to max_name_length name_part +:+ "." +:+ ext
    else
      Py.slice_to max_length normalized
  else normalized.

(** [BlobService._normalize_blob_name] (the logging left out). *)
Definition _normalize_blob_name (file_name : string) : string :=
  limit_length (cleaned file_name).

(** [file_base, file_ext = name.rsplit('.', 1) if '.' in name else (name, '')] *)
Definition split_extension (name : string) : string * string :=
  if Py.contains dot name then Py.rsplit_pair dot name
  else (name, EmptyString).

(** The output naming convention, as written three times in the source
    ([prepare_blobs], [prepare_translation_urls], [save_to_onedrive]):
    [f"{file_base}-{target_language}.{file_ext}" if file_ext
     else f"{file_base}-{target_language}"]. *)
Definition output_name (name target_language : string) : string :=
  let '(file_base, file_ext) := split_extension name in
  if Py.truthy file_ext
  then file_base +:+ "-" +:+ target_language +:+ "." +:+ file_ext
  else file_base +:+ "-" +:+ target_language.


(** The instance attributes set by [__init__]. *)
Record t := {
  account_name : option string;
  account_key : string;
  input_container : string;
  output_container : string
}.

(** The dictionary returned by [prepare_blobs] and
    [prepare_translation_urls]; the recovery path of [get_result] builds
    one with the key [target_url] only, hence the options. *)
Record BlobUrls := {
  source_url : option string;
  target_url : option string;
  input_blob_name : option string;
  output_blob_name : option string;
  original_file_name : option string;
  normalized_file_name : option string
}.

Definition hour : Z := 3600 * 1000000.

Section Methods.
Context {W : Type} `{Backend W}.

(** [BlobService()]: [os.getenv('AZURE_ACCOUNT_KEY')] is [None] when the
    variable is unset, and [None.endswith] raises. *)
Definition new (environ : gmap string string) : PyExc + t :=
  match environ !! "AZURE_ACCOUNT_KEY" with
  | None =>
      inl (AttributeError
             "'NoneType' object has no attribute 'endswith'")
  | Some key =>
      let key := if Py.endswith "==" key then key else key +:+ "==" in
      let name := environ !! "AZURE_ACCOUNT_NAME" in
      match BlobServiceClient_init
              ("https://" +:+ Py.fmt name +:+ ".blob.core.windows.net")
              key with
      | Some e => inl e
      | None =>
          inr {| account_name := name;
                 account_key := key;
                 input_container := "doc-to-trad";
                 output_container := "doc-trad" |}
      end
  end.

(** [download_translated_file]: container and blob are cut out of the
    URL; every failure is re-raised as a plain [Exception]. *)
Definition download_translated_file (url : string) : M W bytes :=
  try_except
    (let url_parts := Py.split "/" url in
     container_name <-
       match Py.last2 url_parts with
       | Some c => ret c
       | None => raise (IndexError "list index out of range")
       end ;;
     let blob_name_with_sas := default EmptyString (Py.last1 url_parts) in
     let blob_name :=
       hd EmptyString (Py.split "?" blob_name_with_sas) in
     present <- call (BlobExists container_name blob_name) ;;
     if negb present then
       raise (FileNotFoundError
                ("Le fichier traduit " +:+ blob_name +:+
                 " n'existe pas dans le conteneur " +:+ container_name))
     else call (BlobDownload container_name blob_name))
    (fun e =>
       raise (Exception
                ("Erreur lors de la récupération: " +:+ str_exc e))).

(** [_generate_sas_url]; an unknown permission string falls back to
    read-only ([perm_map.get(permissions, read)]). *)
Definition _generate_sas_url (container_name blob_name permissions : string)
  : M W string :=
  let permission :=
    if String.eqb permissions "r" || String.eqb permissions "w"
       || String.eqb permissions "rw"
    then permissions else "r" in
  call (GenerateSas container_name blob_name permission).

(** The loop of [_delete_old_files]; comparing a missing
    [last_modified] with the cutoff raises. *)
Fixpoint delete_older (container_name : string) (cutoff_time : Z)
  (blob_list : list BlobProperties) : M W unit :=
  match blob_list with
  | [] => ret tt
  | blob :: rest =>
      match bp_last_modified blob with
      | None =>
          raise (TypeError
            "'<' not supported between 'NoneType' and 'datetime'")
      | Some modified =>
          if modified <? cutoff_time then
            call (BlobDelete container_name (bp_name blob)) ;;;
            delete_older container_name cutoff_time rest
          else delete_older container_name cutoff_time rest
      end
  end.

(** [_delete_old_files]: failures are logged and swallowed. *)
Definition _delete_old_files (container_name : string) (max_age_hours : Z)
  : M W unit :=
  try_except
    (blob_list <- call (ListBlobs container_name) ;;
     now <- datetime_utcnow ;;
     let cutoff_time := now - max_age_hours * hour in
     delete_older container_name cutoff_time blob_list)
    (fun _ => ret tt).

(** [_check_and_delete_target_blob]: failures are logged and swallowed. *)
Definition _check_and_delete_target_blob (container_name blob_name : string)
  : M W unit :=
  try_except
    (present <- call (BlobExists container_name blob_name) ;;
     if present then call (BlobDelete container_name blob_name)
     else ret tt)
    (fun _ => ret tt).

(** [check_blob_exists]: an exception of the storage call is logged and
    answered with [False]. *)
Definition check_blob_exists (container blob_name : string) : M W bool :=
  try_except
    (call (BlobExists container blob_name))
    (fun _ => ret false).

(** [prepare_translation_urls]; its [except] clause logs and re-raises. *)
Definition prepare_translation_urls (self : t)
  (input_blob target_language : string) : M W BlobUrls :=
  let output_blob := output_name input_blob target_language in
  _delete_old_files (output_container self) 1 ;;;
  _check_and_delete_target_blob (output_container self) output_blob ;;;
  source <- _generate_sas_url (input_container self) input_blob "r" ;;
  target <- _generate_sas_url (output_container self) output_blob "rw" ;;
  ret {| source_url := Some source;
         target_url := Some target;
         input_blob_name := Some input_blob;
         output_blob_name := Some output_blob;
         original_file_name := Some input_blob;
         normalized_file_name := Some input_blob |}.

(** [prepare_blobs]: the same with an uploaded file, whose name is
    normalised first; its [except] clause logs and re-raises. *)
Definition prepare_blobs (self : t)
  (file_content_base64 file_name target_language : string)
  : M W BlobUrls :=
  let normalized := _normalize_blob_name file_name in
  let input_blob := normalized in
  let output_blob := output_name normalized target_language in
  _delete_old_files (output_container self) 1 ;;;
  _check_and_delete_target_blob (output_container self) output_blob ;;;
  file_content_binary <-
    match b64decode file_content_base64 with
    | inr data => ret data
    | inl e => raise e
    end ;;
  call (BlobUpload (input_container self) input_blob
          file_content_binary) ;;;
  source <- _generate_sas_url (input_container self) input_blob "r" ;;
  target <- _generate_sas_url (output_container self) output_blob "rw" ;;
  ret {| source_url := Some source;
         target_url := Some target;
         input_blob_name := Some input_blob;
         output_blob_name := Some output_blob;
         original_file_name := Some file_name;
         normalized_file_name := Some normalized |}.

(** The test of the loop of [list_input_files] (lines 320-323): without a
    filter ([None] or the empty string) every name is kept; with one, the
    names that end with a dot and the filter, case ignored. *)
Definition extension_matches (filter_extension : option string)
  (blob_name : string) : bool :=
  match filter_extension with
  | Some extension =>
      if Py.truthy extension then
        Py.endswith ("." +:+ Py.str_lower extension) (Py.str_lower blob_name)
      else true
  | None => true
  end.

(** [list_input_files]: the names of the input container that pass the
    filter, sorted; a failure is logged and answered with the empty
    list. *)
Definition list_input_files (self : t) (filter_extension : option string)
  : M W (list string) :=
  try_except
    (blobs <- call (ListBlobs (input_container self)) ;;
     let files :=
       List.filter (extension_matches filter_extension)
         (map bp_name blobs) in
     ret (Py.sorted files))
    (fun _ => ret []).

End Methods.

End BlobService.

(* ===================================================================== *)
(** * src/services/graph_service.py                                       *)
(* ===================================================================== *)

Module GraphService.

(** The instance attributes set by [__init__]; [_access_token] is the
    attribute the source calls its token cache. *)
Record t := {
  client_id : option string;
  client_secret : option string;
  tenant_id : option string;
  onedrive_folder : option string;
  enabled : bool;
  token_url : string;
  graph_base_url : string;
  _access_token : option string;
  _token_expires_at : Z
}.

Definition set_access_token (token : option string) (self : t) : t :=
  {| client_id := client_id self;
     client_secret := client_secret self;
     tenant_id := tenant_id self;
     onedrive_folder := onedrive_folder self;
     enabled := enabled self;
     token_url := token_url self;
     graph_base_url := graph_base_url self;
     _access_token := token;
     _token_expires_at := _token_expires_at self |}.

(** Truthiness of an [os.getenv] result: set and non-empty. *)
Definition truthy_opt (o : option string) : bool :=
  match o with Some s => Py.truthy s | None => false end.

(** [GraphService()]. *)
Definition new (environ : gmap string string) : t :=
  let cid := environ !! "CLIENT_ID" in
  let secret := environ !! "SECRET_ID" in
  let tenant := environ !! "TENANT_ID" in
  let folder := environ !! "ONEDRIVE_FOLDER" in
  {| client_id := cid;
     client_secret := secret;
     tenant_id := tenant;
     onedrive_folder := folder;
     enabled := truthy_opt cid && truthy_opt secret
                && truthy_opt tenant && truthy_opt folder;
     token_url := "https://login.microsoftonline.com/" +:+ Py.fmt tenant
                  +:+ "/oauth2/v2.0/token";
     graph_base_url := "https://graph.microsoft.com/v1.0";
     _access_token := None;
     _token_expires_at := 0 |}.

(** The client-credentials request of [_get_access_token]. *)
Definition token_request (g : t) : Call HttpResponse :=
  HttpPost (token_url g) None
    [("client_id", client_id g);
     ("scope", Some "https://graph.microsoft.com/.default");
     ("client_secret", client_secret g);
     ("grant_type", Some "client_credentials")].

(** [status in [200, 201]]. *)
Definition created_or_ok (code : Z) : bool := (code =? 200) || (code =? 201).

Section Methods.
Context {W : Type} `{Backend W}.

(** [response.json()]: on a body that is not JSON, [requests] raises its
    [JSONDecodeError], which is a [RequestException]. *)
Definition response_json {S} (response : HttpResponse)
  : M S (list (string * string)) :=
  match json response with
  | Some d => ret d
  | None => raise (RequestException (json_error (text response)))
  end.

(** The methods run on the instance and the world. *)
Definition io {A} (m : M W A) : M (t * W) A :=
  zoom snd (fun w s => (fst s, w)) m.

Definition self : M (t * W) t := gets fst.

(** [_get_access_token]: one POST to the identity endpoint; the token
    of a 200 answer is stored in [_access_token] and returned; every
    failure gives [None].  The attribute [_access_token] is written and
    never read. *)
Definition _get_access_token : M (t * W) (option string) :=
  try_except
    (g <- self ;;
     response <- io (call (token_request g)) ;;
     if negb (status_code response =? 200) then ret None
     else
       token_data <- response_json response ;;
       match Py.get "access_token" token_data with
       | Some access_token =>
           if Py.truthy access_token then
             modify (fun s => (set_access_token (Some access_token)
                                 (fst s), snd s)) ;;;
             ret (Some access_token)
           else ret None
       | None => ret None
       end)
    (fun _ => ret None).

(** [create_documents_folder]. *)
Definition create_documents_folder (user_id : string) : M (t * W) bool :=
  g <- self ;;
  if negb (enabled g) then ret false
  else
    try_except
      (access_token <- _get_access_token ;;
       if negb (truthy_opt access_token) then ret false
       else
         let folder_url :=
           graph_base_url g +:+ "/users/" +:+ user_id +:+ "/drive/root:/"
           +:+ Py.fmt (onedrive_folder g) in
         response <- io (call (HttpGet folder_url access_token)) ;;
         if status_code response =? 200 then ret true
         else
           let create_url :=
             graph_base_url g +:+ "/users/" +:+ user_id
             +:+ "/drive/root/children" in
           response <-
             io (call (HttpPost create_url access_token
                   [("name", onedrive_folder g);
                    ("folder", Some "{}");
                    ("@microsoft.graph.conflictBehavior",
                     Some "rename")])) ;;
           ret (created_or_ok (status_code response)))
      (fun _ => ret false).

(** [save_to_onedrive]: a [RequestException] is re-raised as a plain
    [Exception]; any other exception is logged and re-raised as is. *)
Definition save_to_onedrive (user_id : string) (file_content : bytes)
  (file_name target_language : string) : M (t * W) string :=
  g <- self ;;
  if negb (enabled g) then
    raise (Exception "Service MS Graph non configuré")
  else
    try_except
      (access_token <- _get_access_token ;;
       if negb (truthy_opt access_token) then
         raise (Exception
                  "Impossible d'obtenir le token d'accès MS Graph")
       else
         let onedrive_file_name :=
           BlobService.output_name file_name target_language in
         create_documents_folder user_id ;;;
         let upload_url :=
           graph_base_url g +:+ "/users/" +:+ user_id +:+ "/drive/root:/"
           +:+ Py.fmt (onedrive_folder g) +:+ "/" +:+ onedrive_file_name
           +:+ ":/content" in
         response <-
           io (call (HttpPut upload_url access_token file_content)) ;;
         if negb (created_or_ok (status_code response)) then
           raise (Exception
                    ("Erreur upload OneDrive: "
                     +:+ pretty (status_code response)))
         else
           file_info <- response_json response ;;
           ret (default "URL non disponible" (Py.get "webUrl" file_info)))
      (fun e =>
         if is_RequestException e then
           raise (Exception ("Erreur réseau OneDrive: " +:+ str_exc e))
         else raise e).

(** [check_user_access]: a GET on the user with a fresh token; every
    failure gives [False]. *)
Definition check_user_access (user_id : string) : M (t * W) bool :=
  g <- self ;;
  if negb (enabled g) then ret false
  else
    try_except
      (access_token <- _get_access_token ;;
       if negb (truthy_opt access_token) then ret false
       else
         response <-
           io (call (HttpGet (graph_base_url g +:+ "/users/" +:+ user_id)
                       access_token)) ;;
         ret (status_code response =? 200))
      (fun _ => ret false).

End Methods.

End GraphService.

(* ===================================================================== *)
(** * src/config.py                                                       *)
(* ===================================================================== *)

Module Config.

(** The class attributes the three class methods read, as the class body
    takes them from the environment when the module is imported. *)
Record t := {
  AZURE_ACCOUNT_NAME : option string;
  AZURE_ACCOUNT_KEY : option string;
  TRANSLATOR_KEY : option string;
  TRANSLATOR_ENDPOINT : option string;
  CLIENT_ID : option string;
  CLIENT_SECRET : option string;
  TENANT_ID : option string
}.

Definition load (environ : gmap string string) : t :=
  {| AZURE_ACCOUNT_NAME := environ !! "AZURE_ACCOUNT_NAME";
     AZURE_ACCOUNT_KEY := environ !! "AZURE_ACCOUNT_KEY";
     TRANSLATOR_KEY := environ !! "TRANSLATOR_TEXT_SUBSCRIPTION_KEY";
     TRANSLATOR_ENDPOINT := environ !! "TRANSLATOR_TEXT_ENDPOINT";
     CLIENT_ID := environ !! "CLIENT_ID";
     CLIENT_SECRET := environ !! "SECRET_ID";
     TENANT_ID := environ !! "TENANT_ID" |}.

(** [if not value: errors.append(message)]. *)
Definition missing (value : option string) (message : string)
  : list string :=
  if negb (GraphService.truthy_opt value) then [message] else [].

(** [Config.validate]: the list of the configuration errors. *)
Definition validate (cls : t) : list string :=
  missing (AZURE_ACCOUNT_NAME cls) "AZURE_ACCOUNT_NAME manquant"
  ++ missing (AZURE_ACCOUNT_KEY cls) "AZURE_ACCOUNT_KEY manquant"
  ++ missing (TRANSLATOR_KEY cls) "TRANSLATOR_TEXT_SUBSCRIPTION_KEY manquant"
  ++ missing (TRANSLATOR_ENDPOINT cls) "TRANSLATOR_TEXT_ENDPOINT manquant"
  ++ (if negb (GraphService.truthy_opt (CLIENT_ID cls)
               && GraphService.truthy_opt (CLIENT_SECRET cls)
               && GraphService.truthy_opt (TENANT_ID cls))
      then ["Configuration MS Graph incomplète (OneDrive non disponible)"]
      else []).

(** [Config.get_storage_url]. *)
Definition get_storage_url (cls : t) : string :=
  "https://" +:+ Py.fmt (AZURE_ACCOUNT_NAME cls) +:+ ".blob.core.windows.net".

(** [Config.get_translator_batch_url]; [None.endswith] raises. *)
Definition get_translator_batch_url (cls : t) : PyExc + string :=
  match TRANSLATOR_ENDPOINT cls with
  | None =>
      inl (AttributeError
             "'NoneType' object has no attribute 'endswith'")
  | Some endpoint =>
      let endpoint :=
        if negb (Py.endswith "/" endpoint) then endpoint +:+ "/"
        else endpoint in
      inr (endpoint +:+ "translator/text/batch/v1.1/batches")
  end.

End Config.

(* ===================================================================== *)
(** * Job records, requests and responses                                 *)
(* ===================================================================== *)

(** The dictionary kept per translation in [active_translations].  The keys
    every creation path sets are plain fields; [blob_name] is set by
    [translate_document] and by the recovery path, [file_name] by the MCP
    tool of api_server.py. *)
Module TranslationInfo.
Record t := {
  blob_name : option string;
  file_name : option string;
  target_language : string;
  user_id : string;
  blob_urls : BlobService.BlobUrls;
  status : option string;
  started_at : option Z;
  created_at : option Z;
  last_checked : option Z
}.

(** [info.get("blob_name", info.get("file_name", "Inconnu"))]. *)
Definition display_name (info : t) : string :=
  default (default "Inconnu" (file_name info)) (blob_name info).

(** [info["status"] = value] and [info["last_checked"] = now]. *)
Definition set_status (value : string) (info : t) : t :=
  {| blob_name := blob_name info;
     file_name := file_name info;
     target_language := target_language info;
     user_id := user_id info;
     blob_urls := blob_urls info;
     status := Some value;
     started_at := started_at info;
     created_at := created_at info;
     last_checked := last_checked info |}.

Definition set_last_checked (now : Z) (info : t) : t :=
  {| blob_name := blob_name info;
     file_name := file_name info;
     target_language := target_language info;
     user_id := user_id info;
     blob_urls := blob_urls info;
     status := status info;
     started_at := started_at info;
     created_at := created_at info;
     last_checked := Some now |}.
End TranslationInfo.

(** JSON values of a response body; [JTime] stands for the ISO text of a
    time. *)
Inductive JVal :=
| JBool (b : bool)
| JStr (s : string)
| JNum (n : Z)
| JTime (t : Z).

(** [web.json_response(body, status=...)]; the body keeps the insertion
    order of the Python dictionary. *)
Record Response := {
  resp_status : Z;
  resp_body : list (string * JVal)
}.

Definition json_response (body : list (string * JVal)) (status : Z)
  : Response :=
  {| resp_status := status; resp_body := body |}.

(** An aiohttp request: the JSON body (or the exception its decoding
    raises), the route parameters and the query string. *)
Record Request := {
  req_json : PyExc + gmap string string;
  match_info : gmap string string;
  query : gmap string string
}.

Definition newline : string := String (ascii_of_nat 10) EmptyString.

(** The values of the body of a listing: a list of names and [null]
    besides the values above. *)
Inductive JItem :=
| JPlain (v : JVal)
| JNames (names : list string)
| JNull.

Record Listing := {
  listing_status : Z;
  listing_body : list (string * JItem)
}.

(* ===================================================================== *)
(** * api_server.py                                                       *)
(* ===================================================================== *)

Module ApiServer.

(** The process: the world outside, the configuration, and the module
    global [active_translations]. *)
Record State {W : Type} := {
  world : W;
  environ : gmap string string;
  active_translations : gmap string TranslationInfo.t
}.
Arguments State : clear implicits.

Definition set_world {W} (w : W) (s : State W) : State W :=
  {| world := w; environ := environ s;
     active_translations := active_translations s |}.

Definition set_active_translations {W}
  (f : gmap string TranslationInfo.t -> gmap string TranslationInfo.t)
  (s : State W) : State W :=
  {| world := world s; environ := environ s;
     active_translations := f (active_translations s) |}.

(** An entry of [recent_files] in the recovery path. *)
Record RecentFile := {
  rf_name : string;
  rf_size : Z;
  rf_last_modified : Z;
  rf_url : string
}.

(** [max(recent_files, key=lambda x: x['last_modified'])]: the first of
    the most recent entries. *)
Fixpoint max_last_modified (best : RecentFile) (l : list RecentFile)
  : RecentFile :=
  match l with
  | [] => best
  | x :: rest =>
      max_last_modified
        (if rf_last_modified best <? rf_last_modified x then x else best)
        rest
  end.

(** The reverse mapping of the recovery path (lines 680-701): from the
    name of a translated object to [(blob_name, target_language)]. *)
Definition reverse_output_name (file_name : string) : string * string :=
  if Py.contains "." file_name then
    let '(name_part, extension) := Py.rsplit_pair "." file_name in
    if Py.contains "-" name_part then
      let original_name := fst (Py.rsplit_pair "-" name_part) in
      let target_language := snd (Py.rsplit_pair "-" name_part) in
      (original_name +:+ "." +:+ extension, target_language)
    else (file_name, "unknown")
  else
    if Py.contains "-" file_name then
      let original_name := fst (Py.rsplit_pair "-" file_name) in
      let target_language := snd (Py.rsplit_pair "-" file_name) in
      (original_name, target_language)
    else (file_name, "unknown").

(** The files of the listing modified less than 7200 s before [now]. *)
Definition recent_files_of (self : BlobService.t) (now : Z)
  (blobs : list BlobProperties) : list RecentFile :=
  omap (fun blob =>
          match bp_last_modified blob with
          | Some modified =>
              if now - modified <? 7200 * 1000000 then
                Some {| rf_name := bp_name blob;
                        rf_size := bp_size blob;
                        rf_last_modified := modified;
                        rf_url :=
                          "https://"
                          +:+ Py.fmt (BlobService.account_name self)
                          +:+ ".blob.core.windows.net/"
                          +:+ BlobService.output_container self
                          +:+ "/" +:+ bp_name blob |}
              else None
          | None => None
          end) blobs.

Definition max_retries : nat := 3.

Definition required_fields : list string :=
  ["blob_name"; "target_language"; "user_id"].

Section Handlers.
Context {W : Type} `{Backend W}.

Definition io {A} (m : M W A) : M (State W) A := zoom world set_world m.

(** A method call on a [GraphService] instance local to the request. *)
Definition with_graph {A} (g : GraphService.t)
  (m : M (GraphService.t * W) A) : M (State W) A :=
  zoom (fun s => (g, world s)) (fun gw s => set_world (snd gw) s) m.

Definition new_BlobService : M (State W) BlobService.t :=
  env <- gets environ ;;
  match BlobService.new env with
  | inr service => ret service
  | inl e => raise e
  end.

Definition new_TranslationService : M (State W) unit :=
  env <- gets environ ;;
  match TranslationService_init env with
  | None => ret tt
  | Some e => raise e
  end.

(** [del active_translations[translation_id]]. *)
Definition del_translation (translation_id : string) : M (State W) unit :=
  registry <- gets active_translations ;;
  match registry !! translation_id with
  | Some _ => modify (set_active_translations (delete translation_id))
  | None => raise (KeyError translation_id)
  end.

(** [translate_document] (POST /translate). *)
Definition translate_document (request : Request) : M (State W) Response :=
  try_except
    (data <- match req_json request with
             | inr d => ret d
             | inl e => raise e
             end ;;
     match List.find (fun field => negb (bool_decide (is_Some (data !! field))))
             required_fields with
     | Some field =>
         ret (json_response
                [("success", JBool false);
                 ("error", JStr ("Paramètre manquant: " +:+ field))] 400)
     | None =>
         blob_name <- getitem "blob_name" (data !! "blob_name") ;;
         target_language <-
           getitem "target_language" (data !! "target_language") ;;
         user_id <- getitem "user_id" (data !! "user_id") ;;
         blob_service <- new_BlobService ;;
         new_TranslationService ;;;
         blob_exists <-
           io (BlobService.check_blob_exists
                 (BlobService.input_container blob_service) blob_name) ;;
         if negb blob_exists then
           ret (json_response
                  [("success", JBool false);
                   ("error",
                    JStr ("Fichier '" +:+ blob_name
                          +:+ "' non trouvé dans le container "
                          +:+ BlobService.input_container blob_service))]
                  404)
         else
           blob_urls <-
             io (BlobService.prepare_translation_urls blob_service
                   blob_name target_language) ;;
           source <-
             getitem "source_url" (BlobService.source_url blob_urls) ;;
           target <-
             getitem "target_url" (BlobService.target_url blob_urls) ;;
           translation_id <-
             io (call (StartTranslation source target target_language)) ;;
           now <- io datetime_utcnow ;;
           modify (set_active_translations
                     (<[translation_id :=
                          {| TranslationInfo.blob_name := Some blob_name;
                             TranslationInfo.file_name := None;
                             TranslationInfo.target_language :=
                               target_language;
                             TranslationInfo.user_id := user_id;
                             TranslationInfo.blob_urls := blob_urls;
                             TranslationInfo.status := Some "En cours";
                             TranslationInfo.started_at := Some now;
                             TranslationInfo.created_at := Some now;
                             TranslationInfo.last_checked := None |}]>)) ;;;
           ret (json_response
                  [("success", JBool true);
                   ("translation_id", JStr translation_id);
                   ("message",
                    JStr ("Traduction démarrée avec succès pour "
                          +:+ blob_name));
                   ("status", JStr "En cours");
                   ("target_language", JStr target_language);
                   ("estimated_time", JStr "2-5 minutes")] 200)
     end)
    (fun e =>
       ret (json_response
              [("success", JBool false);
               ("error",
                JStr ("Erreur lors de la traduction: " +:+ str_exc e))]
              500)).

(** The recovery path of [get_result] (lines 645-722), taken when the
    job is not in [active_translations]: the most recent object of the
    output container stands in for the job.  [inl] is an early
    [return] of the handler. *)
Definition recover_translation_info (translation_id : string)
  : M (State W) (Response + TranslationInfo.t) :=
  blob_service <- new_BlobService ;;
  try_except
    (blobs <-
       io (call (ListBlobs (BlobService.output_container blob_service))) ;;
     now <- io datetime_utcnow ;;
     match recent_files_of blob_service now blobs with
     | first :: rest =>
         let recent_file := max_last_modified first rest in
         let '(blob_name, target_language) :=
           reverse_output_name (rf_name recent_file) in
         ret (inr
           {| TranslationInfo.blob_name := Some blob_name;
              TranslationInfo.file_name := None;
              TranslationInfo.target_language := target_language;
              TranslationInfo.user_id := "unknown";
              TranslationInfo.blob_urls :=
                {| BlobService.source_url := None;
                   BlobService.target_url := Some (rf_url recent_file);
                   BlobService.input_blob_name := None;
                   BlobService.output_blob_name := None;
                   BlobService.original_file_name := None;
                   BlobService.normalized_file_name := None |};
              TranslationInfo.status := None;
              TranslationInfo.started_at := None;
              TranslationInfo.created_at := None;
              TranslationInfo.last_checked := None |})
     | [] =>
         ret (inl (json_response
           [("success", JBool false);
            ("error",
             JStr ("Traduction '" +:+ translation_id +:+
               "' non trouvée et aucun fichier récent dans le container"))]
           404))
     end)
    (fun search_error =>
       ret (inl (json_response
         [("success", JBool false);
          ("error",
           JStr ("Traduction '" +:+ translation_id
                 +:+ "' non trouvée en mémoire: "
                 +:+ str_exc search_error))]
         404))).

(** The response of the last polling attempt that is not [Succeeded]. *)
Definition not_finished (status : StatusDict) : Response :=
  json_response
    [("success", JBool false);
     ("error",
      JStr ("La traduction n'est pas encore terminée après "
            +:+ pretty max_retries +:+ " vérifications (statut: "
            +:+ st_status status +:+ ")"))]
    400.

(** The response when the download after a confirmed status fails. *)
Definition download_impossible (final_error : PyExc) : Response :=
  json_response
    [("success", JBool false);
     ("error",
      JStr ("Impossible de télécharger le fichier traduit: "
            +:+ str_exc final_error))]
    500.

(** The polling loop [for retry in range(max_retries)] (lines 748-767)
    over the remaining values of [retry].  [None]: the loop was left
    (by [break] on [Succeeded]); [Some r]: the handler returned [r]. *)
Fixpoint poll_status (translation_id : string) (retries : list nat)
  : M W (option Response) :=
  match retries with
  | [] => ret None
  | retry :: rest =>
      status <- call (CheckTranslationStatus translation_id) ;;
      if String.eqb (st_status status) "Succeeded" then ret None
      else if (retry <? max_retries - 1)%nat then
        asyncio_sleep 5 ;;;
        poll_status translation_id rest
      else ret (Some (not_finished status))
  end.

(** [download_translated_file(translation_info["blob_urls"]["target_url"])]. *)
Definition download_target (translation_info : TranslationInfo.t)
  : M (State W) bytes :=
  url <- getitem "target_url"
           (BlobService.target_url
              (TranslationInfo.blob_urls translation_info)) ;;
  io (BlobService.download_translated_file url).

(** Lines 729-781: the direct download first; when it fails, the
    polling loop and one more download. *)
Definition fetch_translated_content (translation_id : string)
  (translation_info : TranslationInfo.t) : M (State W) (Response + bytes) :=
  try_except
    (translated_content <- download_target translation_info ;;
     ret (inr translated_content))
    (fun download_error =>
       polled <- io (poll_status translation_id (seq 0 max_retries)) ;;
       match polled with
       | Some early => ret (inl early)
       | None =>
           try_except
             (translated_content <- download_target translation_info ;;
              ret (inr translated_content))
             (fun final_error =>
                ret (inl (download_impossible final_error)))
       end).

(** The entries of the success response that do not depend on the
    import to OneDrive. *)
Definition success_body (translation_id : string)
  (translation_info : TranslationInfo.t) (translated_content : bytes)
  (now : Z) : list (string * JVal) :=
  [("success", JBool true);
   ("translation_id", JStr translation_id);
   ("file_name", JStr (TranslationInfo.display_name translation_info));
   ("target_language",
    JStr (TranslationInfo.target_language translation_info));
   ("file_size", JNum (Z.of_nat (length translated_content)));
   ("completed_at", JTime now)].

(** Lines 783-813: the body of the success response and the import to
    OneDrive, whose failure only adds two entries to the body. *)
Definition deliver (translation_id : string)
  (translation_info : TranslationInfo.t)
  (graph_service : GraphService.t) (translated_content : bytes)
  : M (State W) (list (string * JVal)) :=
  now <- io datetime_utcnow ;;
  let response_data :=
    success_body translation_id translation_info translated_content
      now in
  if GraphService.enabled graph_service then
    try_except
      (onedrive_url <-
         with_graph graph_service
           (GraphService.save_to_onedrive
              (TranslationInfo.user_id translation_info)
              translated_content
              (TranslationInfo.display_name translation_info)
              (TranslationInfo.target_language translation_info)) ;;
       ret (response_data
            ++ [("onedrive_url", JStr onedrive_url);
                ("saved_to_onedrive", JBool true)]))
      (fun e =>
         ret (response_data
              ++ [("onedrive_error", JStr (str_exc e));
                  ("saved_to_onedrive", JBool false)]))
  else
    ret (response_data
         ++ [("saved_to_onedrive", JBool false);
             ("onedrive_error", JStr "Service OneDrive non configuré")]).

(** The response of the outermost [except] clause of [get_result]. *)
Definition retrieval_error (e : PyExc) : Response :=
  json_response
    [("success", JBool false);
     ("error", JStr ("Erreur lors de la récupération: " +:+ str_exc e))]
    500.

(** [get_result] (GET /result/{translation_id}).  The query parameter
    [save_to_onedrive] is read and not used afterwards. *)
Definition get_result (request : Request) : M (State W) Response :=
  try_except
    (translation_id <-
       getitem "translation_id" (match_info request !! "translation_id") ;;
     let save_to_onedrive :=
       String.eqb
         (Py.lower (default "true" (query request !! "save_to_onedrive")))
         "true" in
     registry <- gets active_translations ;;
     found <-
       match registry !! translation_id with
       | Some translation_info => ret (inr translation_info)
       | None => recover_translation_info translation_id
       end ;;
     match found with
     | inl early => ret early
     | inr translation_info =>
         new_TranslationService ;;;
         blob_service <- new_BlobService ;;
         env <- gets environ ;;
         let graph_service := GraphService.new env in
         fetched <-
           fetch_translated_content translation_id translation_info ;;
         match fetched with
         | inl early => ret early
         | inr translated_content =>
             response_data <-
               deliver translation_id translation_info graph_service
                 translated_content ;;
             del_translation translation_id ;;;
             ret (json_response response_data 200)
         end
     end)
    (fun e => ret (retrieval_error e)).

(** [active_translations[translation_id][key] = value], as an update [f]
    of the record. *)
Definition update_translation (translation_id : string)
  (f : TranslationInfo.t -> TranslationInfo.t) : M (State W) unit :=
  registry <- gets active_translations ;;
  match registry !! translation_id with
  | Some _ => modify (set_active_translations (alter f translation_id))
  | None => raise (KeyError translation_id)
  end.

(** The answer of [check_status] for an identifier that is not in the
    table. *)
Definition unknown_translation (translation_id : string) : Response :=
  json_response
    [("success", JBool false);
     ("error", JStr ("Traduction '" +:+ translation_id +:+ "' non trouvée"))]
    404.

(** The body of the answer of [check_status] (lines 605-617). *)
Definition status_body (translation_id : string) (status : StatusDict)
  (translation_info : TranslationInfo.t) (started_at : Z)
  : list (string * JVal) :=
  let response_data :=
    [("success", JBool true);
     ("translation_id", JStr translation_id);
     ("status", JStr (st_status status));
     ("file_name", JStr (TranslationInfo.display_name translation_info));
     ("target_language",
      JStr (TranslationInfo.target_language translation_info));
     ("progress", JStr (default "En cours..." (st_progress status)));
     ("started_at", JTime started_at)] in
  if String.eqb (st_status status) "Failed" then
    response_data
    ++ [("error", JStr (default "Erreur inconnue" (st_error status)))]
  else response_data.

(** [check_status] (GET /status/{translation_id}). *)
Definition check_status (request : Request) : M (State W) Response :=
  try_except
    (translation_id <-
       getitem "translation_id" (match_info request !! "translation_id") ;;
     registry <- gets active_translations ;;
     match registry !! translation_id with
     | None => ret (unknown_translation translation_id)
     | Some _ =>
         new_TranslationService ;;;
         status <- io (call (CheckTranslationStatus translation_id)) ;;
         update_translation translation_id
           (TranslationInfo.set_status (st_status status)) ;;;
         now <- io datetime_utcnow ;;
         update_translation translation_id
           (TranslationInfo.set_last_checked now) ;;;
         registry <- gets active_translations ;;
         translation_info <-
           getitem translation_id (registry !! translation_id) ;;
         started_at <-
           getitem "started_at"
             (TranslationInfo.started_at translation_info) ;;
         ret (json_response
                (status_body translation_id status translation_info
                   started_at) 200)
     end)
    (fun e =>
       ret (json_response
              [("success", JBool false);
               ("error",
                JStr ("Erreur lors de la vérification: " +:+ str_exc e))]
              500)).

(** [list_files] (GET /files). *)
Definition list_files (request : Request) : M (State W) Listing :=
  try_except
    (let filter_extension := query request !! "extension" in
     blob_service <- new_BlobService ;;
     files <-
       io (BlobService.list_input_files blob_service filter_extension) ;;
     ret {| listing_status := 200;
            listing_body :=
              [("success", JPlain (JBool true));
               ("files", JNames files);
               ("count", JPlain (JNum (Z.of_nat (length files))));
               ("container",
                JPlain (JStr (BlobService.input_container blob_service)));
               ("filter_extension",
                match filter_extension with
                | Some extension => JPlain (JStr extension)
                | None => JNull
                end)] |})
    (fun e =>
       ret {| listing_status := 500;
              listing_body :=
                [("success", JPlain (JBool false));
                 ("error",
                  JPlain
                    (JStr ("Erreur lors de la récupération des fichiers: "
                           +:+ str_exc e)))] |}).

End Handlers.

End ApiServer.

(* ===================================================================== *)
(** * server.py                                                           *)
(* ===================================================================== *)

Module McpServer.

(** The world outside and the attributes of the one
    [TranslationMCPServer] of the process. *)
Record State {W : Type} := {
  world : W;
  blob_service : BlobService.t;
  graph_service : GraphService.t;
  active_translations : gmap string TranslationInfo.t
}.
Arguments State : clear implicits.

Definition set_world {W} (w : W) (s : State W) : State W :=
  {| world := w; blob_service := blob_service s;
     graph_service := graph_service s;
     active_translations := active_translations s |}.

Definition set_graph {W} (gw : GraphService.t * W) (s : State W) : State W :=
  {| world := snd gw; blob_service := blob_service s;
     graph_service := fst gw;
     active_translations := active_translations s |}.

Definition set_active_translations {W}
  (f : gmap string TranslationInfo.t -> gmap string TranslationInfo.t)
  (s : State W) : State W :=
  {| world := world s; blob_service := blob_service s;
     graph_service := graph_service s;
     active_translations := f (active_translations s) |}.

(** The arguments of a tool call; the handler answers with one text. *)
Record ToolArgs := {
  args : gmap string string;
  save_to_onedrive : option bool
}.

Section Handlers.
Context {W : Type} `{Backend W}.

Definition io {A} (m : M W A) : M (State W) A := zoom world set_world m.

Definition on_graph {A} (m : M (GraphService.t * W) A) : M (State W) A :=
  zoom (fun s => (graph_service s, world s)) set_graph m.

(** [_handle_translate_document]; [started_at], the time of the event loop
    in the source, is read from the clock of the world. *)
Definition _handle_translate_document (a : ToolArgs) : M (State W) string :=
  try_except
    (blob_name <- getitem "blob_name" (args a !! "blob_name") ;;
     target_language <-
       getitem "target_language" (args a !! "target_language") ;;
     user_id <- getitem "user_id" (args a !! "user_id") ;;
     service <- gets blob_service ;;
     blob_exists <-
       io (BlobService.check_blob_exists
             (BlobService.input_container service) blob_name) ;;
     if negb blob_exists then
       ret ("❌ Fichier '" +:+ blob_name
            +:+ "' non trouvé dans le container "
            +:+ BlobService.input_container service)
     else
       blob_urls <-
         io (BlobService.prepare_translation_urls service
               blob_name target_language) ;;
       source <- getitem "source_url" (BlobService.source_url blob_urls) ;;
       target <- getitem "target_url" (BlobService.target_url blob_urls) ;;
       translation_id <-
         io (call (StartTranslation source target target_language)) ;;
       now <- io datetime_utcnow ;;
       modify (set_active_translations
                 (<[translation_id :=
                      {| TranslationInfo.blob_name := Some blob_name;
                         TranslationInfo.file_name := None;
                         TranslationInfo.target_language := target_language;
                         TranslationInfo.user_id := user_id;
                         TranslationInfo.blob_urls := blob_urls;
                         TranslationInfo.status := Some "En cours";
                         TranslationInfo.started_at := Some now;
                         TranslationInfo.created_at := None;
                         TranslationInfo.last_checked := None |}]>)) ;;;
       ret ("✅ Traduction démarrée avec succès!" +:+ newline +:+ newline
            +:+ "📄 Fichier: " +:+ blob_name +:+ newline
            +:+ "🌍 Langue cible: " +:+ target_language +:+ newline
            +:+ "🆔 ID de traduction: " +:+ translation_id
            +:+ newline +:+ newline
            +:+ "💡 Utilisez 'check_translation_status' avec cet ID pour suivre l'avancement."))
    (fun e =>
       ret ("❌ Erreur lors du démarrage de la traduction: "
            +:+ str_exc e)).

Definition not_found (translation_id : string) : string :=
  "❌ Traduction '" +:+ translation_id +:+ "' non trouvée".

Definition not_finished (status : StatusDict) : string :=
  "⚠️ La traduction n'est pas encore terminée (statut: "
  +:+ st_status status +:+ ")".

(** The text of [_handle_get_result] before the import to OneDrive. *)
Definition result_message (info : TranslationInfo.t)
  (original : string) (content : bytes) : string :=
  ("✅ Document traduit récupéré avec succès!" +:+ newline +:+ newline)
  +:+ "📄 Fichier original: " +:+ original +:+ newline
  +:+ "🌍 Langue: " +:+ TranslationInfo.target_language info +:+ newline
  +:+ "📁 Taille: " +:+ pretty (length content) +:+ " bytes" +:+ newline.

(** [_handle_get_result]: the status is checked first; the download is
    attempted after a [Succeeded] status only. *)
Definition _handle_get_result (a : ToolArgs) : M (State W) string :=
  try_except
    (translation_id <-
       getitem "translation_id" (args a !! "translation_id") ;;
     let forward := default true (save_to_onedrive a) in
     registry <- gets active_translations ;;
     match registry !! translation_id with
     | None => ret (not_found translation_id)
     | Some translation_info =>
         status <- io (call (CheckTranslationStatus translation_id)) ;;
         if negb (String.eqb (st_status status) "Succeeded") then
           ret (not_finished status)
         else
           url <- getitem "target_url"
                    (BlobService.target_url
                       (TranslationInfo.blob_urls translation_info)) ;;
           translated_content <-
             io (BlobService.download_translated_file url) ;;
           let result_message :=
             "✅ Document traduit récupéré avec succès!"
             +:+ newline +:+ newline in
           original <-
             getitem "file_name"
               (TranslationInfo.file_name translation_info) ;;
           let result_message :=
             result_message +:+ "📄 Fichier original: " +:+ original
             +:+ newline
             +:+ "🌍 Langue: "
             +:+ TranslationInfo.target_language translation_info
             +:+ newline
             +:+ "📁 Taille: "
             +:+ pretty (length translated_content) +:+ " bytes"
             +:+ newline in
           result_message <-
             (if forward then
                try_except
                  (file_name <-
                     getitem "file_name"
                       (TranslationInfo.file_name translation_info) ;;
                   onedrive_url <-
                     on_graph
                       (GraphService.save_to_onedrive
                          (TranslationInfo.user_id translation_info)
                          translated_content file_name
                          (TranslationInfo.target_language
                             translation_info)) ;;
                   ret (result_message +:+ "☁️ Sauvegardé sur OneDrive: "
                        +:+ onedrive_url +:+ newline))
                  (fun e =>
                     ret (result_message
                          +:+ "⚠️ Échec sauvegarde OneDrive: "
                          +:+ str_exc e +:+ newline))
              else ret result_message) ;;
           registry <- gets active_translations ;;
           match registry !! translation_id with
           | Some _ =>
               modify (set_active_translations (delete translation_id))
           | None => raise (KeyError translation_id)
           end ;;;
           ret result_message
     end)
    (fun e =>
       ret ("❌ Erreur lors de la récupération: " +:+ str_exc e)).

(** The three texts of [_handle_check_status] (lines 234-261). *)
Definition status_text (translation_id file_name target_language : string)
  (status : StatusDict) : string :=
  if String.eqb (st_status status) "Succeeded" then
    "✅ Traduction terminée avec succès!" +:+ newline +:+ newline
    +:+ "📄 Fichier: " +:+ file_name +:+ newline
    +:+ "🌍 Langue: " +:+ target_language +:+ newline
    +:+ "🆔 ID: " +:+ translation_id +:+ newline +:+ newline
    +:+ "💡 Utilisez 'get_translation_result' pour récupérer le document traduit."
  else if String.eqb (st_status status) "Failed" then
    "❌ Traduction échouée" +:+ newline +:+ newline
    +:+ "📄 Fichier: " +:+ file_name +:+ newline
    +:+ "🆔 ID: " +:+ translation_id +:+ newline
    +:+ "🚨 Erreur: " +:+ default "Erreur inconnue" (st_error status)
  else
    "⏳ Traduction en cours..." +:+ newline +:+ newline
    +:+ "📄 Fichier: " +:+ file_name +:+ newline
    +:+ "🌍 Langue: " +:+ target_language +:+ newline
    +:+ "🆔 ID: " +:+ translation_id +:+ newline
    +:+ "📊 Statut: " +:+ default "En cours..." (st_progress status).

(** [_handle_check_status]: the status of the provider is stored in the
    record, then the record's [file_name] is read. *)
Definition _handle_check_status (a : ToolArgs) : M (State W) string :=
  try_except
    (translation_id <-
       getitem "translation_id" (args a !! "translation_id") ;;
     registry <- gets active_translations ;;
     match registry !! translation_id with
     | None => ret (not_found translation_id)
     | Some _ =>
         status <- io (call (CheckTranslationStatus translation_id)) ;;
         registry <- gets active_translations ;;
         match registry !! translation_id with
         | Some _ =>
             modify (set_active_translations
                       (alter (TranslationInfo.set_status (st_status status))
                          translation_id))
         | None => raise (KeyError translation_id)
         end ;;;
         registry <- gets active_translations ;;
         translation_info <-
           getitem translation_id (registry !! translation_id) ;;
         file_name <-
           getitem "file_name"
             (TranslationInfo.file_name translation_info) ;;
         let target_language :=
           TranslationInfo.target_language translation_info in
         ret (status_text translation_id file_name target_language status)
     end)
    (fun e =>
       ret ("❌ Erreur lors de la vérification: " +:+ str_exc e)).

(** The two texts of [_handle_list_files] (lines 342-355). *)
Definition no_files (container : string) : string :=
  "📁 Aucun fichier trouvé dans le container " +:+ container.

Definition files_text (container : string) (files : list string) : string :=
  let files_list :=
    Py.join newline (map (fun file => "📄 " +:+ file) files) in
  "📁 Fichiers disponibles dans " +:+ container +:+ ":"
  +:+ newline +:+ newline +:+ files_list +:+ newline +:+ newline
  +:+ "💡 Utilisez 'translate_document' avec le nom du fichier pour le traduire.".

(** [_handle_list_files]. *)
Definition _handle_list_files (a : ToolArgs) : M (State W) string :=
  try_except
    (let filter_extension := args a !! "filter_extension" in
     service <- gets blob_service ;;
     files <-
       io (BlobService.list_input_files service filter_extension) ;;
     match files with
     | [] => ret (no_files (BlobService.input_container service))
     | _ :: _ =>
         ret (files_text (BlobService.input_container service) files)
     end)
    (fun e =>
       ret ("❌ Erreur lors de la récupération des fichiers: "
            +:+ str_exc e)).

(** [call_tool]: the dispatch on the name of the tool. *)
Definition call_tool (name : string) (arguments : ToolArgs)
  : M (State W) string :=
  try_except
    (if String.eqb name "translate_document" then
       _handle_translate_document arguments
     else if String.eqb name "list_available_files" then
       _handle_list_files arguments
     else if String.eqb name "check_translation_status" then
       _handle_check_status arguments
     else if String.eqb name "get_translation_result" then
       _handle_get_result arguments
     else ret ("❌ Outil '" +:+ name +:+ "' non reconnu"))
    (fun e => ret ("❌ Erreur: " +:+ str_exc e)).

End Handlers.

End McpServer.

(* ===================================================================== *)
(** * A concrete world for evaluating the handlers                        *)
(* ===================================================================== *)

Module Scenario.

Record StoredBlob := {
  sb_container : string;
  sb_name : string;
  sb_content : bytes;
  sb_modified : Z
}.

(** A small deterministic world: a clock, the stored blobs, the answers
    the provider will give to the next status requests (the last one is
    repeated), and switches for the failures of storage, of the identity
    endpoint and of the upload to OneDrive ([upload_down]: the upload is
    refused; [upload_garbled]: it is answered 200 with a body that is not
    JSON). *)
Record World := {
  clock : Z;
  stored : list StoredBlob;
  provider_answers : list string;
  storage_down : bool;
  identity_down : bool;
  upload_down : bool;
  upload_garbled : bool
}.

Definition is_blob (container name : string) (b : StoredBlob) : bool :=
  String.eqb (sb_container b) container && String.eqb (sb_name b) name.

Definition find_blob (container name : string) (w : World)
  : option StoredBlob :=
  List.find (is_blob container name) (stored w).

Definition with_stored (l : list StoredBlob) (w : World) : World :=
  {| clock := clock w; stored := l;
     provider_answers := provider_answers w;
     storage_down := storage_down w;
     identity_down := identity_down w;
     upload_down := upload_down w;
     upload_garbled := upload_garbled w |}.

Definition with_answers (l : list string) (w : World) : World :=
  {| clock := clock w; stored := stored w;
     provider_answers := l;
     storage_down := storage_down w;
     identity_down := identity_down w;
     upload_down := upload_down w;
     upload_garbled := upload_garbled w |}.

Definition with_clock (t : Z) (w : World) : World :=
  {| clock := t; stored := stored w;
     provider_answers := provider_answers w;
     storage_down := storage_down w;
     identity_down := identity_down w;
     upload_down := upload_down w;
     upload_garbled := upload_garbled w |}.

Definition unavailable {A} (w : World) : (PyExc + A) * World :=
  (inl (ExternalError "ServiceUnavailable"), w).

Definition ok_response (fields : list (string * string)) (code : Z)
  : HttpResponse :=
  {| status_code := code; text := EmptyString;
     json := Some fields |}.

Definition token_endpoint : string :=
  "https://login.microsoftonline.com/tenant-1/oauth2/v2.0/token".

Definition answer {A} (c : Call A) (w : World) : (PyExc + A) * World :=
  match c in Call T return (PyExc + T) * World with
  | BlobExists container name =>
      if storage_down w then unavailable w
      else (inr (bool_decide (is_Some (find_blob container name w))), w)
  | BlobDownload container name =>
      if storage_down w then unavailable w
      else match find_blob container name w with
           | Some b => (inr (sb_content b), w)
           | None => (inl (ExternalError "BlobNotFound"), w)
           end
  | BlobDelete container name =>
      if storage_down w then unavailable w
      else (inr tt,
            with_stored
              (List.filter (fun b => negb (is_blob container name b))
                 (stored w)) w)
  | BlobUpload container name data =>
      (inr tt,
       with_stored
         ({| sb_container := container; sb_name := name;
             sb_content := data; sb_modified := clock w |}
          :: List.filter (fun b => negb (is_blob container name b))
               (stored w)) w)
  | ListBlobs container =>
      if storage_down w then unavailable w
      else (inr (map (fun b => {| bp_name := sb_name b;
                                  bp_size := Z.of_nat (length (sb_content b));
                                  bp_last_modified := Some (sb_modified b) |})
                   (List.filter
                      (fun b => String.eqb (sb_container b) container)
                      (stored w))), w)
  | GenerateSas container name permission =>
      (inr ("https://account1.blob.core.windows.net/" +:+ container
            +:+ "/" +:+ name +:+ "?sp=" +:+ permission), w)
  | StartTranslation _ _ _ => (inr "job-1", w)
  | CheckTranslationStatus _ =>
      match provider_answers w with
      | [] => unavailable w
      | [last] =>
          (inr {| st_status := last; st_progress := None;
                  st_error := None |}, w)
      | next :: rest =>
          (inr {| st_status := next; st_progress := None;
                  st_error := None |}, with_answers rest w)
      end
  | HttpPost url _ _ =>
      if String.eqb url token_endpoint then
        if identity_down w then
          (inr {| status_code := 401; text := "unauthorized";
                  json := None |}, w)
        else (inr (ok_response [("access_token", "token-1")] 200), w)
      else (inr (ok_response [] 201), w)
  | HttpGet _ _ => (inr (ok_response [] 200), w)
  | HttpPut url _ _ =>
      if upload_down w then
        (inr {| status_code := 503; text := "unavailable"; json := None |},
         w)
      else if upload_garbled w then
        (inr {| status_code := 200; text := "<html>"; json := None |}, w)
      else (inr (ok_response [("webUrl", "https://onedrive/" +:+ url)] 201),
            w)
  end.

(** [base64.b64decode], as [binascii.a2b_base64] computes it: the
    characters outside the alphabet are skipped, a complete padding ends
    the decoding, and a text that stops inside a group of four is an
    error; a text with a character that is not ASCII is refused. *)
Definition b64_value (c : ascii) : option N :=
  let n := N_of_ascii c in
  if ((65 <=? n) && (n <=? 90))%N then Some (n - 65)%N
  else if ((97 <=? n) && (n <=? 122))%N then Some (n - 71)%N
  else if ((48 <=? n) && (n <=? 57))%N then Some (n + 4)%N
  else if (n =? 43)%N then Some 62%N
  else if (n =? 47)%N then Some 63%N
  else None.

Definition byte_of (n : N) : Byte.byte :=
  default Byte.x00 (Byte.of_N (n mod 256)).

Definition is_pad (c : ascii) : bool := Ascii.eqb c "=".

Definition b64_error (decoded : nat) : PyExc :=
  ExternalError
    ("Invalid base64-encoded string: number of data characters ("
     +:+ pretty (decoded / 3 * 4 + 1)%nat
     +:+ ") cannot be 1 more than a multiple of 4").

Fixpoint a2b_base64 (s : string) (quad_pos pads leftchar : N) (out : bytes)
  : PyExc + bytes :=
  match s with
  | EmptyString =>
      if (quad_pos =? 0)%N then inr (rev out)
      else if (quad_pos =? 1)%N then inl (b64_error (length out))
      else inl (ExternalError "Incorrect padding")
  | String c rest =>
      if is_pad c then
        if (2 <=? quad_pos)%N then
          if (4 <=? quad_pos + (pads + 1))%N then inr (rev out)
          else a2b_base64 rest quad_pos (pads + 1) leftchar out
        else a2b_base64 rest quad_pos pads leftchar out
      else
        match b64_value c with
        | None => a2b_base64 rest quad_pos pads leftchar out
        | Some v =>
            if (quad_pos =? 0)%N then a2b_base64 rest 1 0 v out
            else if (quad_pos =? 1)%N then
              a2b_base64 rest 2 0 (v mod 16)
                (byte_of (leftchar * 4 + v / 16) :: out)
            else if (quad_pos =? 2)%N then
              a2b_base64 rest 3 0 (v mod 4)
                (byte_of (leftchar * 16 + v / 4) :: out)
            else
              a2b_base64 rest 0 0 0 (byte_of (leftchar * 64 + v) :: out)
        end
  end.

Fixpoint is_ascii_text (s : string) : bool :=
  match s with
  | EmptyString => true
  | String c rest => (N_of_ascii c <? 128)%N && is_ascii_text rest
  end.

Definition base64_b64decode (s : string) : PyExc + bytes :=
  if is_ascii_text s then a2b_base64 s 0 0 0 []
  else
    inl (ExternalError
           "string argument should contain only ASCII characters").

#[export] Instance backend : Backend World := {
  perform := @answer;
  utcnow := clock;
  sleep := fun seconds w => with_clock (clock w + seconds * 1000000) w;
  TranslationService_init := fun _ => None;
  BlobServiceClient_init := fun _ _ => None;
  b64decode := base64_b64decode;
  json_error := fun _ => "Expecting value: line 1 column 1 (char 0)"
}.

Definition second : Z := 1000000.

(** What [BlobService()] builds under the configurations below. *)
Definition service : BlobService.t :=
  {| BlobService.account_name := Some "account1";
     BlobService.account_key := "a2V5==";
     BlobService.input_container := "doc-to-trad";
     BlobService.output_container := "doc-trad" |}.

(** The configuration: storage only, or storage and OneDrive. *)
Definition storage_env : gmap string string :=
  list_to_map [("AZURE_ACCOUNT_NAME", "account1");
               ("AZURE_ACCOUNT_KEY", "a2V5")].

Definition full_env : gmap string string :=
  list_to_map [("AZURE_ACCOUNT_NAME", "account1");
               ("AZURE_ACCOUNT_KEY", "a2V5");
               ("CLIENT_ID", "client-1");
               ("SECRET_ID", "secret-1");
               ("TENANT_ID", "tenant-1");
               ("ONEDRIVE_FOLDER", "Translations")].

Definition quiet : World :=
  {| clock := 10000 * second; stored := [];
     provider_answers := ["Running"];
     storage_down := false; identity_down := false;
     upload_down := false; upload_garbled := false |}.

Definition translated (name : string) (modified : Z) : StoredBlob :=
  {| sb_container := "doc-trad"; sb_name := name;
     sb_content := [Byte.x48; Byte.x6f; Byte.x6c; Byte.x61];
     sb_modified := modified |}.

Definition staged (name : string) : StoredBlob :=
  {| sb_container := "doc-to-trad"; sb_name := name;
     sb_content := [Byte.x48; Byte.x69]; sb_modified := 9000 * second |}.

(** The record [translate_document] stores for [report.pdf] to Spanish. *)
Definition job1 : TranslationInfo.t :=
  {| TranslationInfo.blob_name := Some "report.pdf";
     TranslationInfo.file_name := None;
     TranslationInfo.target_language := "es";
     TranslationInfo.user_id := "user-1";
     TranslationInfo.blob_urls :=
       {| BlobService.source_url :=
            Some "https://account1.blob.core.windows.net/doc-to-trad/report.pdf?sp=r";
          BlobService.target_url :=
            Some "https://account1.blob.core.windows.net/doc-trad/report-es.pdf?sp=rw";
          BlobService.input_blob_name := Some "report.pdf";
          BlobService.output_blob_name := Some "report-es.pdf";
          BlobService.original_file_name := Some "report.pdf";
          BlobService.normalized_file_name := Some "report.pdf" |};
     TranslationInfo.status := Some "En cours";
     TranslationInfo.started_at := Some (9500 * second);
     TranslationInfo.created_at := Some (9500 * second);
     TranslationInfo.last_checked := None |}.

Definition api_state (w : World) (env : gmap string string)
  (jobs : list (string * TranslationInfo.t)) : ApiServer.State World :=
  {| ApiServer.world := w; ApiServer.environ := env;
     ApiServer.active_translations := list_to_map jobs |}.

Definition mcp_state (w : World)
  (jobs : list (string * TranslationInfo.t)) : McpServer.State World :=
  {| McpServer.world := w;
     McpServer.blob_service := service;
     McpServer.graph_service := GraphService.new full_env;
     McpServer.active_translations := list_to_map jobs |}.

Definition tool_args (fields : list (string * string)) : McpServer.ToolArgs :=
  {| McpServer.args := list_to_map fields;
     McpServer.save_to_onedrive := None |}.

(** The world once the provider has written the translation of
    [report.pdf], while its status API still answers [Running]. *)
Definition ready : World :=
  with_stored [translated "report-es.pdf" (9900 * second)] quiet.

Definition hola : bytes := [Byte.x48; Byte.x6f; Byte.x6c; Byte.x61].

Definition job1_target : string :=
  "https://account1.blob.core.windows.net/doc-trad/report-es.pdf?sp=rw".

Definition running : StatusDict :=
  {| st_status := "Running"; st_progress := None; st_error := None |}.

(** The same record with the key [file_name], as the MCP tool of
    api_server.py stores it. *)
Definition job2 : TranslationInfo.t :=
  {| TranslationInfo.blob_name := None;
     TranslationInfo.file_name := Some "report.pdf";
     TranslationInfo.target_language := "es";
     TranslationInfo.user_id := "user-1";
     TranslationInfo.blob_urls := TranslationInfo.blob_urls job1;
     TranslationInfo.status := Some "En cours";
     TranslationInfo.started_at := Some (9500 * second);
     TranslationInfo.created_at := None;
     TranslationInfo.last_checked := None |}.




Definition with_storage_down (w : World) : World :=
  {| clock := clock w; stored := stored w;
     provider_answers := provider_answers w;
     storage_down := true;
     identity_down := identity_down w;
     upload_down := upload_down w;
     upload_garbled := upload_garbled w |}.

(** Two imports to OneDrive in a row on one [GraphService] instance. *)
Definition two_handoffs : M (GraphService.t * World) string :=
  (GraphService.save_to_onedrive "user-1" hola "report.pdf" "es" ;;;
   GraphService.save_to_onedrive "user-1" hola "notes.txt" "fr")%run.

Definition result_request (translation_id : string) : Request :=
  {| req_json := inl (ExternalError "no body");
     match_info := {[ "translation_id" := translation_id ]};
     query := ∅ |}.

Definition translate_request (blob_name target_language user_id : string)
  : Request :=
  {| req_json := inr (list_to_map [("blob_name", blob_name);
                                   ("target_language", target_language);
                                   ("user_id", user_id)]);
     match_info := ∅; query := ∅ |}.

(** The same request for a result with the import declined in the query
    string. *)
Definition declining_request (translation_id : string) : Request :=
  {| req_json := inl (ExternalError "no body");
     match_info := {[ "translation_id" := translation_id ]};
     query := {[ "save_to_onedrive" := "false" ]} |}.




Definition succeeded_status : StatusDict :=
  {| st_status := "Succeeded"; st_progress := None; st_error := None |}.

End Scenario.


(* ===================================================================== *)
(** * Properties of names                                                 *)
(* ===================================================================== *)

(** Every character of [s] satisfies [p]. *)
Fixpoint all_chars (p : ascii -> bool) (s : string) : bool :=
  match s with
  | EmptyString => true
  | String a s' => p a && all_chars p s'
  end.

(** No underscore of [s] is followed by another one. *)
Fixpoint no_underscore_run (s : string) : bool :=
  match s with
  | EmptyString => true
  | String a s' =>
      negb (Ascii.eqb a "_" && BlobService.starts_with "_" s')
      && no_underscore_run s'
  end.

(** The last character, if any. *)
Fixpoint last_char (s : string) : option ascii :=
  match s with
  | EmptyString => None
  | String a EmptyString => Some a
  | String _ s' => last_char s'
  end.

(* ===================================================================== *)
(** * Properties of runs                                                  *)
(* ===================================================================== *)

(** [emits P m]: every event of every run of [m] satisfies [P]. *)
Definition emits {S A} (P : Event -> Prop) (m : M S A) : Prop :=
  forall s r s1 ev, m s = (r, s1, ev) -> Forall P ev.

(** Events that are neither a status request nor a sleep. *)
Definition not_polling (e : Event) : Prop :=
  is_status_call e = false /\ sleep_seconds e = None.

(** [frames m]: a run of [m] changes the world only, not the table of
    jobs and not the configuration. *)
Definition frames {W A} (m : M (ApiServer.State W) A) : Prop :=
  forall s r s1 ev, m s = (r, s1, ev) -> exists w, s1 = ApiServer.set_world w s.

(** The blobs a run asks the storage to delete, as pairs of a container
    and a name, in order. *)
Definition deleted_blob (e : Event) : option (string * string) :=
  match e with
  | EvCall (BlobDelete container blob) _ => Some (container, blob)
  | _ => None
  end.

Definition deletions (ev : list Event) : list (string * string) :=
  omap deleted_blob ev.

(** The call of an event raised. *)
Definition raised (e : Event) : bool :=
  match e with
  | EvCall _ (inl _) => true
  | _ => false
  end.

(** The uploads a run sends to OneDrive: the URL, the bearer token and
    the content of each PUT, in order. *)
Definition upload_of (e : Event) : option (string * option string * bytes) :=
  match e with
  | EvCall (HttpPut url bearer data) _ => Some (url, bearer, data)
  | _ => None
  end.

Definition uploads (ev : list Event)
  : list (string * option string * bytes) :=
  omap upload_of ev.

(** The blobs a run stores (container, name and content) and the URLs it
    asks to sign (container, name and permissions), in order. *)
Definition stored_blob (e : Event) : option (string * string * bytes) :=
  match e with
  | EvCall (BlobUpload container blob data) _ => Some (container, blob, data)
  | _ => None
  end.

Definition stores (ev : list Event) : list (string * string * bytes) :=
  omap stored_blob ev.

Definition signed_blob (e : Event) : option (string * string * string) :=
  match e with
  | EvCall (GenerateSas container blob permissions) _ =>
      Some (container, blob, permissions)
  | _ => None
  end.

Definition signings (ev : list Event) : list (string * string * string) :=
  omap signed_blob ev.

(** The record [translate_document] stores for a submission accepted at
    the time [now]. *)
Definition submitted_record (blob_name target_language user_id : string)
  (blob_urls : BlobService.BlobUrls) (now : Z) : TranslationInfo.t :=
  {| TranslationInfo.blob_name := Some blob_name;
     TranslationInfo.file_name := None;
     TranslationInfo.target_language := target_language;
     TranslationInfo.user_id := user_id;
     TranslationInfo.blob_urls := blob_urls;
     TranslationInfo.status := Some "En cours";
     TranslationInfo.started_at := Some now;
     TranslationInfo.created_at := Some now;
     TranslationInfo.last_checked := None |}.

(** The entries the import to OneDrive adds to the body of a success
    response: the address of the copy, or the text of the failure, or the
    fixed text of a service that is not configured. *)
Definition import_entries (extra : list (string * JVal)) : Prop :=
  (exists onedrive_url,
      extra = [("onedrive_url", JStr onedrive_url);
               ("saved_to_onedrive", JBool true)])
  \/ (exists message,
         extra = [("onedrive_error", JStr message);
                  ("saved_to_onedrive", JBool false)])
  \/ extra = [("saved_to_onedrive", JBool false);
              ("onedrive_error", JStr "Service OneDrive non configuré")].

(** The jobs the provider accepted during a run: the identifiers its
    [start_translation] returned, in order. *)
Definition accepted_job (e : Event) : option string :=
  match e with
  | EvCall (StartTranslation _ _ _) (inr translation_id) =>
      Some translation_id
  | _ => None
  end.

Definition accepted_jobs (ev : list Event) : list string :=
  omap accepted_job ev.



(** The status requests of a run that were answered with a status that
    is not [Succeeded], each followed by its sleep of five seconds. *)
Definition waits (translation_id : string) (pending : list StatusDict)
  : list Event :=
  flat_map (fun status => [poll translation_id status; EvSleep 5]) pending.

Section ProviderAnswers.
Context {W : Type} `{Backend W}.

(** [provider_says translation_id w pending final w']: asked for the
    status of the job from the world [w] on, five seconds of sleep after
    each answer, the provider answers the statuses [pending], in order,
    and then [final] (a status or an exception), which leaves the world
    [w']. *)
Fixpoint provider_says (translation_id : string) (w : W)
  (pending : list StatusDict) (final : PyExc + StatusDict) (w' : W)
  : Prop :=
  match pending with
  | [] => perform (CheckTranslationStatus translation_id) w = (final, w')
  | status :: rest =>
      exists w1,
        perform (CheckTranslationStatus translation_id) w = (inr status, w1)
        /\ provider_says translation_id (sleep 5 w1) rest final w'
  end.

End ProviderAnswers.

(* ===================================================================== *)
(** * Facts about the string operations                                   *)
(* ===================================================================== *)

Section StringFacts.

Lemma append_nil (b : string) : EmptyString +:+ b = b.
Proof. reflexivity. Qed.

Lemma append_cons (x : ascii) (a b : string) :
  String x a +:+ b = String x (a +:+ b).
Proof. reflexivity. Qed.

Lemma append_assoc (a b c : string) : (a +:+ b) +:+ c = a +:+ (b +:+ c).
Proof.
  induction a as [|x a IH]; [reflexivity |].
  rewrite !append_cons. f_equal. exact IH.
Qed.

Lemma contains_append (c : ascii) (a b : string) :
  Py.contains c (a +:+ b) = Py.contains c a || Py.contains c b.
Proof.
  induction a as [|x a IH]; [reflexivity |].
  rewrite append_cons. simpl.
  destruct (Ascii.eqb x c); [reflexivity | exact IH].
Qed.

Lemma rsplit1_absent (c : ascii) (s : string) :
  Py.contains c s = false -> Py.rsplit1 c s = None.
Proof.
  induction s as [|x s IH]; simpl; [reflexivity |].
  destruct (Ascii.eqb x c); [discriminate |].
  intros Hs. now rewrite (IH Hs).
Qed.

(** The split is at the last separator: nothing after it is one. *)
Lemma rsplit1_append (c : ascii) (a b : string) :
  Py.contains c b = false ->
  Py.rsplit1 c (a +:+ String c b) = Some (a, b).
Proof.
  intros Hb. induction a as [|x a IH].
  - rewrite append_nil. simpl.
    rewrite (rsplit1_absent c b Hb), Ascii.eqb_refl. reflexivity.
  - rewrite append_cons. simpl. now rewrite IH.
Qed.

Lemma rsplit1_sound (c : ascii) (s a b : string) :
  Py.rsplit1 c s = Some (a, b) ->
  s = a +:+ String c b /\ Py.contains c b = false.
Proof.
  revert a. induction s as [|x s IH]; simpl; intros a; [discriminate |].
  destruct (Py.rsplit1 c s) as [[a' b']|] eqn:Hs.
  - intros [= <- <-]. destruct (IH a' eq_refl) as [-> Hb].
    split; [reflexivity | exact Hb].
  - destruct (Ascii.eqb x c) eqn:Hx; [| discriminate].
    intros [= <- <-]. apply Ascii.eqb_eq in Hx. subst x.
    split; [reflexivity |].
    clear IH. induction s as [|y s IHs]; simpl in *; [reflexivity |].
    destruct (Py.rsplit1 c s) as [[? ?]|]; [discriminate |].
    destruct (Ascii.eqb y c); [discriminate |]. now apply IHs.
Qed.

Lemma rsplit_pair_append (c : ascii) (a b : string) :
  Py.contains c b = false ->
  Py.rsplit_pair c (a +:+ String c b) = (a, b).
Proof.
  intros Hb. unfold Py.rsplit_pair. now rewrite rsplit1_append.
Qed.

Lemma split_extension_with_dot (base ext : string) :
  Py.contains "." ext = false ->
  BlobService.split_extension (base +:+ "." +:+ ext) = (base, ext).
Proof.
  intros Hext. unfold BlobService.split_extension, BlobService.dot.
  change ("." +:+ ext) with (String "." ext).
  rewrite contains_append. simpl Py.contains at 2.
  rewrite orb_true_r.
  now apply rsplit_pair_append.
Qed.

Lemma split_extension_without_dot (name : string) :
  Py.contains "." name = false ->
  BlobService.split_extension name = (name, EmptyString).
Proof.
  intros Hn. unfold BlobService.split_extension, BlobService.dot.
  now rewrite Hn.
Qed.

End StringFacts.

(* ===================================================================== *)
(** * Running the handlers symbolically                                   *)
(* ===================================================================== *)

(** Unfold the combinators of the monad and the small wrappers of the
    handlers; named service methods stay folded. *)
Ltac run_unfold :=
  cbv beta iota zeta delta
    [bind ret raise try_except zoom gets modify getitem call asyncio_sleep
     datetime_utcnow
     ApiServer.io ApiServer.with_graph ApiServer.new_BlobService
     ApiServer.new_TranslationService ApiServer.del_translation
     ApiServer.download_target
     McpServer.io McpServer.on_graph
     GraphService.io GraphService.self GraphService.response_json].

(** Case analysis on the answer of the next external call. *)
Ltac call_cases :=
  match goal with
  | |- context [perform ?X1 ?X2] =>
      let E := fresh "Ecall" in
      destruct (perform X1 X2) as [[?e | ?a] ?w] eqn:E
  end.

Lemma new_BlobService_containers `{Backend W} (env : gmap string string)
  (self : BlobService.t) :
  BlobService.new env = inr self ->
  BlobService.input_container self = "doc-to-trad"
  /\ BlobService.output_container self = "doc-trad".
Proof.
  unfold BlobService.new.
  destruct (env !! "AZURE_ACCOUNT_KEY"); [| discriminate].
  destruct (BlobServiceClient_init _ _); [discriminate |].
  intros [= <-]. split; reflexivity.
Qed.

(* ===================================================================== *)
(** * The existence probe and the submission of a missing source          *)
(* ===================================================================== *)

Section Submission.
Context {W : Type} `{Backend W}.

(** C10.  [check_blob_exists] never raises: it returns the answer of the
    storage call, and [False] when that call raises; [translate_document]
    then answers 404 "non trouvé", the same answer as for a blob that does
    not exist, and not a storage error. *)
Theorem check_blob_exists_never_raises :
  (forall container blob_name (w : W),
      exists found w1 ev,
        BlobService.check_blob_exists container blob_name w
        = (inr found, w1, ev))
  /\ (forall container blob_name (w : W) e w1,
        perform (BlobExists container blob_name) w = (inl e, w1) ->
        BlobService.check_blob_exists container blob_name w
        = (inr false, w1, [EvCall (BlobExists container blob_name) (inl e)]))
  /\ (forall request s data blob_name target_language user_id self e w1,
        req_json request = inr data ->
        data !! "blob_name" = Some blob_name ->
        data !! "target_language" = Some target_language ->
        data !! "user_id" = Some user_id ->
        BlobService.new (ApiServer.environ s) = inr self ->
        TranslationService_init (ApiServer.environ s) = None ->
        perform (BlobExists "doc-to-trad" blob_name) (ApiServer.world s)
        = (inl e, w1) ->
        ApiServer.translate_document request s
        = (inr (json_response
                  [("success", JBool false);
                   ("error",
                    JStr ("Fichier '" +:+ blob_name
                          +:+ "' non trouvé dans le container "
                          +:+ "doc-to-trad"))] 404),
           ApiServer.set_world w1 s,
           [EvCall (BlobExists "doc-to-trad" blob_name) (inl e)])).
Proof.
  split; [| split].
  - intros container blob_name w.
    unfold BlobService.check_blob_exists. run_unfold.
    call_cases; simpl; eauto.
  - intros container blob_name w e w1 Hcall.
    unfold BlobService.check_blob_exists. run_unfold.
    rewrite Hcall. reflexivity.
  - intros request s data blob_name target_language user_id self e w1
      Hjson Hblob Hlang Huser Hself Hts Hcall.
    destruct (new_BlobService_containers _ _ Hself) as [Hin _].
    unfold ApiServer.translate_document, ApiServer.required_fields,
      BlobService.check_blob_exists.
    run_unfold. rewrite Hjson. simpl.
    rewrite Hblob, Hlang, Huser. simpl.
    rewrite Hself, Hts, Hin, Hcall. reflexivity.
Qed.

(** C7.  A submission that names a source object the input container does
    not hold is answered "not found" (404 by [translate_document], the
    matching text by the MCP handler); the run consists of the existence
    probe only, so the provider is not contacted, and the table of jobs is
    unchanged. *)
Theorem translate_missing_source_not_found :
  (forall request s data blob_name target_language user_id self w1,
      req_json request = inr data ->
      data !! "blob_name" = Some blob_name ->
      data !! "target_language" = Some target_language ->
      data !! "user_id" = Some user_id ->
      BlobService.new (ApiServer.environ s) = inr self ->
      TranslationService_init (ApiServer.environ s) = None ->
      perform (BlobExists "doc-to-trad" blob_name) (ApiServer.world s)
      = (inr false, w1) ->
      exists response s' ev,
        ApiServer.translate_document request s = (inr response, s', ev)
        /\ response
           = json_response
               [("success", JBool false);
                ("error",
                 JStr ("Fichier '" +:+ blob_name
                       +:+ "' non trouvé dans le container "
                       +:+ "doc-to-trad"))] 404
        /\ ev = [EvCall (BlobExists "doc-to-trad" blob_name) (inr false)]
        /\ filter (fun e => is_start_translation e = true) ev = []
        /\ ApiServer.active_translations s'
           = ApiServer.active_translations s)
  /\ (forall a s blob_name target_language user_id w1,
        McpServer.args a !! "blob_name" = Some blob_name ->
        McpServer.args a !! "target_language" = Some target_language ->
        McpServer.args a !! "user_id" = Some user_id ->
        perform
          (BlobExists
             (BlobService.input_container (McpServer.blob_service s))
             blob_name)
          (McpServer.world s)
        = (inr false, w1) ->
        exists text s' ev,
          McpServer._handle_translate_document a s = (inr text, s', ev)
          /\ text
             = "❌ Fichier '" +:+ blob_name
               +:+ "' non trouvé dans le container "
               +:+ BlobService.input_container (McpServer.blob_service s)
          /\ ev = [EvCall
                     (BlobExists
                        (BlobService.input_container
                           (McpServer.blob_service s)) blob_name)
                     (inr false)]
          /\ filter (fun e => is_start_translation e = true) ev = []
          /\ McpServer.active_translations s'
             = McpServer.active_translations s).
Proof.
  split.
  - intros request s data blob_name target_language user_id self w1
      Hjson Hblob Hlang Huser Hself Hts Hcall.
    destruct (new_BlobService_containers _ _ Hself) as [Hin _].
    unfold ApiServer.translate_document, ApiServer.required_fields,
      BlobService.check_blob_exists.
    run_unfold. rewrite Hjson. simpl.
    rewrite Hblob, Hlang, Huser. simpl.
    rewrite Hself, Hts, Hin, Hcall. simpl.
    do 3 eexists. repeat split; reflexivity.
  - intros a s blob_name target_language user_id w1
      Hblob Hlang Huser Hcall.
    unfold McpServer._handle_translate_document,
      BlobService.check_blob_exists.
    run_unfold. rewrite Hblob, Hlang, Huser. simpl.
    rewrite Hcall. simpl.
    do 3 eexists. repeat split; reflexivity.
Qed.

End Submission.

(* ===================================================================== *)
(** * The naming convention and its reverse mapping                       *)
(* ===================================================================== *)

Section Naming.

Lemma output_name_with_extension (base ext language : string) :
  Py.contains "." ext = false -> Py.truthy ext = true ->
  BlobService.output_name (base +:+ "." +:+ ext) language
  = base +:+ "-" +:+ language +:+ "." +:+ ext.
Proof.
  intros Hdot Hext. unfold BlobService.output_name.
  rewrite (split_extension_with_dot base ext Hdot), Hext. reflexivity.
Qed.

Lemma output_name_without_extension (name language : string) :
  Py.contains "." name = false ->
  BlobService.output_name name language = name +:+ "-" +:+ language.
Proof.
  intros Hdot. unfold BlobService.output_name.
  rewrite (split_extension_without_dot name Hdot). reflexivity.
Qed.

Lemma reverse_with_extension (base ext language : string) :
  Py.contains "." ext = false -> Py.contains "-" language = false ->
  ApiServer.reverse_output_name (base +:+ "-" +:+ language +:+ "." +:+ ext)
  = (base +:+ "." +:+ ext, language).
Proof.
  intros Hdot Hhyphen. unfold ApiServer.reverse_output_name.
  assert (Hshape : base +:+ "-" +:+ language +:+ "." +:+ ext
                   = (base +:+ "-" +:+ language) +:+ String "." ext).
  { rewrite !append_assoc. reflexivity. }
  rewrite Hshape, contains_append. simpl Py.contains at 2.
  rewrite orb_true_r, (rsplit_pair_append "." _ _ Hdot).
  change (base +:+ "-" +:+ language) with (base +:+ String "-" language).
  rewrite contains_append. simpl Py.contains at 2.
  rewrite orb_true_r, (rsplit_pair_append "-" _ _ Hhyphen).
  reflexivity.
Qed.

Lemma reverse_without_extension (name language : string) :
  Py.contains "." name = false -> Py.contains "." language = false ->
  Py.contains "-" language = false ->
  ApiServer.reverse_output_name (name +:+ "-" +:+ language)
  = (name, language).
Proof.
  intros Hname Hlang Hhyphen. unfold ApiServer.reverse_output_name.
  change (name +:+ "-" +:+ language) with (name +:+ String "-" language).
  rewrite !contains_append, Hname. simpl Py.contains.
  rewrite Hlang, orb_true_r. simpl.
  rewrite (rsplit_pair_append "-" _ _ Hhyphen). reflexivity.
Qed.

(** C6 (amended).  The output name is a function of the name and the
    language: [base-language.ext] for a name [base.ext] whose part [ext]
    after the last dot is not empty, [base-language] for a name [base.]
    that ends with a dot, and [name-language] for a name without a dot.
    The reverse mapping gives back the name and the language when the
    language holds no hyphen and either the name has a non-empty
    extension, or neither the name nor the language holds a dot. *)
Theorem output_name_shape_and_reverse (name language : string) :
  (forall base ext,
      name = base +:+ "." +:+ ext -> Py.contains "." ext = false ->
      (Py.truthy ext = true ->
       BlobService.output_name name language
       = base +:+ "-" +:+ language +:+ "." +:+ ext)
      /\ (ext = EmptyString ->
          BlobService.output_name name language
          = base +:+ "-" +:+ language))
  /\ (Py.contains "." name = false ->
      BlobService.output_name name language = name +:+ "-" +:+ language)
  /\ (Py.contains "-" language = false ->
      Py.truthy (snd (BlobService.split_extension name)) = true
      \/ (Py.contains "." name = false
          /\ Py.contains "." language = false) ->
      ApiServer.reverse_output_name
        (BlobService.output_name name language)
      = (name, language)).
Proof.
  split; [| split].
  - intros base ext -> Hdot. split.
    + intros Hext. now apply output_name_with_extension.
    + intros ->. unfold BlobService.output_name.
      rewrite (split_extension_with_dot base EmptyString eq_refl).
      reflexivity.
  - apply output_name_without_extension.
  - intros Hhyphen [Hext | [Hname Hlang]].
    + unfold BlobService.split_extension, BlobService.dot in Hext.
      destruct (Py.contains "." name) eqn:Hc; [| discriminate].
      unfold Py.rsplit_pair in Hext.
      destruct (Py.rsplit1 "." name) as [[base ext]|] eqn:Hsplit;
        [| discriminate].
      simpl in Hext.
      destruct (rsplit1_sound _ _ _ _ Hsplit) as [-> Hdot].
      change (base +:+ String "." ext) with (base +:+ "." +:+ ext).
      rewrite (output_name_with_extension base ext language Hdot Hext).
      now apply reverse_with_extension.
    + rewrite (output_name_without_extension name language Hname).
      now apply reverse_without_extension.
Qed.

Lemma output_name_shape_and_reverse_witness :
  BlobService.output_name "report.pdf" "es" = "report-es.pdf"
  /\ BlobService.output_name "notes" "fr" = "notes-fr"
  /\ ApiServer.reverse_output_name
       (BlobService.output_name "report.pdf" "es")
     = ("report.pdf", "es").
Proof.
  destruct (output_name_shape_and_reverse "report.pdf" "es")
    as (Hext & _ & Hrev).
  destruct (output_name_shape_and_reverse "notes" "fr") as (_ & Hplain & _).
  split; [| split].
  - apply (Hext "report" "pdf"); reflexivity.
  - apply Hplain. reflexivity.
  - apply Hrev; [reflexivity | left; reflexivity].
Defined.

(** C6, as stated, fails for a name that ends with a dot: the output
    name has one hyphen, the separator, and the reverse mapping returns
    the name without its dot. *)
Lemma output_name_trailing_dot_not_reversed :
  BlobService.output_name "report." "es" = "report-es"
  /\ Py.contains "-" "report." = false
  /\ Py.contains "-" "es" = false
  /\ ApiServer.reverse_output_name (BlobService.output_name "report." "es")
     = ("report", "es")
  /\ ApiServer.reverse_output_name (BlobService.output_name "report." "es")
     <> ("report.", "es").
Proof. repeat split; try reflexivity. vm_compute. discriminate. Qed.

End Naming.

(* ===================================================================== *)
(** * Normalisation of blob names                                         *)
(* ===================================================================== *)

Section Normalisation.

Lemma all_chars_append (p : ascii -> bool) (a b : string) :
  all_chars p (a +:+ b) = all_chars p a && all_chars p b.
Proof.
  induction a as [| x a IH]; [reflexivity |].
  rewrite append_cons. simpl. now rewrite IH, andb_assoc.
Qed.

Lemma all_chars_sub_disallowed (s : string) :
  all_chars BlobService.allowed (BlobService.sub_disallowed s) = true.
Proof.
  induction s as [| x s IH]; [reflexivity |]. simpl. rewrite IH, andb_true_r.
  destruct (BlobService.allowed x) eqn:Hx; [exact Hx | reflexivity].
Qed.

Lemma all_chars_runs (p : ascii -> bool) (s : string) :
  all_chars p s = true ->
  all_chars p (BlobService.sub_underscore_runs s) = true.
Proof.
  induction s as [| x s IH]; [reflexivity |]. simpl.
  unfold BlobService.underscore.
  intros [Hx Hs]%andb_prop.
  destruct (Ascii.eqb x "_"%char && BlobService.starts_with "_"%char s);
    [now apply IH |].
  simpl. now rewrite Hx, IH.
Qed.

Lemma all_chars_lstrip (p : ascii -> bool) (c : ascii) (s : string) :
  all_chars p s = true -> all_chars p (Py.lstrip c s) = true.
Proof.
  induction s as [| x s IH]; [reflexivity |]. simpl.
  intros Hall. destruct (Ascii.eqb x c); [| exact Hall].
  apply IH. now apply andb_prop in Hall as [_ Hs].
Qed.

Lemma all_chars_rstrip (p : ascii -> bool) (c : ascii) (s : string) :
  all_chars p s = true -> all_chars p (Py.rstrip c s) = true.
Proof.
  induction s as [| x s IH]; [reflexivity |]. simpl.
  intros [Hx Hs]%andb_prop. specialize (IH Hs).
  destruct (Py.rstrip c s) as [| y r].
  - destruct (Ascii.eqb x c); [reflexivity |]. simpl. now rewrite Hx.
  - simpl in *. now rewrite Hx, IH.
Qed.

Lemma all_chars_take (p : ascii -> bool) (n : nat) (s : string) :
  all_chars p s = true -> all_chars p (Py.take n s) = true.
Proof.
  revert s. induction n as [| n IH]; intros [| x s]; try reflexivity.
  simpl. intros [Hx Hs]%andb_prop. now rewrite Hx, IH.
Qed.

(** The head of a string survives the collapse of underscore runs. *)
Lemma starts_with_runs (c : ascii) (s : string) :
  BlobService.starts_with c (BlobService.sub_underscore_runs s)
  = BlobService.starts_with c s.
Proof.
  induction s as [| x s IH]; [reflexivity |]. simpl.
  unfold BlobService.underscore.
  destruct (Ascii.eqb x "_"%char) eqn:Hx; simpl; [| reflexivity].
  destruct (BlobService.starts_with "_"%char s) eqn:Hs; [| reflexivity].
  rewrite IH. apply Ascii.eqb_eq in Hx. subst x.
  destruct s as [| y s]; [discriminate |]. simpl in *.
  apply Ascii.eqb_eq in Hs. now subst y.
Qed.

Lemma no_run_runs (s : string) :
  no_underscore_run (BlobService.sub_underscore_runs s) = true.
Proof.
  induction s as [| x s IH]; [reflexivity |]. simpl.
  unfold BlobService.underscore.
  destruct (Ascii.eqb x "_" && BlobService.starts_with "_" s) eqn:Hdrop;
    [exact IH |].
  simpl. rewrite IH, andb_true_r, starts_with_runs, Hdrop. reflexivity.
Qed.

Lemma no_run_lstrip (c : ascii) (s : string) :
  no_underscore_run s = true -> no_underscore_run (Py.lstrip c s) = true.
Proof.
  induction s as [| x s IH]; [reflexivity |]. simpl.
  intros Hrun. destruct (Ascii.eqb x c); [| exact Hrun].
  apply IH. now apply andb_prop in Hrun as [_ Hs].
Qed.

(** A non-empty [rstrip] keeps the head of the string. *)
Lemma starts_with_rstrip (c d : ascii) (s : string) :
  BlobService.starts_with d (Py.rstrip c s) = true ->
  BlobService.starts_with d s = true.
Proof.
  destruct s as [| x s]; [discriminate |]. simpl.
  destruct (Py.rstrip c s) as [| y r]; [| intros Hd; exact Hd].
  destruct (Ascii.eqb x c); [discriminate | intros Hd; exact Hd].
Qed.

Lemma no_run_rstrip (c : ascii) (s : string) :
  no_underscore_run s = true -> no_underscore_run (Py.rstrip c s) = true.
Proof.
  induction s as [| x s IH]; [reflexivity |]. simpl.
  intros [Hx Hs]%andb_prop. specialize (IH Hs).
  pose proof (starts_with_rstrip c "_"%char s) as Hhead.
  destruct (Py.rstrip c s) as [| y r].
  - destruct (Ascii.eqb x c); [reflexivity |]. simpl.
    now rewrite andb_false_r.
  - change (no_underscore_run (String x (String y r)))
      with (negb (Ascii.eqb x "_" && BlobService.starts_with "_" (String y r))
            && no_underscore_run (String y r)).
    rewrite IH, andb_true_r.
    destruct (Ascii.eqb x "_") eqn:Ex; [| reflexivity]. simpl.
    destruct (Ascii.eqb y "_") eqn:Ey; [| reflexivity].
    simpl in Hhead. rewrite (Hhead Ey) in Hx. discriminate.
Qed.

Lemma starts_with_take (d : ascii) (n : nat) (s : string) :
  BlobService.starts_with d (Py.take n s) = true ->
  BlobService.starts_with d s = true.
Proof. destruct n, s; simpl; try discriminate; auto. Qed.

Lemma no_run_take (n : nat) (s : string) :
  no_underscore_run s = true -> no_underscore_run (Py.take n s) = true.
Proof.
  revert s. induction n as [| n IH]; intros [| x s]; try reflexivity.
  intros [Hx Hs]%andb_prop.
  change (Py.take (S n) (String x s)) with (String x (Py.take n s)).
  simpl. rewrite (IH s Hs), andb_true_r.
  destruct (Ascii.eqb x "_") eqn:Ex; [| reflexivity]. simpl.
  destruct (BlobService.starts_with "_" (Py.take n s)) eqn:Et; [| reflexivity].
  rewrite (starts_with_take _ _ _ Et) in Hx. discriminate.
Qed.

Lemma no_run_append (a b : string) :
  no_underscore_run (a +:+ b) = true ->
  no_underscore_run a = true /\ no_underscore_run b = true.
Proof.
  induction a as [| x a IH]; [intros Hb; split; [reflexivity | exact Hb] |].
  rewrite append_cons. simpl. intros [Hx Hab]%andb_prop.
  destruct (IH Hab) as [Ha Hb]. split; [| exact Hb].
  rewrite Ha, andb_true_r.
  destruct (Ascii.eqb x "_") eqn:Ex; [| reflexivity]. simpl in *.
  destruct a as [| y a]; [reflexivity |].
  rewrite append_cons in Hx. exact Hx.
Qed.

Lemma no_run_around_dot (a b : string) :
  no_underscore_run a = true -> no_underscore_run b = true ->
  no_underscore_run (a +:+ "." +:+ b) = true.
Proof.
  intros Ha Hb. induction a as [| x a IH].
  - rewrite append_nil. change ("." +:+ b) with (String "." b).
    simpl. exact Hb.
  - rewrite append_cons. simpl in *.
    apply andb_prop in Ha as [Hx Ha]. rewrite (IH Ha), andb_true_r.
    destruct (Ascii.eqb x "_") eqn:Ex; [| reflexivity]. simpl in *.
    destruct a as [| y a]; [reflexivity |].
    rewrite append_cons. exact Hx.
Qed.

Lemma starts_with_lstrip (c : ascii) (s : string) :
  BlobService.starts_with c (Py.lstrip c s) = false.
Proof.
  induction s as [| x s IH]; [reflexivity |]. simpl.
  destruct (Ascii.eqb x c) eqn:Ex; [exact IH | simpl; exact Ex].
Qed.

Lemma last_char_rstrip (c : ascii) (s : string) :
  last_char (Py.rstrip c s) <> Some c.
Proof.
  induction s as [| x s IH]; [discriminate |]. simpl.
  destruct (Py.rstrip c s) as [| y r].
  - destruct (Ascii.eqb x c) eqn:Ex; [discriminate |]. simpl.
    intros [= ->]. now rewrite Ascii.eqb_refl in Ex.
  - exact IH.
Qed.

Lemma length_take (n : nat) (s : string) :
  String.length (Py.take n s) = Nat.min n (String.length s).
Proof.
  revert s. induction n as [| n IH]; intros [| x s]; try reflexivity.
  simpl. now rewrite IH.
Qed.

Lemma length_append (a b : string) :
  String.length (a +:+ b) = (String.length a + String.length b)%nat.
Proof.
  induction a as [| x a IH]; [reflexivity |].
  rewrite append_cons. simpl. now rewrite IH.
Qed.

Lemma last_char_append (a : string) (c : ascii) (b : string) :
  last_char (a +:+ String c b)
  = match b with EmptyString => Some c | _ => last_char b end.
Proof.
  induction a as [| x a IH].
  - rewrite append_nil. destruct b; reflexivity.
  - rewrite append_cons.
    change (last_char (String x (a +:+ String c b)))
      with (match a +:+ String c b with
            | EmptyString => Some x
            | _ => last_char (a +:+ String c b)
            end).
    destruct (a +:+ String c b) eqn:Hab; [| exact IH].
    destruct a; discriminate.
Qed.

Lemma starts_with_append (d : ascii) (a b : string) :
  BlobService.starts_with d (a +:+ b)
  = match a with
    | EmptyString => BlobService.starts_with d b
    | _ => BlobService.starts_with d a
    end.
Proof. destruct a; reflexivity. Qed.

(** The name before the length limit: allowed characters only, no run of
    underscores, no underscore at either end. *)
Lemma cleaned_shape (file_name : string) :
  all_chars BlobService.allowed (BlobService.cleaned file_name) = true
  /\ no_underscore_run (BlobService.cleaned file_name) = true
  /\ BlobService.starts_with "_" (BlobService.cleaned file_name) = false
  /\ last_char (BlobService.cleaned file_name) <> Some "_"%char.
Proof.
  unfold BlobService.cleaned, Py.strip, BlobService.underscore.
  repeat split.
  - apply all_chars_rstrip, all_chars_lstrip, all_chars_runs,
      all_chars_sub_disallowed.
  - apply no_run_rstrip, no_run_lstrip, no_run_runs.
  - match goal with
    | |- BlobService.starts_with _ (Py.rstrip _ (Py.lstrip _ ?s)) = false =>
        pose proof (starts_with_rstrip "_" "_" (Py.lstrip "_" s)) as Hhead;
        pose proof (starts_with_lstrip "_" s) as Hstrip
    end.
    destruct (BlobService.starts_with "_" (Py.rstrip _ _)); [| reflexivity].
    rewrite (Hhead eq_refl) in Hstrip. discriminate.
  - apply last_char_rstrip.
Qed.

Lemma len_nonneg (s : string) : 0 <= Py.len s.
Proof. unfold Py.len. lia. Qed.

Lemma len_append (a b : string) : Py.len (a +:+ b) = Py.len a + Py.len b.
Proof. unfold Py.len. rewrite length_append. lia. Qed.

Lemma len_slice_to (k : Z) (s : string) :
  0 <= k <= Py.len s -> Py.len (Py.slice_to k s) = k.
Proof.
  intros Hk. unfold Py.slice_to.
  destruct (Z.ltb_spec k 0); [lia |].
  unfold Py.len in *. rewrite length_take. lia.
Qed.

(** What holds of [_normalize_blob_name] for every input: allowed
    characters only, no run of underscores and no leading underscore.
    When the cleaned name has at most 200 characters it is the result, with
    no trailing underscore; a longer one is cut to 200 characters when it
    has no dot or an extension shorter than 200 characters, and the result
    of the cut with a dot keeps the extension and does not end with an
    underscore. *)
Lemma normalize_blob_name_shape (file_name : string) :
  let cleaned := BlobService.cleaned file_name in
  let result := BlobService._normalize_blob_name file_name in
  all_chars BlobService.allowed result = true
  /\ no_underscore_run result = true
  /\ BlobService.starts_with "_" result = false
  /\ (Py.len cleaned <= 200 ->
      result = cleaned /\ last_char result <> Some "_"%char
      /\ Py.len result <= 200)
  /\ (200 < Py.len cleaned -> Py.contains "." cleaned = false ->
      result = Py.slice_to 200 cleaned /\ Py.len result = 200)
  /\ (200 < Py.len cleaned -> Py.contains "." cleaned = true ->
      exists name_part ext,
        cleaned = name_part +:+ "." +:+ ext
        /\ Py.contains "." ext = false
        /\ result = Py.slice_to (200 - Py.len ext - 1) name_part
                    +:+ "." +:+ ext
        /\ last_char result <> Some "_"%char
        /\ (Py.len ext < 200 -> Py.len result = 200)).
Proof.
  intros cleaned result.
  destruct (cleaned_shape file_name) as (Hall & Hrun & Hhead & Hlast).
  fold cleaned in Hall, Hrun, Hhead, Hlast.
  unfold result, BlobService._normalize_blob_name, BlobService.limit_length,
    BlobService.max_length, BlobService.dot.
  fold cleaned.
  destruct (Z.gtb_spec (Py.len cleaned) 200) as [Hlong | Hshort].
  - destruct (Py.contains "." cleaned) eqn:Hdot.
    + unfold Py.rsplit_pair.
      destruct (Py.rsplit1 "." cleaned) as [[name_part ext] |] eqn:Hsplit.
      2:{ clear - Hdot Hsplit. exfalso. revert Hdot Hsplit.
          induction cleaned as [| x s IH]; simpl; [discriminate |].
          destruct (Py.rsplit1 "." s) as [[? ?] |]; [discriminate |].
          destruct (Ascii.eqb x "."); [discriminate |].
          intros Hc _. now apply IH. }
      destruct (rsplit1_sound _ _ _ _ Hsplit) as [Hshape Hext].
      change (name_part +:+ String "." ext)
        with (name_part +:+ "." +:+ ext) in Hshape.
      assert (Hparts : all_chars BlobService.allowed name_part = true
                       /\ all_chars BlobService.allowed ext = true).
      { rewrite Hshape, all_chars_append in Hall.
        apply andb_prop in Hall as [Hn Hrest].
        change ("." +:+ ext) with (String "." ext) in Hrest.
        simpl in Hrest. now split. }
      assert (Hruns : no_underscore_run name_part = true
                      /\ no_underscore_run ext = true).
      { rewrite Hshape in Hrun.
        apply no_run_append in Hrun as [Hn Hrest].
        change ("." +:+ ext) with (String "." ext) in Hrest.
        simpl in Hrest. now split. }
      destruct Hparts as [Hn He]. destruct Hruns as [Hrn Hre].
      assert (Hresult_last :
        last_char (Py.slice_to (200 - Py.len ext - 1) name_part
                   +:+ "." +:+ ext) <> Some "_"%char).
      { change ("." +:+ ext) with (String "." ext).
        rewrite last_char_append.
        rewrite Hshape in Hlast.
        change ("." +:+ ext) with (String "." ext) in Hlast.
        rewrite last_char_append in Hlast.
        destruct ext; [discriminate | exact Hlast]. }
      repeat split.
      * rewrite all_chars_append. unfold Py.slice_to.
        rewrite (all_chars_take _ _ _ Hn).
        change ("." +:+ ext) with (String "." ext). simpl. exact He.
      * apply no_run_around_dot; [| exact Hre].
        unfold Py.slice_to. now apply no_run_take.
      * rewrite starts_with_append. unfold Py.slice_to.
        destruct (Py.take _ name_part) as [| y t] eqn:Htake; [reflexivity |].
        destruct (BlobService.starts_with "_" (String y t)) eqn:Hy;
          [| reflexivity].
        rewrite <- Htake in Hy. apply starts_with_take in Hy.
        rewrite Hshape, starts_with_append in Hhead.
        destruct name_part; [discriminate | congruence].
      * lia.
      * lia.
      * lia.
      * discriminate.
      * discriminate.
      * intros _ _. exists name_part, ext.
        split; [exact Hshape |]. split; [exact Hext |].
        split; [reflexivity |]. split; [exact Hresult_last |].
        intros Hsmall. rewrite !len_append.
        rewrite Hshape, !len_append in Hlong.
        change (Py.len ".") with 1 in *.
        pose proof (len_nonneg ext). pose proof (len_nonneg name_part).
        rewrite len_slice_to; lia.
    + repeat split.
      * unfold Py.slice_to. now apply all_chars_take.
      * unfold Py.slice_to. now apply no_run_take.
      * unfold Py.slice_to.
        destruct (BlobService.starts_with "_" (Py.take _ cleaned)) eqn:Hy;
          [| reflexivity].
        apply starts_with_take in Hy. congruence.
      * lia.
      * lia.
      * lia.
      * apply len_slice_to. lia.
      * discriminate.
  - repeat split; try assumption; try lia; try discriminate.
Qed.

(** C9, at two inputs the length limit mishandles.  With an extension of
    250 characters the bound [max_length - len(ext) - 1] is negative, the
    slice counts from the end, and the result keeps the dot and the whole
    extension: 251 characters, more than 200.  A name of 201 characters
    without a dot is cut after its 200th character, an underscore, which
    stays at the end of the result. *)
Theorem normalize_blob_name_truncation :
  BlobService._normalize_blob_name ("a." +:+ Py.mul "b" 250)
  = "." +:+ Py.mul "b" 250
  /\ Py.len (BlobService._normalize_blob_name ("a." +:+ Py.mul "b" 250))
     = 251
  /\ BlobService.max_length
     < Py.len (BlobService._normalize_blob_name ("a." +:+ Py.mul "b" 250))
  /\ BlobService._normalize_blob_name (Py.mul "a" 199 +:+ "_b")
     = Py.mul "a" 199 +:+ "_"
  /\ last_char (BlobService._normalize_blob_name (Py.mul "a" 199 +:+ "_b"))
     = Some "_"%char.
Proof. repeat split; vm_compute; reflexivity. Qed.

End Normalisation.

(* ===================================================================== *)
(** * What a run may emit, and what it may change                         *)
(* ===================================================================== *)

Section Emits.
Context {S : Type} (P : Event -> Prop).

Lemma emits_ret {A} (a : A) : emits P (ret (S := S) a).
Proof. intros s r s1 ev [= <- <- <-]. constructor. Qed.

Lemma emits_raise {A} (e : PyExc) : emits P (raise (S := S) (A := A) e).
Proof. intros s r s1 ev [= <- <- <-]. constructor. Qed.

Lemma emits_gets {A} (f : S -> A) : emits P (gets f).
Proof. intros s r s1 ev [= <- <- <-]. constructor. Qed.

Lemma emits_modify (f : S -> S) : emits P (modify f).
Proof. intros s r s1 ev [= <- <- <-]. constructor. Qed.

Lemma emits_getitem {A} (key : string) (o : option A) :
  emits P (getitem (S := S) key o).
Proof. destruct o; [apply emits_ret | apply emits_raise]. Qed.

Lemma emits_bind {A B} (m : M S A) (k : A -> M S B) :
  emits P m -> (forall a, emits P (k a)) -> emits P (bind m k).
Proof.
  intros Hm Hk s r s2 ev. unfold bind.
  destruct (m s) as [[[e | a] s1] ev1] eqn:Em.
  - intros [= <- <- <-]. exact (Hm _ _ _ _ Em).
  - destruct (k a s1) as [[r2 s3] ev2] eqn:Ek.
    intros [= <- <- <-]. apply Forall_app. split.
    + exact (Hm _ _ _ _ Em).
    + exact (Hk _ _ _ _ _ Ek).
Qed.

Lemma emits_try {A} (m : M S A) (h : PyExc -> M S A) :
  emits P m -> (forall e, emits P (h e)) -> emits P (try_except m h).
Proof.
  intros Hm Hh s r s2 ev. unfold try_except.
  destruct (m s) as [[[e | a] s1] ev1] eqn:Em.
  - destruct (h e s1) as [[r2 s3] ev2] eqn:Eh.
    intros [= <- <- <-]. apply Forall_app. split.
    + exact (Hm _ _ _ _ Em).
    + exact (Hh _ _ _ _ _ Eh).
  - intros [= <- <- <-]. exact (Hm _ _ _ _ Em).
Qed.

Lemma emits_zoom {T A} (get : S -> T) (set : T -> S -> S) (m : M T A) :
  emits P m -> emits P (zoom get set m).
Proof.
  intros Hm s r s1 ev. unfold zoom.
  destruct (m (get s)) as [[r1 t] ev1] eqn:Em.
  intros [= <- <- <-]. exact (Hm _ _ _ _ Em).
Qed.

End Emits.

Section EmitsWorld.
Context {W : Type} `{Backend W} (P : Event -> Prop).

Lemma emits_call {A} (c : Call A) :
  (forall r, P (EvCall c r)) -> emits P (call c).
Proof.
  intros Hc w r w1 ev. unfold call.
  destruct (perform c w) as [r1 w2].
  intros [= <- <- <-]. constructor; [apply Hc | constructor].
Qed.

Lemma emits_sleep (seconds : Z) :
  P (EvSleep seconds) -> emits P (asyncio_sleep seconds).
Proof.
  intros Hs w r w1 ev [= <- <- <-]. constructor; [exact Hs | constructor].
Qed.

Lemma emits_utcnow : emits P datetime_utcnow.
Proof. apply emits_gets. Qed.

End EmitsWorld.

(** Structural proof that a computation emits only events in [P]; the
    calls are left as goals [forall r, P (EvCall c r)]. *)
Ltac emits_step :=
  first
    [ apply emits_ret | apply emits_raise | apply emits_gets
    | apply emits_modify | apply emits_getitem | apply emits_utcnow
    | apply emits_zoom
    | apply emits_bind; [| intros ?]
    | apply emits_try; [| intros ?]
    | apply emits_call; intros ?
    | apply emits_sleep
    | match goal with
      | |- emits _ (match ?x with _ => _ end) => destruct x
      end ].

Lemma status_calls_app (a b : list Event) :
  status_calls (a ++ b) = (status_calls a + status_calls b)%nat.
Proof. unfold status_calls. now rewrite filter_app, length_app. Qed.

Lemma sleeps_app (a b : list Event) : sleeps (a ++ b) = sleeps a ++ sleeps b.
Proof. unfold sleeps. apply omap_app. Qed.

Lemma not_polling_trace (ev : list Event) :
  Forall not_polling ev -> status_calls ev = 0%nat /\ sleeps ev = [].
Proof.
  unfold status_calls, sleeps.
  induction 1 as [| e ev [Hstatus Hsleep] _ [IHs IHz]]; [split; reflexivity |].
  rewrite filter_cons. simpl. rewrite Hsleep.
  destruct (decide (is_status_call e = true)) as [Ht | _]; [congruence |].
  split; assumption.
Qed.

Lemma status_calls_none (ev : list Event) :
  Forall not_polling ev -> status_calls ev = 0%nat.
Proof. intros Hev. apply (not_polling_trace ev Hev). Qed.

Section EmitsServices.
Context {W : Type} `{Backend W}.

Lemma download_emits (url : string) :
  emits not_polling (BlobService.download_translated_file url).
Proof.
  unfold BlobService.download_translated_file.
  repeat emits_step; split; reflexivity.
Qed.

Lemma get_access_token_emits :
  emits not_polling GraphService._get_access_token.
Proof.
  unfold GraphService._get_access_token, GraphService.self, GraphService.io,
    GraphService.response_json.
  repeat emits_step; split; reflexivity.
Qed.

Lemma create_documents_folder_emits (user_id : string) :
  emits not_polling (GraphService.create_documents_folder user_id).
Proof.
  unfold GraphService.create_documents_folder, GraphService.self,
    GraphService.io.
  repeat first [apply get_access_token_emits | emits_step];
    split; reflexivity.
Qed.

Lemma save_to_onedrive_emits (user_id : string) (content : bytes)
  (file_name target_language : string) :
  emits not_polling
    (GraphService.save_to_onedrive user_id content file_name
       target_language).
Proof.
  unfold GraphService.save_to_onedrive, GraphService.self, GraphService.io,
    GraphService.response_json.
  repeat first [apply get_access_token_emits
               | apply create_documents_folder_emits
               | emits_step]; split; reflexivity.
Qed.

Lemma deliver_emits (translation_id : string) (info : TranslationInfo.t)
  (g : GraphService.t) (content : bytes) :
  emits not_polling (ApiServer.deliver translation_id info g content).
Proof.
  unfold ApiServer.deliver, ApiServer.io, ApiServer.with_graph.
  repeat first [apply save_to_onedrive_emits | emits_step].
Qed.

End EmitsServices.

Section Frames.
Context {W : Type} `{Backend W}.

Lemma set_world_same (s : ApiServer.State W) :
  s = ApiServer.set_world (ApiServer.world s) s.
Proof. destruct s; reflexivity. Qed.

Lemma frames_ret {A} (a : A) : frames (ret (S := ApiServer.State W) a).
Proof. intros s r s1 ev [= <- <- <-]. eexists. apply set_world_same. Qed.

Lemma frames_raise {A} (e : PyExc) :
  frames (raise (S := ApiServer.State W) (A := A) e).
Proof. intros s r s1 ev [= <- <- <-]. eexists. apply set_world_same. Qed.

Lemma frames_gets {A} (f : ApiServer.State W -> A) : frames (gets f).
Proof. intros s r s1 ev [= <- <- <-]. eexists. apply set_world_same. Qed.

Lemma frames_getitem {A} (key : string) (o : option A) :
  frames (getitem (S := ApiServer.State W) key o).
Proof. destruct o; [apply frames_ret | apply frames_raise]. Qed.

Lemma frames_io {A} (m : M W A) : frames (ApiServer.io m).
Proof.
  intros s r s1 ev. unfold ApiServer.io, zoom.
  destruct (m (ApiServer.world s)) as [[r1 w] ev1].
  intros [= <- <- <-]. eauto.
Qed.

Lemma frames_with_graph {A} (g : GraphService.t)
  (m : M (GraphService.t * W) A) : frames (ApiServer.with_graph g m).
Proof.
  intros s r s1 ev. unfold ApiServer.with_graph, zoom.
  destruct (m (g, ApiServer.world s)) as [[r1 gw] ev1].
  intros [= <- <- <-]. eauto.
Qed.

Lemma frames_bind {A B} (m : M (ApiServer.State W) A)
  (k : A -> M (ApiServer.State W) B) :
  frames m -> (forall a, frames (k a)) -> frames (bind m k).
Proof.
  intros Hm Hk s r s2 ev. unfold bind.
  destruct (m s) as [[[e | a] s1] ev1] eqn:Em.
  - intros [= <- <- <-]. exact (Hm _ _ _ _ Em).
  - destruct (k a s1) as [[r2 s3] ev2] eqn:Ek.
    intros [= <- <- <-].
    destruct (Hm _ _ _ _ Em) as [w1 ->].
    destruct (Hk _ _ _ _ _ Ek) as [w2 ->]. eauto.
Qed.

Lemma frames_try {A} (m : M (ApiServer.State W) A)
  (h : PyExc -> M (ApiServer.State W) A) :
  frames m -> (forall e, frames (h e)) -> frames (try_except m h).
Proof.
  intros Hm Hh s r s2 ev. unfold try_except.
  destruct (m s) as [[[e | a] s1] ev1] eqn:Em.
  - destruct (h e s1) as [[r2 s3] ev2] eqn:Eh.
    intros [= <- <- <-].
    destruct (Hm _ _ _ _ Em) as [w1 ->].
    destruct (Hh _ _ _ _ _ Eh) as [w2 ->]. eauto.
  - intros [= <- <- <-]. exact (Hm _ _ _ _ Em).
Qed.

End Frames.

Ltac frames_step :=
  first
    [ apply frames_ret | apply frames_raise | apply frames_gets
    | apply frames_getitem | apply frames_io | apply frames_with_graph
    | apply frames_bind; [| intros ?]
    | apply frames_try; [| intros ?]
    | match goal with
      | |- frames (match ?x with _ => _ end) => destruct x
      end ].

(** Case analysis on every external answer and test of a run. *)
Ltac run_cases :=
  repeat
    (simpl;
     match goal with
     | |- context [perform ?X1 ?X2] =>
         destruct (perform X1 X2) as [[?e | ?a] ?w] eqn:?
     | |- context [BlobService.download_translated_file ?X1 ?X2] =>
         destruct (BlobService.download_translated_file X1 X2)
           as [[[?e | ?content] ?w] ?ev] eqn:?
     | |- context [ApiServer.poll_status ?X1 ?X2 ?X3] =>
         destruct (ApiServer.poll_status X1 X2 X3)
           as [[[?e | [?early |]] ?w] ?ev] eqn:?
     | |- context [if ?X1 then _ else _] => destruct X1 eqn:?
     | |- context [match ?X1 with Some _ => _ | None => _ end] =>
         destruct X1 eqn:?
     end).

Section Retrieval.
Context {W : Type} `{Backend W}.

Lemma fetch_frames (translation_id : string) (info : TranslationInfo.t) :
  frames (ApiServer.fetch_translated_content translation_id info).
Proof.
  unfold ApiServer.fetch_translated_content, ApiServer.download_target.
  repeat frames_step.
Qed.

Lemma deliver_frames (translation_id : string) (info : TranslationInfo.t)
  (g : GraphService.t) (content : bytes) :
  frames (ApiServer.deliver translation_id info g content).
Proof. unfold ApiServer.deliver. repeat frames_step. Qed.

(** [deliver] never raises; its body starts with the success entries. *)
Lemma deliver_total (translation_id : string) (info : TranslationInfo.t)
  (g : GraphService.t) (content : bytes) (s : ApiServer.State W) :
  exists extra s1 ev,
    ApiServer.deliver translation_id info g content s
    = (inr (ApiServer.success_body translation_id info content
              (utcnow (ApiServer.world s)) ++ extra), s1, ev).
Proof.
  unfold ApiServer.deliver. run_unfold. simpl.
  destruct (GraphService.enabled g); simpl.
  - destruct (GraphService.save_to_onedrive _ _ _ _ _)
      as [[[e | url] gw] ev]; simpl; eauto.
  - eauto.
Qed.

(** [deliver] never raises: its body is the six entries of the success
    response about the job and the artifact, followed by the entries of
    the import. *)
Lemma deliver_entries (translation_id : string) (info : TranslationInfo.t)
  (g : GraphService.t) (content : bytes) (s : ApiServer.State W) :
  exists extra s1 ev,
    ApiServer.deliver translation_id info g content s
    = (inr ([("success", JBool true);
             ("translation_id", JStr translation_id);
             ("file_name", JStr (TranslationInfo.display_name info));
             ("target_language",
              JStr (TranslationInfo.target_language info));
             ("file_size", JNum (Z.of_nat (length content)));
             ("completed_at", JTime (utcnow (ApiServer.world s)))]
            ++ extra), s1, ev)
    /\ import_entries extra
    /\ ApiServer.active_translations s1 = ApiServer.active_translations s
    /\ status_calls ev = 0%nat /\ sleeps ev = [].
Proof.
  assert (Hshape :
    exists extra s1 ev,
      ApiServer.deliver translation_id info g content s
      = (inr (ApiServer.success_body translation_id info content
                (utcnow (ApiServer.world s)) ++ extra), s1, ev)
      /\ import_entries extra).
  { unfold ApiServer.deliver, import_entries. run_unfold. simpl.
    destruct (GraphService.enabled g); simpl.
    - destruct (GraphService.save_to_onedrive _ _ _ _ _)
        as [[[e | url] gw] ev]; simpl; do 3 eexists;
        (split; [reflexivity |]); eauto.
    - do 3 eexists. split; [reflexivity |]. auto. }
  destruct Hshape as (extra & s1 & ev & Hdeliver & Hextra).
  exists extra, s1, ev. split; [exact Hdeliver |].
  split; [exact Hextra |].
  destruct (deliver_frames _ _ _ _ _ _ _ _ Hdeliver) as [w1 ->].
  split; [reflexivity |].
  exact (not_polling_trace ev (deliver_emits _ _ _ _ _ _ _ _ Hdeliver)).
Qed.

(** An early return of the polling loop is the 400 response. *)
Lemma poll_status_early (translation_id : string) (retries : list nat)
  (w w1 : W) (response : Response) (ev : list Event) :
  ApiServer.poll_status translation_id retries w
  = (inr (Some response), w1, ev) ->
  resp_status response = 400.
Proof.
  revert w ev. induction retries as [| retry rest IH]; intros w ev.
  - discriminate.
  - simpl. run_unfold. call_cases; simpl; [discriminate |].
    destruct (String.eqb (st_status a) "Succeeded"); [discriminate |].
    destruct (retry <? 2)%nat.
    + match goal with
      | |- context [ApiServer.poll_status translation_id rest ?w2] =>
          destruct (ApiServer.poll_status translation_id rest w2)
            as [[[e | polled] w3] ev3] eqn:Erest
      end; simpl; [discriminate |].
      intros [= -> <- <-]. exact (IH _ _ Erest).
    + intros [= <- <- <-]. reflexivity.
Qed.

(** The early returns of [fetch_translated_content] are errors. *)
Lemma fetch_early (translation_id : string) (info : TranslationInfo.t)
  (s s1 : ApiServer.State W) (response : Response) (ev : list Event) :
  ApiServer.fetch_translated_content translation_id info s
  = (inr (inl response), s1, ev) ->
  resp_status response = 400 \/ resp_status response = 500.
Proof.
  unfold ApiServer.fetch_translated_content.
  generalize (seq 0 ApiServer.max_retries). intros retries.
  run_unfold. run_cases; intros Heq; try discriminate;
    injection Heq as <- <- <-.
  - left. eapply poll_status_early; eassumption.
  - right. reflexivity.
  - left. eapply poll_status_early; eassumption.
  - right. reflexivity.
Qed.

End Retrieval.

(* ===================================================================== *)
(** * Retrieval of a registered job                                       *)
(* ===================================================================== *)

Section RegisteredJob.
Context {W : Type} `{Backend W}.

(** For a registered job and working clients, [get_result] is the
    pipeline: fetch the content, deliver it, delete the record. *)
Lemma get_result_registered (request : Request) (s : ApiServer.State W)
  (translation_id : string) (info : TranslationInfo.t)
  (self : BlobService.t) :
  match_info request !! "translation_id" = Some translation_id ->
  ApiServer.active_translations s !! translation_id = Some info ->
  TranslationService_init (ApiServer.environ s) = None ->
  BlobService.new (ApiServer.environ s) = inr self ->
  ApiServer.get_result request s
  = match ApiServer.fetch_translated_content translation_id info s with
    | (inl e, s1, ev1) => (inr (ApiServer.retrieval_error e), s1, ev1)
    | (inr (inl early), s1, ev1) => (inr early, s1, ev1)
    | (inr (inr content), s1, ev1) =>
        match ApiServer.deliver translation_id info
                (GraphService.new (ApiServer.environ s)) content s1 with
        | (inl e, s2, ev2) =>
            (inr (ApiServer.retrieval_error e), s2, ev1 ++ ev2)
        | (inr body, s2, ev2) =>
            match ApiServer.active_translations s2 !! translation_id with
            | Some _ =>
                (inr (json_response body 200),
                 ApiServer.set_active_translations (delete translation_id)
                   s2,
                 ev1 ++ ev2)
            | None =>
                (inr (ApiServer.retrieval_error (KeyError translation_id)),
                 s2, ev1 ++ ev2)
            end
        end
    end.
Proof.
  intros Hid Hjob Hts Hbs.
  unfold ApiServer.get_result. run_unfold.
  rewrite Hid. simpl. rewrite Hjob. simpl. rewrite Hts, Hbs. simpl.
  destruct (ApiServer.fetch_translated_content translation_id info s)
    as [[[e | [early | content]] s1] ev1]; simpl;
    rewrite ?app_nil_r; try reflexivity.
  destruct (ApiServer.deliver _ _ _ _ s1) as [[[e | body] s2] ev2]; simpl;
    rewrite ?app_nil_r; try reflexivity.
  destruct (ApiServer.active_translations s2 !! translation_id); simpl;
    rewrite ?app_nil_r; reflexivity.
Qed.

(** A direct download that succeeds is the whole fetch. *)
Lemma fetch_direct (translation_id : string) (info : TranslationInfo.t)
  (s : ApiServer.State W) (url : string) (content : bytes) (w1 : W)
  (ev1 : list Event) :
  BlobService.target_url (TranslationInfo.blob_urls info) = Some url ->
  BlobService.download_translated_file url (ApiServer.world s)
  = (inr content, w1, ev1) ->
  ApiServer.fetch_translated_content translation_id info s
  = (inr (inr content), ApiServer.set_world w1 s, ev1).
Proof.
  intros Hurl Hdl. unfold ApiServer.fetch_translated_content.
  run_unfold. rewrite Hurl. simpl. rewrite Hdl. simpl.
  rewrite app_nil_r. reflexivity.
Qed.

(** The REST handler on a job whose target object can be downloaded:
    [get_result] answers 200 with the success entries, its run starts with
    the download, no status request is made, and the record is removed. *)
Lemma get_result_direct_probe (request : Request) (s : ApiServer.State W)
  (translation_id : string) (info : TranslationInfo.t)
  (self : BlobService.t) (url : string) (content : bytes) (w1 : W)
  (ev1 : list Event) :
  match_info request !! "translation_id" = Some translation_id ->
  ApiServer.active_translations s !! translation_id = Some info ->
  TranslationService_init (ApiServer.environ s) = None ->
  BlobService.new (ApiServer.environ s) = inr self ->
  BlobService.target_url (TranslationInfo.blob_urls info) = Some url ->
  BlobService.download_translated_file url (ApiServer.world s)
  = (inr content, w1, ev1) ->
  exists extra s' ev2,
    ApiServer.get_result request s
    = (inr (json_response
              (ApiServer.success_body translation_id info content
                 (utcnow w1) ++ extra) 200),
       s', ev1 ++ ev2)
    /\ status_calls (ev1 ++ ev2) = 0%nat
    /\ ApiServer.active_translations s'
       = delete translation_id (ApiServer.active_translations s).
Proof.
  intros Hid Hjob Hts Hbs Hurl Hdl.
  rewrite (get_result_registered _ _ _ _ _ Hid Hjob Hts Hbs).
  rewrite (fetch_direct _ _ _ _ _ _ _ Hurl Hdl).
  destruct (deliver_total translation_id info
              (GraphService.new (ApiServer.environ s)) content
              (ApiServer.set_world w1 s)) as (extra & s2 & ev2 & Hdeliver).
  rewrite Hdeliver.
  destruct (deliver_frames _ _ _ _ _ _ _ _ Hdeliver) as [w2 ->].
  simpl. rewrite Hjob.
  exists extra. eexists. exists ev2.
  split; [reflexivity |]. split; [| reflexivity].
  apply status_calls_none, Forall_app. split.
  - exact (download_emits _ _ _ _ _ Hdl).
  - exact (deliver_emits _ _ _ _ _ _ _ _ Hdeliver).
Qed.

End RegisteredJob.

Section Eviction.
Context {W : Type} `{Backend W}.

(** No blob of a listing is recent when each one is undated or at least
    7200 seconds old. *)
Lemma recent_files_none (self : BlobService.t) (now : Z)
  (blobs : list BlobProperties) :
  (forall blob modified,
      In blob blobs -> bp_last_modified blob = Some modified ->
      7200 * 1000000 <= now - modified) ->
  ApiServer.recent_files_of self now blobs = [].
Proof.
  unfold ApiServer.recent_files_of.
  induction blobs as [| blob rest IH]; intros Hold; [reflexivity |].
  simpl. destruct (bp_last_modified blob) as [modified |] eqn:Hmod.
  - pose proof (Hold blob modified (or_introl eq_refl) Hmod) as Hage.
    destruct (Z.ltb_spec (now - modified) (7200 * 1000000)); [lia |].
    apply IH. intros b m Hin. apply Hold. now right.
  - apply IH. intros b m Hin. apply Hold. now right.
Qed.

(** [get_result] always answers: its outermost [except] clause turns
    every exception into a response. *)
Lemma get_result_total (request : Request) (s : ApiServer.State W) :
  exists response s' ev,
    ApiServer.get_result request s = (inr response, s', ev).
Proof.
  unfold ApiServer.get_result, try_except.
  match goal with
  | |- context [match ?m s with _ => _ end] =>
      destruct (m s) as [[[e | response] s1] ev1]
  end; simpl; eauto.
Qed.

(** For a registered job, the record is deleted exactly by the runs that
    answer 200. *)
Lemma get_result_evicts_on_success (request : Request)
  (s : ApiServer.State W) (translation_id : string)
  (info : TranslationInfo.t) (response : Response)
  (s' : ApiServer.State W) (ev : list Event) :
  match_info request !! "translation_id" = Some translation_id ->
  ApiServer.active_translations s !! translation_id = Some info ->
  ApiServer.get_result request s = (inr response, s', ev) ->
  (resp_status response = 200
   /\ Py.get "success" (resp_body response) = Some (JBool true)
   /\ ApiServer.active_translations s'
      = delete translation_id (ApiServer.active_translations s))
  \/ (resp_status response <> 200
      /\ ApiServer.active_translations s'
         = ApiServer.active_translations s).
Proof.
  intros Hid Hjob.
  destruct (TranslationService_init (ApiServer.environ s)) as [e0 |]
    eqn:Hts.
  { unfold ApiServer.get_result. run_unfold.
    rewrite Hid. simpl. rewrite Hjob. simpl. rewrite Hts. simpl.
    intros [= <- <- <-]. right. split; [discriminate | reflexivity]. }
  destruct (BlobService.new (ApiServer.environ s)) as [e0 | self] eqn:Hbs.
  { unfold ApiServer.get_result. run_unfold.
    rewrite Hid. simpl. rewrite Hjob. simpl. rewrite Hts, Hbs. simpl.
    intros [= <- <- <-]. right. split; [discriminate | reflexivity]. }
  rewrite (get_result_registered _ _ _ _ _ Hid Hjob Hts Hbs).
  destruct (ApiServer.fetch_translated_content translation_id info s)
    as [[[e | [early | content]] s1] ev1] eqn:Hfetch;
    destruct (fetch_frames _ _ _ _ _ _ Hfetch) as [w1 ->].
  - intros [= <- <- <-]. right. split; [discriminate | reflexivity].
  - intros [= <- <- <-]. right. split; [| reflexivity].
    destruct (fetch_early _ _ _ _ _ _ Hfetch) as [-> | ->]; discriminate.
  - destruct (deliver_total translation_id info
                (GraphService.new (ApiServer.environ s)) content
                (ApiServer.set_world w1 s))
      as (extra & s2 & ev2 & Hdeliver).
    rewrite Hdeliver.
    destruct (deliver_frames _ _ _ _ _ _ _ _ Hdeliver) as [w2 ->].
    simpl. rewrite Hjob.
    intros [= <- <- <-]. left. repeat split; reflexivity.
Qed.

(** For a job that is not registered, [get_result] answers 404 when the
    listing of the output container fails or holds no recent object. *)
Lemma get_result_unknown_not_found (request : Request)
  (s : ApiServer.State W) (translation_id : string)
  (self : BlobService.t) :
  match_info request !! "translation_id" = Some translation_id ->
  ApiServer.active_translations s !! translation_id = None ->
  BlobService.new (ApiServer.environ s) = inr self ->
  (forall e w1,
      perform (ListBlobs "doc-trad") (ApiServer.world s) = (inl e, w1) ->
      ApiServer.get_result request s
      = (inr (json_response
                [("success", JBool false);
                 ("error",
                  JStr ("Traduction '" +:+ translation_id
                        +:+ "' non trouvée en mémoire: " +:+ str_exc e))]
                404),
         ApiServer.set_world w1 s,
         [EvCall (ListBlobs "doc-trad") (inl e)]))
  /\ (forall blobs w1,
        perform (ListBlobs "doc-trad") (ApiServer.world s)
        = (inr blobs, w1) ->
        (forall blob modified,
            In blob blobs -> bp_last_modified blob = Some modified ->
            7200 * 1000000 <= utcnow w1 - modified) ->
        ApiServer.get_result request s
        = (inr (json_response
                  [("success", JBool false);
                   ("error",
                    JStr ("Traduction '" +:+ translation_id +:+
                      "' non trouvée et aucun fichier récent dans le container"))]
                  404),
           ApiServer.set_world w1 s,
           [EvCall (ListBlobs "doc-trad") (inr blobs)])).
Proof.
  intros Hid Hjob Hbs.
  destruct (new_BlobService_containers _ _ Hbs) as [_ Hout].
  split.
  - intros e w1 Hlist.
    unfold ApiServer.get_result, ApiServer.recover_translation_info.
    run_unfold. rewrite Hid. simpl. rewrite Hjob. simpl.
    rewrite Hbs. simpl. rewrite Hout, Hlist. reflexivity.
  - intros blobs w1 Hlist Hold.
    unfold ApiServer.get_result, ApiServer.recover_translation_info.
    run_unfold. rewrite Hid. simpl. rewrite Hjob. simpl.
    rewrite Hbs. simpl. rewrite Hout, Hlist. simpl.
    rewrite (recent_files_none self (utcnow w1) blobs Hold). reflexivity.
Qed.

(** C3 (amended).  A run of [get_result] on a registered job removes the
    record exactly when it answers 200 with [success]; every other answer
    leaves the table as it was.  Once the record is gone, a request for
    the same job finds no record and answers 404 when the listing of the
    output container fails or holds no object modified in the last 7200
    seconds. *)
Theorem get_result_eviction (request : Request) (translation_id : string) :
  match_info request !! "translation_id" = Some translation_id ->
  (forall (s : ApiServer.State W) info,
      ApiServer.active_translations s !! translation_id = Some info ->
      exists response s' ev,
        ApiServer.get_result request s = (inr response, s', ev)
        /\ ((resp_status response = 200
             /\ Py.get "success" (resp_body response) = Some (JBool true)
             /\ ApiServer.active_translations s'
                = delete translation_id (ApiServer.active_translations s)
             /\ ApiServer.active_translations s' !! translation_id = None)
            \/ (resp_status response <> 200
                /\ ApiServer.active_translations s'
                   = ApiServer.active_translations s)))
  /\ (forall (s : ApiServer.State W) self,
        ApiServer.active_translations s !! translation_id = None ->
        BlobService.new (ApiServer.environ s) = inr self ->
        (forall e w1,
            perform (ListBlobs "doc-trad") (ApiServer.world s)
            = (inl e, w1) ->
            exists response s' ev,
              ApiServer.get_result request s = (inr response, s', ev)
              /\ resp_status response = 404
              /\ Py.get "success" (resp_body response)
                 = Some (JBool false))
        /\ (forall blobs w1,
              perform (ListBlobs "doc-trad") (ApiServer.world s)
              = (inr blobs, w1) ->
              (forall blob modified,
                  In blob blobs -> bp_last_modified blob = Some modified ->
                  7200 * 1000000 <= utcnow w1 - modified) ->
              exists response s' ev,
                ApiServer.get_result request s = (inr response, s', ev)
                /\ resp_status response = 404
                /\ Py.get "success" (resp_body response)
                   = Some (JBool false))).
Proof.
  intros Hid. split.
  - intros s info Hjob.
    destruct (get_result_total request s) as (response & s' & ev & Hrun).
    exists response, s', ev. split; [exact Hrun |].
    destruct (get_result_evicts_on_success _ _ _ _ _ _ _ Hid Hjob Hrun)
      as [(Hok & Hsuccess & Hdel) | Hkept]; [left | right; exact Hkept].
    repeat split; try assumption.
    rewrite Hdel. apply lookup_delete_eq.
  - intros s self Hjob Hbs.
    destruct (get_result_unknown_not_found _ _ _ _ Hid Hjob Hbs)
      as [Hfail Hnone].
    split.
    + intros e w1 Hlist. rewrite (Hfail e w1 Hlist).
      do 3 eexists. repeat split; reflexivity.
    + intros blobs w1 Hlist Hold. rewrite (Hnone blobs w1 Hlist Hold).
      do 3 eexists. repeat split; reflexivity.
Qed.

End Eviction.

(* ===================================================================== *)
(** * The import to OneDrive                                              *)
(* ===================================================================== *)

Section Handoff.
Context {W : Type} `{Backend W}.

(** A run of [_handle_translate_document] changes the world only, or
    stores one record, which has no [file_name]. *)
Lemma mcp_translate_outcome (a : McpServer.ToolArgs) (s : McpServer.State W) :
  exists text w1 ev,
    McpServer._handle_translate_document a s
    = (inr text, McpServer.set_world w1 s, ev)
    \/ exists translation_id info,
         McpServer._handle_translate_document a s
         = (inr text,
            McpServer.set_active_translations (<[translation_id := info]>)
              (McpServer.set_world w1 s), ev)
         /\ TranslationInfo.file_name info = None.
Proof.
  assert (Hsame : s = McpServer.set_world (McpServer.world s) s)
    by now destruct s.
  unfold McpServer._handle_translate_document. run_unfold.
  destruct (McpServer.args a !! "blob_name") as [blob_name |]; simpl;
    [| do 3 eexists; left; rewrite <- Hsame; reflexivity].
  destruct (McpServer.args a !! "target_language") as [language |]; simpl;
    [| do 3 eexists; left; rewrite <- Hsame; reflexivity].
  destruct (McpServer.args a !! "user_id") as [user_id |]; simpl;
    [| do 3 eexists; left; rewrite <- Hsame; reflexivity].
  destruct (BlobService.check_blob_exists _ blob_name (McpServer.world s))
    as [[[e | []] w1] ev1]; simpl;
    [do 3 eexists; left; reflexivity | | do 3 eexists; left; reflexivity].
  destruct (BlobService.prepare_translation_urls _ blob_name language w1)
    as [[[e | blob_urls] w2] ev2]; simpl;
    [do 3 eexists; left; reflexivity |].
  destruct (BlobService.source_url blob_urls) as [source |]; simpl;
    [| do 3 eexists; left; reflexivity].
  destruct (BlobService.target_url blob_urls) as [target |]; simpl;
    [| do 3 eexists; left; reflexivity].
  destruct (perform (StartTranslation source target language) w2)
    as [[e | translation_id] w3]; simpl;
    [do 3 eexists; left; reflexivity |].
  do 3 eexists. right. do 2 eexists. split; reflexivity.
Qed.


End Handoff.


(* ===================================================================== *)
(** * The polling fallback                                                *)
(* ===================================================================== *)

Section Polling.
Context {W : Type} `{Backend W}.

(** Every run of the three-attempt loop: at most three status requests
    and two sleeps, of five seconds each; an early return is the 400
    response of the third attempt after three answers other than
    [Succeeded] and two sleeps; leaving the loop means the last answer
    was [Succeeded], and a sleep follows every earlier answer. *)
Lemma poll_status_runs (translation_id : string) (w : W)
  (polled : PyExc + option Response) (w2 : W) (ev : list Event) :
  ApiServer.poll_status translation_id (seq 0 ApiServer.max_retries) w
  = (polled, w2, ev) ->
  (status_calls ev <= 3)%nat
  /\ (length (sleeps ev) <= 2)%nat
  /\ Forall (eq 5) (sleeps ev)
  /\ (forall response,
        polled = inr (Some response) ->
        exists st1 st2 st3,
          succeeded st1 = false /\ succeeded st2 = false
          /\ succeeded st3 = false
          /\ ev = [poll translation_id st1; EvSleep 5;
                   poll translation_id st2; EvSleep 5;
                   poll translation_id st3]
          /\ response = ApiServer.not_finished st3
          /\ total_sleep ev = 10)
  /\ (polled = inr None ->
      exists earlier st,
        succeeded st = true
        /\ Forall (fun st' => succeeded st' = false) earlier
        /\ (length earlier <= 2)%nat
        /\ ev = flat_map (fun st' => [poll translation_id st'; EvSleep 5])
                  earlier
                ++ [poll translation_id st]).
Proof.
  unfold ApiServer.max_retries. simpl seq.
  unfold succeeded, poll.
  cbn [ApiServer.poll_status]. run_unfold.
  run_cases; intros [= <- <- <-];
    (split; [vm_compute; lia |]);
    (split; [vm_compute; lia |]);
    (split; [repeat constructor |]);
    (split; [intros response Hr; try discriminate Hr |
             intros Hn; try discriminate Hn]).
  all: try (injection Hr as <-; do 3 eexists;
            repeat split; try eassumption; reflexivity).
  - exists [], a. repeat split; auto.
  - exists [a], a0. repeat split; auto.
  - exists [a; a0], a1. repeat split; auto.
Qed.

(** When the direct download fails, the fetch is the polling loop and,
    if the loop is left, one more download. *)
Lemma fetch_fallback (translation_id : string) (info : TranslationInfo.t)
  (s : ApiServer.State W) (url : string) (e : PyExc) (w1 : W)
  (ev1 : list Event) :
  BlobService.target_url (TranslationInfo.blob_urls info) = Some url ->
  BlobService.download_translated_file url (ApiServer.world s)
  = (inl e, w1, ev1) ->
  ApiServer.fetch_translated_content translation_id info s
  = match ApiServer.poll_status translation_id
            (seq 0 ApiServer.max_retries) w1 with
    | (inl e2, w2, ev2) => (inl e2, ApiServer.set_world w2 s, ev1 ++ ev2)
    | (inr (Some early), w2, ev2) =>
        (inr (inl early), ApiServer.set_world w2 s, ev1 ++ ev2)
    | (inr None, w2, ev2) =>
        match BlobService.download_translated_file url w2 with
        | (inl e3, w3, ev3) =>
            (inr (inl (ApiServer.download_impossible e3)),
             ApiServer.set_world w3 s, ev1 ++ ev2 ++ ev3)
        | (inr content, w3, ev3) =>
            (inr (inr content), ApiServer.set_world w3 s,
             ev1 ++ ev2 ++ ev3)
        end
    end.
Proof.
  intros Hurl Hdl. unfold ApiServer.fetch_translated_content.
  generalize (seq 0 ApiServer.max_retries). intros retries.
  run_unfold. rewrite Hurl. simpl. rewrite Hdl. simpl.
  destruct (ApiServer.poll_status translation_id retries w1)
    as [[[e2 | [early |]] w2] ev2]; simpl;
    rewrite ?app_nil_r; try reflexivity.
  destruct (BlobService.download_translated_file url w2)
    as [[[e3 | content] w3] ev3]; simpl;
    rewrite ?app_nil_r; reflexivity.
Qed.


(** The polling loop under the answers of the provider: a raising
    request ends the loop with its exception, a [Succeeded] answer with
    [None]; a third answer that is not [Succeeded] gives the 400
    response. *)
Lemma poll_status_says (translation_id : string)
  (pending : list StatusDict) (final : PyExc + StatusDict) (w w2 : W) :
  (length pending <= 2)%nat ->
  Forall (fun status => succeeded status = false) pending ->
  provider_says translation_id w pending final w2 ->
  match final with
  | inl err =>
      ApiServer.poll_status translation_id (seq 0 ApiServer.max_retries) w
      = (inl err, w2,
         waits translation_id pending
         ++ [EvCall (CheckTranslationStatus translation_id) (inl err)])
  | inr status =>
      if succeeded status then
        ApiServer.poll_status translation_id (seq 0 ApiServer.max_retries) w
        = (inr None, w2,
           waits translation_id pending ++ [poll translation_id status])
      else
        length pending = 2%nat ->
        ApiServer.poll_status translation_id (seq 0 ApiServer.max_retries) w
        = (inr (Some (ApiServer.not_finished status)), w2,
           waits translation_id pending ++ [poll translation_id status])
  end.
Proof.
  intros Hlen Hpending Hsays.
  unfold ApiServer.max_retries, succeeded, poll in *. simpl seq.
  destruct pending as [| p1 [| p2 [| p3 rest]]]; simpl in Hlen; [| | | lia];
    simpl in Hsays.
  - cbn [ApiServer.poll_status]. run_unfold. rewrite Hsays.
    destruct final as [err | status]; simpl; [reflexivity |].
    destruct (String.eqb (st_status status) "Succeeded");
      [reflexivity | discriminate].
  - destruct Hsays as (w1 & Hfirst & Hsays).
    apply Forall_cons in Hpending as [Hp1 _].
    cbn [ApiServer.poll_status]. run_unfold. rewrite Hfirst. simpl.
    rewrite Hp1. simpl. rewrite Hsays.
    destruct final as [err | status]; simpl; [reflexivity |].
    destruct (String.eqb (st_status status) "Succeeded");
      [reflexivity | discriminate].
  - destruct Hsays as (w1 & Hfirst & w3 & Hsecond & Hsays).
    apply Forall_cons in Hpending as [Hp1 Hpending].
    apply Forall_cons in Hpending as [Hp2 _].
    cbn [ApiServer.poll_status]. run_unfold. rewrite Hfirst. simpl.
    rewrite Hp1. simpl. rewrite Hsecond. simpl. rewrite Hp2. simpl.
    rewrite Hsays.
    destruct final as [err | status]; simpl; [reflexivity |].
    destruct (String.eqb (st_status status) "Succeeded");
      [reflexivity | intros _; reflexivity].
Qed.


(** C2.  When the direct download of a registered job fails,
    [get_result] asks the provider for the status of the job, whatever
    the backend: its answer is a response, the whole run holds at most
    three status requests and at most two sleeps, of five seconds each.
    What the provider says decides the answer.  Three statuses other
    than [Succeeded]: two sleeps (ten seconds) and the 400 "pas encore
    terminée" response, the record stays and no second download is
    tried.  [Succeeded] at the first, second or third request, after a
    sleep for each earlier status: the download is run once more, and
    nothing else follows when it fails, which is answered with the 500
    "Impossible de télécharger" response (the record stays); when it
    succeeds the answer is 200 and the record is removed.  A status
    request that raises is answered with the 500 response of the
    handler's [except] clause. *)
Theorem get_result_polling_fallback (request : Request)
  (s : ApiServer.State W) (translation_id : string)
  (info : TranslationInfo.t) (self : BlobService.t) (url : string)
  (e : PyExc) (w1 : W) (ev1 : list Event) :
  match_info request !! "translation_id" = Some translation_id ->
  ApiServer.active_translations s !! translation_id = Some info ->
  TranslationService_init (ApiServer.environ s) = None ->
  BlobService.new (ApiServer.environ s) = inr self ->
  BlobService.target_url (TranslationInfo.blob_urls info) = Some url ->
  BlobService.download_translated_file url (ApiServer.world s)
  = (inl e, w1, ev1) ->
  (exists response s' ev2,
      ApiServer.get_result request s = (inr response, s', ev1 ++ ev2)
      /\ (status_calls (ev1 ++ ev2) <= 3)%nat
      /\ (length (sleeps (ev1 ++ ev2)) <= 2)%nat
      /\ Forall (eq 5) (sleeps (ev1 ++ ev2)))
  /\ (forall st1 st2 st3 w2,
        provider_says translation_id w1 [st1; st2] (inr st3) w2 ->
        succeeded st1 = false ->
        succeeded st2 = false ->
        succeeded st3 = false ->
        ApiServer.get_result request s
        = (inr (json_response
                  [("success", JBool false);
                   ("error",
                    JStr ("La traduction n'est pas encore terminée après 3 vérifications (statut: "
                          +:+ st_status st3 +:+ ")"))] 400),
           ApiServer.set_world w2 s,
           ev1 ++ [poll translation_id st1; EvSleep 5;
                   poll translation_id st2; EvSleep 5;
                   poll translation_id st3])
        /\ total_sleep
             (ev1 ++ [poll translation_id st1; EvSleep 5;
                      poll translation_id st2; EvSleep 5;
                      poll translation_id st3]) = 10)
  /\ (forall pending st w2,
        (length pending <= 2)%nat ->
        Forall (fun status => succeeded status = false) pending ->
        provider_says translation_id w1 pending (inr st) w2 ->
        succeeded st = true ->
        exists again w3 ev3,
          BlobService.download_translated_file url w2 = (again, w3, ev3)
          /\ match again with
             | inl final_error =>
                 ApiServer.get_result request s
                 = (inr (json_response
                           [("success", JBool false);
                            ("error",
                             JStr ("Impossible de télécharger le fichier traduit: "
                                   +:+ str_exc final_error))] 500),
                    ApiServer.set_world w3 s,
                    ev1 ++ waits translation_id pending
                    ++ [poll translation_id st] ++ ev3)
             | inr content =>
                 exists extra s' ev4,
                   ApiServer.get_result request s
                   = (inr (json_response
                             ([("success", JBool true);
                               ("translation_id", JStr translation_id);
                               ("file_name",
                                JStr (TranslationInfo.display_name info));
                               ("target_language",
                                JStr (TranslationInfo.target_language info));
                               ("file_size",
                                JNum (Z.of_nat (length content)));
                               ("completed_at", JTime (utcnow w3))]
                              ++ extra) 200),
                      s',
                      ev1 ++ waits translation_id pending
                      ++ [poll translation_id st] ++ ev3 ++ ev4)
                   /\ import_entries extra
                   /\ status_calls (ev3 ++ ev4) = 0%nat
                   /\ sleeps (ev3 ++ ev4) = []
                   /\ ApiServer.active_translations s'
                      = delete translation_id
                          (ApiServer.active_translations s)
             end)
  /\ (forall pending err w2,
        (length pending <= 2)%nat ->
        Forall (fun status => succeeded status = false) pending ->
        provider_says translation_id w1 pending (inl err) w2 ->
        ApiServer.get_result request s
        = (inr (json_response
                  [("success", JBool false);
                   ("error",
                    JStr ("Erreur lors de la récupération: "
                          +:+ str_exc err))] 500),
           ApiServer.set_world w2 s,
           ev1 ++ waits translation_id pending
           ++ [EvCall (CheckTranslationStatus translation_id) (inl err)])).
Proof.
  intros Hid Hjob Hts Hbs Hurl Hdl.
  pose proof (get_result_registered _ _ _ _ _ Hid Hjob Hts Hbs) as Hrun.
  rewrite (fetch_fallback _ _ _ _ _ _ _ Hurl Hdl) in Hrun.
  destruct (not_polling_trace ev1 (download_emits _ _ _ _ _ Hdl))
    as [Hc1 Hs1].
  assert (Hdelivered :
    forall content w3,
      exists extra s' ev4,
        ApiServer.deliver translation_id info
          (GraphService.new (ApiServer.environ s)) content
          (ApiServer.set_world w3 s)
        = (inr (ApiServer.success_body translation_id info content
                  (utcnow w3) ++ extra), s', ev4)
        /\ import_entries extra
        /\ ApiServer.active_translations s'
           = ApiServer.active_translations s
        /\ status_calls ev4 = 0%nat /\ sleeps ev4 = []).
  { intros content w3.
    exact (deliver_entries translation_id info
             (GraphService.new (ApiServer.environ s)) content
             (ApiServer.set_world w3 s)). }
  split; [| split; [| split]].
  - destruct (ApiServer.poll_status translation_id
                (seq 0 ApiServer.max_retries) w1)
      as [[polled w2] ev2] eqn:Hpoll.
    destruct (poll_status_runs _ _ _ _ _ Hpoll)
      as (Hcalls & Hsleeps & Hfive & _).
    destruct polled as [e2 | [early |]].
    + do 3 eexists. split; [exact Hrun |].
      rewrite status_calls_app, sleeps_app, Hc1, Hs1. auto.
    + do 3 eexists. split; [exact Hrun |].
      rewrite status_calls_app, sleeps_app, Hc1, Hs1. auto.
    + destruct (BlobService.download_translated_file url w2)
        as [[[e3 | content] w3] ev3] eqn:Hagain.
      * destruct (not_polling_trace ev3 (download_emits _ _ _ _ _ Hagain))
          as [Hc3 Hs3].
        do 3 eexists. split; [exact Hrun |].
        rewrite !status_calls_app, !sleeps_app, Hc1, Hs1, Hc3, Hs3.
        rewrite Nat.add_0_r, app_nil_r. auto.
      * destruct (not_polling_trace ev3 (download_emits _ _ _ _ _ Hagain))
          as [Hc3 Hs3].
        destruct (Hdelivered content w3)
          as (extra & s' & ev4 & Hdeliver & Hextra & Hreg & Hc4 & Hs4).
        rewrite Hdeliver, Hreg, Hjob in Hrun.
        rewrite <- !app_assoc in Hrun.
        do 3 eexists. split; [exact Hrun |].
        rewrite !status_calls_app, !sleeps_app, Hc1, Hs1, Hc3, Hs3,
          Hc4, Hs4.
        rewrite !Nat.add_0_r, !app_nil_r. auto.
  - intros st1 st2 st3 w2 Hsays H1 H2 H3.
    assert (Hpending :
              Forall (fun status => succeeded status = false) [st1; st2])
      by (repeat constructor; assumption).
    pose proof (poll_status_says translation_id [st1; st2] (inr st3) w1 w2
                  (Nat.le_refl 2) Hpending Hsays) as Hpoll.
    cbv beta iota in Hpoll. rewrite H3 in Hpoll.
    rewrite (Hpoll eq_refl) in Hrun. split; [exact Hrun |].
    unfold total_sleep. rewrite sleeps_app, Hs1. reflexivity.
  - intros pending st w2 Hlen Hpending Hsays Hst.
    pose proof (poll_status_says translation_id pending (inr st) w1 w2
                  Hlen Hpending Hsays) as Hpoll.
    cbv beta iota in Hpoll. rewrite Hst in Hpoll. rewrite Hpoll in Hrun.
    destruct (BlobService.download_translated_file url w2)
      as [[[e3 | content] w3] ev3] eqn:Hagain.
    + do 3 eexists. split; [reflexivity |].
      rewrite <- !app_assoc in Hrun. exact Hrun.
    + destruct (not_polling_trace ev3 (download_emits _ _ _ _ _ Hagain))
        as [Hc3 Hs3].
      destruct (Hdelivered content w3)
        as (extra & s' & ev4 & Hdeliver & Hextra & Hreg & Hc4 & Hs4).
      rewrite Hdeliver, Hreg, Hjob in Hrun.
      do 3 eexists. split; [reflexivity |].
      exists extra. eexists. exists ev4.
      rewrite <- !app_assoc in Hrun.
      split; [exact Hrun |]. split; [exact Hextra |].
      rewrite status_calls_app, sleeps_app, Hc3, Hs3, Hc4, Hs4.
      split; [reflexivity |]. split; [reflexivity |].
      simpl. now rewrite Hreg.
  - intros pending err w2 Hlen Hpending Hsays.
    pose proof (poll_status_says translation_id pending (inl err) w1 w2
                  Hlen Hpending Hsays) as Hpoll.
    cbv beta iota in Hpoll. rewrite Hpoll in Hrun. exact Hrun.
Qed.

End Polling.

(* ===================================================================== *)
(** * The parts of a URL                                                  *)
(* ===================================================================== *)

Section UrlFacts.

Lemma split_nonempty (c : ascii) (s : string) : Py.split c s <> [].
Proof.
  destruct s as [| a s]; simpl; [discriminate |].
  destruct (Py.split c s); [discriminate |].
  destruct (Ascii.eqb a c); discriminate.
Qed.

Lemma split_absent (c : ascii) (s : string) :
  Py.contains c s = false -> Py.split c s = [s].
Proof.
  induction s as [| a s IH]; simpl; [reflexivity |].
  destruct (Ascii.eqb a c); [discriminate |].
  intros Hs. rewrite (IH Hs). reflexivity.
Qed.

Lemma split_append (c : ascii) (a b : string) :
  Py.split c (a +:+ String c b) = Py.split c a ++ Py.split c b.
Proof.
  induction a as [| x a IH].
  - rewrite append_nil. simpl.
    destruct (Py.split c b) eqn:Hb; [now apply split_nonempty in Hb |].
    rewrite Ascii.eqb_refl. reflexivity.
  - rewrite append_cons. simpl. rewrite IH.
    destruct (Py.split c a) eqn:Ha; [now apply split_nonempty in Ha |].
    simpl. destruct (Ascii.eqb x c); reflexivity.
Qed.

Lemma last2_app {A} (l : list A) (x y : A) :
  Py.last2 (l ++ [x; y]) = Some x.
Proof.
  unfold Py.last2. rewrite rev_app_distr. reflexivity.
Qed.

Lemma last1_app {A} (l : list A) (x y : A) :
  Py.last1 (l ++ [x; y]) = Some y.
Proof.
  unfold Py.last1. rewrite last_app. reflexivity.
Qed.

(** The container and the blob [download_translated_file] cuts out of a
    URL of the shape [base/container/blob?sas]. *)
Lemma url_parts (base container blob query : string) :
  Py.contains "/" container = false ->
  Py.contains "/" blob = false ->
  Py.contains "?" blob = false ->
  Py.contains "/" query = false ->
  let parts :=
    Py.split "/"
      (base +:+ "/" +:+ container +:+ "/" +:+ blob +:+ "?" +:+ query) in
  Py.last2 parts = Some container
  /\ hd EmptyString
       (Py.split "?" (default EmptyString (Py.last1 parts))) = blob.
Proof.
  intros Hc Hb Hq Hs. simpl.
  change ("/" +:+ container +:+ "/" +:+ blob +:+ "?" +:+ query)
    with (String "/" (container +:+ String "/" (blob +:+ String "?" query))).
  rewrite split_append, split_append.
  rewrite (split_absent "/" container Hc).
  assert (Hrest : Py.contains "/" (blob +:+ String "?" query) = false).
  { rewrite contains_append, Hb. simpl. exact Hs. }
  rewrite (split_absent "/" _ Hrest). simpl.
  rewrite last2_app, last1_app. simpl.
  rewrite split_append, (split_absent "?" blob Hq).
  split; reflexivity.
Qed.

(** The same for a URL without a signature. *)
Lemma url_parts_unsigned (base container blob : string) :
  Py.contains "/" container = false ->
  Py.contains "/" blob = false ->
  Py.contains "?" blob = false ->
  Py.last2 (Py.split "/" (base +:+ "/" +:+ container +:+ "/" +:+ blob))
  = Some container
  /\ hd EmptyString
       (Py.split "?"
          (default EmptyString
             (Py.last1
                (Py.split "/"
                   (base +:+ "/" +:+ container +:+ "/" +:+ blob)))))
     = blob.
Proof.
  intros Hc Hb Hq.
  change ("/" +:+ container +:+ "/" +:+ blob)
    with (String "/" (container +:+ String "/" blob)).
  rewrite split_append, split_append.
  rewrite (split_absent "/" container Hc), (split_absent "/" blob Hb).
  simpl. rewrite last2_app, last1_app. simpl.
  rewrite (split_absent "?" blob Hq). split; reflexivity.
Qed.



End UrlFacts.

(* ===================================================================== *)
(** * The direct probe, handler by handler                                *)
(* ===================================================================== *)

Section DirectProbe.
Context {W : Type} `{Backend W}.

(** The run of [download_translated_file] on a URL whose last two parts
    are [container] and [blob]. *)
Lemma download_at (url container blob : string) (w : W) :
  Py.last2 (Py.split "/" url) = Some container ->
  hd EmptyString
    (Py.split "?" (default EmptyString (Py.last1 (Py.split "/" url))))
  = blob ->
  BlobService.download_translated_file url w
  = match perform (BlobExists container blob) w with
    | (inr true, w1) =>
        match perform (BlobDownload container blob) w1 with
        | (inr content, w2) =>
            (inr content, w2,
             [EvCall (BlobExists container blob) (inr true);
              EvCall (BlobDownload container blob) (inr content)])
        | (inl e, w2) =>
            (inl (Exception
                    ("Erreur lors de la récupération: " +:+ str_exc e)),
             w2,
             [EvCall (BlobExists container blob) (inr true);
              EvCall (BlobDownload container blob) (inl e)])
        end
    | (inr false, w1) =>
        (inl (Exception
                ("Erreur lors de la récupération: "
                 +:+ "Le fichier traduit " +:+ blob
                 +:+ " n'existe pas dans le conteneur " +:+ container)),
         w1, [EvCall (BlobExists container blob) (inr false)])
    | (inl e, w1) =>
        (inl (Exception
                ("Erreur lors de la récupération: " +:+ str_exc e)),
         w1, [EvCall (BlobExists container blob) (inl e)])
    end.
Proof.
  intros Hcontainer Hblob.
  unfold BlobService.download_translated_file. run_unfold.
  rewrite Hcontainer, Hblob. simpl.
  destruct (perform (BlobExists container blob) w) as [[e | []] w1];
    simpl; try reflexivity.
  destruct (perform (BlobDownload container blob) w1) as [[e | content] w2];
    reflexivity.
Qed.



End DirectProbe.


(* ===================================================================== *)
(** * The token of the Graph service                                      *)
(* ===================================================================== *)

Section TokenCache.
Context {W : Type} `{Backend W}.

(** Every call of [_get_access_token] sends the client-credentials
    request, whatever the instance holds in [_access_token]. *)
Lemma get_access_token_requests (g : GraphService.t) (w : W) :
  exists token g',
    GraphService._get_access_token (g, w)
    = (inr token,
       (g', snd (perform (GraphService.token_request g) w)),
       [EvCall (GraphService.token_request g)
          (fst (perform (GraphService.token_request g) w))]).
Proof.
  unfold GraphService._get_access_token. run_unfold. simpl.
  destruct (perform (GraphService.token_request g) w)
    as [[e | response] w1]; simpl; [eauto |].
  destruct (status_code response =? 200); simpl; [| eauto].
  destruct (json response) as [token_data |]; simpl; [| eauto].
  destruct (Py.get "access_token" token_data) as [token |]; simpl;
    [| eauto].
  destruct (Py.truthy token); simpl; eauto.
Qed.

End TokenCache.

(* ===================================================================== *)
(** * The example of the specification                                    *)
(* ===================================================================== *)

Section ReportFinal.
Context {W : Type} `{Backend W}.

Lemma delete_old_files_total (container : string) (hours : Z) (w : W) :
  exists w1 ev,
    BlobService._delete_old_files container hours w = (inr tt, w1, ev).
Proof.
  unfold BlobService._delete_old_files, try_except.
  match goal with
  | |- context [match ?m w with _ => _ end] =>
      destruct (m w) as [[[e | []] w1] ev1]
  end; simpl; eauto.
Qed.

Lemma check_and_delete_total (container blob : string) (w : W) :
  exists w1 ev,
    BlobService._check_and_delete_target_blob container blob w
    = (inr tt, w1, ev).
Proof.
  unfold BlobService._check_and_delete_target_blob, try_except.
  match goal with
  | |- context [match ?m w with _ => _ end] =>
      destruct (m w) as [[[e | []] w1] ev1]
  end; simpl; eauto.
Qed.

Lemma normalize_report_final :
  BlobService._normalize_blob_name "Report (final).pdf"
  = "Report_final_.pdf".
Proof. reflexivity. Qed.

Lemma output_name_report_final :
  BlobService.output_name "Report_final_.pdf" "es" = "Report_final_-es.pdf".
Proof. reflexivity. Qed.

(** C5 (amended).  For the file name ["Report (final).pdf"] and the
    language ["es"], [prepare_blobs] names the source object
    ["Report_final_.pdf"] and the output object ["Report_final_-es.pdf"]
    (the underscore that replaces the closing parenthesis stays before
    the dot), and it returns them whenever the decoding, the upload and
    the signing of the two URLs succeed.  The recovery scan over a
    listing of the output container that holds this object alone,
    modified less than 7200 seconds ago, maps it back to the name
    ["Report_final_.pdf"] and the language ["es"]. *)
Theorem report_final_naming_and_recovery :
  (forall self content (w : W) urls w1 ev,
      BlobService.prepare_blobs self content "Report (final).pdf" "es" w
      = (inr urls, w1, ev) ->
      BlobService.input_blob_name urls = Some "Report_final_.pdf"
      /\ BlobService.output_blob_name urls = Some "Report_final_-es.pdf")
  /\ (forall self content data (w : W),
        b64decode content = inr data ->
        (forall container blob (w0 : W),
            exists w1,
              perform (BlobUpload container blob data) w0 = (inr tt, w1)) ->
        (forall container blob permission (w0 : W),
            exists url w1,
              perform (GenerateSas container blob permission) w0
              = (inr url, w1)) ->
        exists urls w1 ev,
          BlobService.prepare_blobs self content "Report (final).pdf" "es" w
          = (inr urls, w1, ev)
          /\ BlobService.output_blob_name urls
             = Some "Report_final_-es.pdf")
  /\ (forall (s : ApiServer.State W) translation_id self size modified w1,
        BlobService.new (ApiServer.environ s) = inr self ->
        perform (ListBlobs "doc-trad") (ApiServer.world s)
        = (inr [{| bp_name := "Report_final_-es.pdf"; bp_size := size;
                   bp_last_modified := Some modified |}], w1) ->
        utcnow w1 - modified < 7200 * 1000000 ->
        exists info s' ev,
          ApiServer.recover_translation_info translation_id s
          = (inr (inr info), s', ev)
          /\ TranslationInfo.blob_name info = Some "Report_final_.pdf"
          /\ TranslationInfo.target_language info = "es"
          /\ TranslationInfo.user_id info = "unknown").
Proof.
  split; [| split].
  - intros self content w urls w1 ev.
    unfold BlobService.prepare_blobs.
    rewrite normalize_report_final, output_name_report_final.
    unfold BlobService._generate_sas_url. run_unfold.
    destruct (BlobService._delete_old_files _ _ w) as [[[e | []] w2] ev2];
      simpl; [discriminate |].
    destruct (BlobService._check_and_delete_target_blob _ _ w2)
      as [[[e | []] w3] ev3]; simpl; [discriminate |].
    destruct (b64decode content) as [e | data]; simpl; [discriminate |].
    run_cases; intros Hrun; try discriminate Hrun.
    injection Hrun as <- <- <-. split; reflexivity.
  - intros self content data w Hdecode Hupload Hsas.
    unfold BlobService.prepare_blobs.
    rewrite normalize_report_final, output_name_report_final.
    unfold BlobService._generate_sas_url. run_unfold.
    destruct (delete_old_files_total (BlobService.output_container self)
                1 w) as (w2 & ev2 & ->). simpl.
    destruct (check_and_delete_total (BlobService.output_container self)
                "Report_final_-es.pdf" w2) as (w3 & ev3 & ->). simpl.
    rewrite Hdecode. simpl.
    destruct (Hupload (BlobService.input_container self)
                "Report_final_.pdf" w3) as (w4 & ->). simpl.
    destruct (Hsas (BlobService.input_container self)
                "Report_final_.pdf" "r" w4) as (source & w5 & ->). simpl.
    destruct (Hsas (BlobService.output_container self)
                "Report_final_-es.pdf" "rw" w5) as (target & w6 & ->).
    simpl. do 3 eexists. split; reflexivity.
  - intros s translation_id self size modified w1 Hbs Hlist Hrecent.
    destruct (new_BlobService_containers _ _ Hbs) as [_ Hout].
    unfold ApiServer.recover_translation_info, ApiServer.recent_files_of.
    run_unfold. rewrite Hbs. simpl. rewrite Hout, Hlist. simpl.
    assert (Hlt : (utcnow w1 - modified <? 7200 * 1000000) = true)
      by (apply Z.ltb_lt; exact Hrecent).
    rewrite Hlt. simpl. do 3 eexists. repeat split; reflexivity.
Qed.

End ReportFinal.

(* ===================================================================== *)
(** * Evaluations in the concrete world                                   *)
(* ===================================================================== *)

Section Evaluations.
Import Scenario.

(** C4, on the code.  Every call of [_get_access_token] sends the
    client-credentials request and nothing else, also on an instance whose
    [_access_token] already holds a token.  Two imports to OneDrive in a
    row on one instance, with an identity endpoint that answers 200, send
    four such requests (two per import, one of them from
    [create_documents_folder]), and the token stored by the first one is
    in [_access_token] all along. *)
Theorem token_cache_is_never_read :
  (forall (W : Type) (B : Backend W) (g : GraphService.t) (w : W),
      exists token g',
        GraphService._get_access_token (g, w)
        = (inr token,
           (g', snd (perform (GraphService.token_request g) w)),
           [EvCall (GraphService.token_request g)
              (fst (perform (GraphService.token_request g) w))]))
  /\ (exists url g w ev,
        two_handoffs (GraphService.new full_env, quiet) = (inr url, (g, w), ev)
        /\ GraphService._access_token g = Some "token-1"
        /\ token_requests token_endpoint ev = 4%nat)
  /\ (exists token g w ev,
        GraphService._get_access_token
          (GraphService.set_access_token (Some "token-0")
             (GraphService.new full_env), quiet)
        = (inr token, (g, w), ev)
        /\ token_requests token_endpoint ev = 1%nat).
Proof.
  split; [| split].
  - intros W B g w. apply get_access_token_requests.
  - do 4 eexists. split; [vm_compute; reflexivity |].
    split; reflexivity.
  - do 4 eexists. split; [vm_compute; reflexivity |]. reflexivity.
Qed.

Lemma check_blob_exists_never_raises_witness :
  BlobService.check_blob_exists "doc-to-trad" "missing.pdf"
    (with_storage_down quiet)
  = (inr false, with_storage_down quiet,
     [EvCall (BlobExists "doc-to-trad" "missing.pdf")
        (inl (ExternalError "ServiceUnavailable"))])
  /\ ApiServer.translate_document
       (translate_request "missing.pdf" "es" "user-1")
       (api_state (with_storage_down quiet) storage_env [])
     = (inr (json_response
               [("success", JBool false);
                ("error",
                 JStr ("Fichier '" +:+ "missing.pdf"
                       +:+ "' non trouvé dans le container "
                       +:+ "doc-to-trad"))] 404),
        ApiServer.set_world (with_storage_down quiet)
          (api_state (with_storage_down quiet) storage_env []),
        [EvCall (BlobExists "doc-to-trad" "missing.pdf")
           (inl (ExternalError "ServiceUnavailable"))]).
Proof.
  destruct (@check_blob_exists_never_raises World backend)
    as (_ & Hfalse & Hrest).
  split.
  - apply Hfalse. reflexivity.
  - apply (Hrest _ _ (list_to_map [("blob_name", "missing.pdf");
                                   ("target_language", "es");
                                   ("user_id", "user-1")])
             "missing.pdf" "es" "user-1" service); reflexivity.
Defined.

Lemma translate_missing_source_not_found_witness :
  (exists response s' ev,
      ApiServer.translate_document
        (translate_request "missing.pdf" "es" "user-1")
        (api_state quiet storage_env []) = (inr response, s', ev)
      /\ resp_status response = 404
      /\ filter (fun e => is_start_translation e = true) ev = []
      /\ ApiServer.active_translations s' = ∅)
  /\ (exists text s' ev,
        McpServer._handle_translate_document
          (tool_args [("blob_name", "missing.pdf");
                      ("target_language", "es"); ("user_id", "user-1")])
          (mcp_state quiet []) = (inr text, s', ev)
        /\ filter (fun e => is_start_translation e = true) ev = []
        /\ McpServer.active_translations s' = ∅).
Proof.
  destruct (@translate_missing_source_not_found World backend)
    as [Hrest Hmcp].
  split.
  - destruct (Hrest (translate_request "missing.pdf" "es" "user-1")
                (api_state quiet storage_env [])
                (list_to_map [("blob_name", "missing.pdf");
                              ("target_language", "es");
                              ("user_id", "user-1")])
                "missing.pdf" "es" "user-1" service quiet)
      as (response & s' & ev & Hrun & Hresp & Hev & Hnone & Hreg);
      try reflexivity.
    exists response, s', ev. repeat split; try assumption.
    rewrite Hresp. reflexivity.
  - destruct (Hmcp (tool_args [("blob_name", "missing.pdf");
                               ("target_language", "es");
                               ("user_id", "user-1")])
                (mcp_state quiet []) "missing.pdf" "es" "user-1" quiet)
      as (text & s' & ev & Hrun & _ & Hev & Hnone & Hreg);
      try reflexivity.
    exists text, s', ev. repeat split; assumption.
Defined.




Lemma get_result_eviction_witness :
  (exists response s' ev,
      ApiServer.get_result (result_request "job-1")
        (api_state ready storage_env [("job-1", job1)])
      = (inr response, s', ev)
      /\ ((resp_status response = 200
           /\ Py.get "success" (resp_body response) = Some (JBool true)
           /\ ApiServer.active_translations s'
              = delete "job-1"
                  (ApiServer.active_translations
                     (api_state ready storage_env [("job-1", job1)]))
           /\ ApiServer.active_translations s' !! "job-1" = None)
          \/ (resp_status response <> 200
              /\ ApiServer.active_translations s'
                 = ApiServer.active_translations
                     (api_state ready storage_env [("job-1", job1)]))))
  /\ (exists response s' ev,
        ApiServer.get_result (result_request "job-1")
          (api_state quiet storage_env [])
        = (inr response, s', ev)
        /\ resp_status response = 404
        /\ Py.get "success" (resp_body response) = Some (JBool false)).
Proof.
  destruct (get_result_eviction (W := World) (result_request "job-1")
              "job-1" eq_refl) as [Hevict Hunknown].
  split.
  - apply (Hevict _ job1). reflexivity.
  - destruct (Hunknown (api_state quiet storage_env []) service
                eq_refl eq_refl) as [_ Hnone].
    apply (Hnone [] quiet); [reflexivity |].
    intros blob modified [].
Defined.

(** C3, as stated, fails on the second request: after a retrieval that
    answered 200 and removed the record, the same request, with the
    translated object still in the output container, is answered 500
    with the text of a [KeyError], not 404. *)
Lemma second_retrieval_is_not_not_found :
  match ApiServer.get_result (result_request "job-1")
          (api_state ready storage_env [("job-1", job1)]) with
  | (inr first, s1, _) =>
      resp_status first = 200
      /\ ApiServer.active_translations s1 !! "job-1" = None
      /\ match ApiServer.get_result (result_request "job-1") s1 with
         | (inr second, _, _) =>
             second = ApiServer.retrieval_error (KeyError "job-1")
             /\ resp_status second = 500
             /\ resp_status second <> 404
         | _ => False
         end
  | _ => False
  end.
Proof. vm_compute. repeat split; discriminate. Qed.

Lemma report_final_naming_and_recovery_witness :
  (exists urls w1 ev,
      BlobService.prepare_blobs service "SGk=" "Report (final).pdf" "es"
        quiet
      = (inr urls, w1, ev)
      /\ BlobService.output_blob_name urls = Some "Report_final_-es.pdf")
  /\ (exists info s' ev,
        ApiServer.recover_translation_info "job-9"
          (api_state
             (with_stored [translated "Report_final_-es.pdf"
                             (9900 * second)] quiet)
             storage_env [])
        = (inr (inr info), s', ev)
        /\ TranslationInfo.blob_name info = Some "Report_final_.pdf"
        /\ TranslationInfo.target_language info = "es"
        /\ TranslationInfo.user_id info = "unknown").
Proof.
  destruct (@report_final_naming_and_recovery World backend)
    as (_ & Hreturns & Hrecover).
  split.
  - apply (Hreturns service "SGk=" [Byte.x48; Byte.x69] quiet).
    + reflexivity.
    + intros container blob w0. eexists. reflexivity.
    + intros container blob permission w0. do 2 eexists. reflexivity.
  - apply (Hrecover _ "job-9" service 4 (9900 * second)
             (with_stored [translated "Report_final_-es.pdf"
                             (9900 * second)] quiet)).
    + reflexivity.
    + reflexivity.
    + vm_compute. reflexivity.
Defined.

(** C5, as stated, fails on the output name: [prepare_blobs] returns
    ["Report_final_-es.pdf"], not ["Report_final-es.pdf"]; the recovery
    scan maps that object back to ["Report_final_.pdf"]. *)
Lemma report_final_output_name_differs :
  match BlobService.prepare_blobs service "SGk=" "Report (final).pdf" "es"
          quiet with
  | (inr urls, _, _) =>
      BlobService.output_blob_name urls = Some "Report_final_-es.pdf"
      /\ BlobService.output_blob_name urls <> Some "Report_final-es.pdf"
  | _ => False
  end
  /\ ApiServer.reverse_output_name "Report_final_-es.pdf"
     = ("Report_final_.pdf", "es")
  /\ ApiServer.reverse_output_name "Report_final_-es.pdf"
     <> ("Report_final.pdf", "es").
Proof. vm_compute. repeat split; discriminate. Qed.



(** The target object of [job-1] is not in storage.  With a provider that
    keeps answering [Running], [get_result] gives up after three requests
    and ten seconds; with one that answers [Running] and then
    [Succeeded], the download is tried once more and its failure is the
    500 response; with one that cannot be reached, the answer is the 500
    response of the [except] clause. *)
Lemma get_result_polling_fallback_witness :
  ApiServer.get_result (result_request "job-1")
    (api_state quiet storage_env [("job-1", job1)])
  = (inr (json_response
            [("success", JBool false);
             ("error",
              JStr "La traduction n'est pas encore terminée après 3 vérifications (statut: Running)")]
            400),
     ApiServer.set_world (with_clock (10010 * second) quiet)
       (api_state quiet storage_env [("job-1", job1)]),
     [EvCall (BlobExists "doc-trad" "report-es.pdf") (inr false)]
     ++ [poll "job-1" running; EvSleep 5; poll "job-1" running; EvSleep 5;
         poll "job-1" running])
  /\ ApiServer.get_result (result_request "job-1")
       (api_state (with_answers ["Running"; "Succeeded"] quiet) storage_env
          [("job-1", job1)])
     = (inr (json_response
               [("success", JBool false);
                ("error",
                 JStr "Impossible de télécharger le fichier traduit: Erreur lors de la récupération: Le fichier traduit report-es.pdf n'existe pas dans le conteneur doc-trad")]
               500),
        ApiServer.set_world
          (with_clock (10005 * second) (with_answers ["Succeeded"] quiet))
          (api_state (with_answers ["Running"; "Succeeded"] quiet)
             storage_env [("job-1", job1)]),
        [EvCall (BlobExists "doc-trad" "report-es.pdf") (inr false)]
        ++ [poll "job-1" running; EvSleep 5]
        ++ [poll "job-1" succeeded_status]
        ++ [EvCall (BlobExists "doc-trad" "report-es.pdf") (inr false)])
  /\ ApiServer.get_result (result_request "job-1")
       (api_state (with_answers [] quiet) storage_env [("job-1", job1)])
     = (inr (json_response
               [("success", JBool false);
                ("error",
                 JStr "Erreur lors de la récupération: ServiceUnavailable")]
               500),
        ApiServer.set_world (with_answers [] quiet)
          (api_state (with_answers [] quiet) storage_env [("job-1", job1)]),
        [EvCall (BlobExists "doc-trad" "report-es.pdf") (inr false)]
        ++ [EvCall (CheckTranslationStatus "job-1")
              (inl (ExternalError "ServiceUnavailable"))]).
Proof.
  split; [| split].
  - destruct (get_result_polling_fallback (W := World)
                (result_request "job-1")
                (api_state quiet storage_env [("job-1", job1)])
                "job-1" job1 service job1_target
                (Exception
                   ("Erreur lors de la récupération: "
                    +:+ "Le fichier traduit report-es.pdf n'existe pas dans le conteneur doc-trad"))
                quiet
                [EvCall (BlobExists "doc-trad" "report-es.pdf") (inr false)])
      as (_ & Hnot_ready & _); [reflexivity .. |].
    destruct (Hnot_ready running running running
                (with_clock (10010 * second) quiet))
      as [Hrun _]; [| reflexivity .. | exact Hrun].
    simpl. eexists. split; [reflexivity |].
    eexists. split; reflexivity.
  - destruct (get_result_polling_fallback (W := World)
                (result_request "job-1")
                (api_state (with_answers ["Running"; "Succeeded"] quiet)
                   storage_env [("job-1", job1)])
                "job-1" job1 service job1_target
                (Exception
                   ("Erreur lors de la récupération: "
                    +:+ "Le fichier traduit report-es.pdf n'existe pas dans le conteneur doc-trad"))
                (with_answers ["Running"; "Succeeded"] quiet)
                [EvCall (BlobExists "doc-trad" "report-es.pdf") (inr false)])
      as (_ & _ & Hsucceeded & _); [reflexivity .. |].
    destruct (Hsucceeded [running] succeeded_status
                (with_clock (10005 * second)
                   (with_answers ["Succeeded"] quiet)))
      as (again & w3 & ev3 & Hagain & Hrun).
    + simpl. lia.
    + repeat constructor.
    + simpl. eexists. split; reflexivity.
    + reflexivity.
    + vm_compute in Hagain. injection Hagain as <- <- <-. exact Hrun.
  - destruct (get_result_polling_fallback (W := World)
                (result_request "job-1")
                (api_state (with_answers [] quiet) storage_env
                   [("job-1", job1)])
                "job-1" job1 service job1_target
                (Exception
                   ("Erreur lors de la récupération: "
                    +:+ "Le fichier traduit report-es.pdf n'existe pas dans le conteneur doc-trad"))
                (with_answers [] quiet)
                [EvCall (BlobExists "doc-trad" "report-es.pdf") (inr false)])
      as (_ & _ & _ & Hraises); [reflexivity .. |].
    apply (Hraises [] (ExternalError "ServiceUnavailable")
             (with_answers [] quiet)).
    + simpl. lia.
    + constructor.
    + reflexivity.
Defined.



End Evaluations.


(* ===================================================================== *)
(** * The download of a translated file                                 *)
(* ===================================================================== *)

Section Download.
Context {W : Type} `{Backend W}.


(** X1.  [download_translated_file] reads the container and the blob off
    the last two parts of the URL: on [base/container/blob?sas] (no
    slash in [container], [blob] and [sas], no question mark in [blob])
    it probes and downloads [blob] of [container], whatever the host and
    the token are; a blob reported absent is not downloaded. *)
Theorem download_translated_file_parses_url
  (base container blob sas : string) (w : W) :
  Py.contains "/" container = false ->
  Py.contains "/" blob = false ->
  Py.contains "?" blob = false ->
  Py.contains "/" sas = false ->
  (forall w1 content w2,
      perform (BlobExists container blob) w = (inr true, w1) ->
      perform (BlobDownload container blob) w1 = (inr content, w2) ->
      BlobService.download_translated_file
        (base +:+ "/" +:+ container +:+ "/" +:+ blob +:+ "?" +:+ sas) w
      = (inr content, w2,
         [EvCall (BlobExists container blob) (inr true);
          EvCall (BlobDownload container blob) (inr content)]))
  /\ (forall w1,
        perform (BlobExists container blob) w = (inr false, w1) ->
        BlobService.download_translated_file
          (base +:+ "/" +:+ container +:+ "/" +:+ blob +:+ "?" +:+ sas) w
        = (inl (Exception
                  ("Erreur lors de la récupération: "
                   +:+ "Le fichier traduit " +:+ blob
                   +:+ " n'existe pas dans le conteneur " +:+ container)),
           w1, [EvCall (BlobExists container blob) (inr false)])).
Proof.
  intros Hc Hb Hq Hs.
  destruct (url_parts base container blob sas Hc Hb Hq Hs) as [H2 H1].
  split.
  - intros w1 content w2 Hexists Hdownload.
    rewrite (download_at _ container blob w H2 H1), Hexists, Hdownload.
    reflexivity.
  - intros w1 Hexists.
    rewrite (download_at _ container blob w H2 H1), Hexists. reflexivity.
Qed.

(** X2.  Whatever the URL and the storage do, a run of
    [download_translated_file] makes at most two calls: the existence
    probe, and the download after a probe answered [True] only.  Every
    failure, the missing blob included, reaches the caller as a plain
    [Exception] whose text starts with "Erreur lors de la récupération: ". *)
Theorem download_translated_file_failures (url : string) (w : W)
  (r : PyExc + bytes) (w1 : W) (ev : list Event) :
  BlobService.download_translated_file url w = (r, w1, ev) ->
  (forall e, r = inl e ->
     exists msg,
       e = Exception ("Erreur lors de la récupération: " +:+ msg))
  /\ ((ev = [] /\ Py.last2 (Py.split "/" url) = None)
      \/ (exists container blob answer,
            ev = [EvCall (BlobExists container blob) answer]
            /\ answer <> inr true
            /\ exists e, r = inl e)
      \/ (exists container blob answer,
            ev = [EvCall (BlobExists container blob) (inr true);
                  EvCall (BlobDownload container blob) answer]
            /\ match answer with
               | inr content => r = inr content
               | inl _ => exists e, r = inl e
               end)).
Proof.
  unfold BlobService.download_translated_file. run_unfold.
  destruct (Py.last2 (Py.split "/" url)) as [container |] eqn:Hparts; simpl.
  - match goal with
    | |- context [perform (BlobExists container ?b) w] =>
        destruct (perform (BlobExists container b) w)
          as [[e | []] w2] eqn:Hexists
    end; simpl.
    + intros [= <- <- <-]. split; [intros ? [= <-]; eauto |].
      right; left. do 3 eexists. split; [reflexivity |].
      split; [discriminate | eauto].
    + match goal with
      | |- context [perform (BlobDownload container ?b) w2] =>
          destruct (perform (BlobDownload container b) w2)
            as [[e | content] w3] eqn:Hdownload
      end; simpl.
      * intros [= <- <- <-]. split; [intros ? [= <-]; eauto |].
        right; right. do 3 eexists. split; [reflexivity |]. simpl. eauto.
      * intros [= <- <- <-]. split; [intros ? [=] |].
        right; right. do 3 eexists. split; [reflexivity |]. reflexivity.
    + intros [= <- <- <-]. split; [intros ? [= <-]; eauto |].
      right; left. do 3 eexists. split; [reflexivity |].
      split; [discriminate | eauto].
  - intros [= <- <- <-]. split; [intros ? [= <-]; eauto |].
    left. split; reflexivity.
Qed.

End Download.

(* ===================================================================== *)
(** * The cleanup of the output container                               *)
(* ===================================================================== *)

Section Cleanup.
Context {W : Type} `{Backend W}.

Lemma deletions_app (a b : list Event) :
  deletions (a ++ b) = deletions a ++ deletions b.
Proof. unfold deletions. apply omap_app. Qed.

(** The loop of [_delete_old_files] deletes blobs of the listing that are
    older than the cutoff, and no other. *)
Lemma delete_older_scope (container : string) (cutoff : Z)
  (blobs : list BlobProperties) (w : W) (r : PyExc + unit) (w1 : W)
  (ev : list Event) :
  BlobService.delete_older container cutoff blobs w = (r, w1, ev) ->
  Forall (fun deleted =>
            deleted.1 = container
            /\ exists blob modified,
                 In blob blobs /\ bp_name blob = deleted.2
                 /\ bp_last_modified blob = Some modified
                 /\ modified < cutoff)
    (deletions ev).
Proof.
  revert w r w1 ev.
  induction blobs as [| blob rest IH]; intros w r w1 ev; simpl.
  - intros [= <- <- <-]. constructor.
  - assert (Hrest : forall w r w1 ev,
               BlobService.delete_older container cutoff rest w = (r, w1, ev) ->
               Forall (fun deleted =>
                         deleted.1 = container
                         /\ exists b modified,
                              In b (blob :: rest) /\ bp_name b = deleted.2
                              /\ bp_last_modified b = Some modified
                              /\ modified < cutoff)
                 (deletions ev)).
    { intros w0 r0 w2 ev0 Hrun.
      eapply Forall_impl; [exact (IH _ _ _ _ Hrun) |].
      intros deleted (Hc & b & modified & Hin & Hrest).
      split; [exact Hc |]. exists b, modified. split; [now right | exact Hrest]. }
    destruct (bp_last_modified blob) as [modified |] eqn:Hmodified.
    + destruct (Z.ltb_spec modified cutoff) as [Hold | Hrecent].
      * run_unfold.
        destruct (perform (BlobDelete container (bp_name blob)) w)
          as [[e | []] w2]; simpl.
        -- intros [= <- <- <-]. constructor; [| constructor].
           split; [reflexivity |]. exists blob, modified.
           repeat split; try assumption. now left.
        -- destruct (BlobService.delete_older container cutoff rest w2)
             as [[r2 w3] ev2] eqn:Hrun.
           intros [= <- <- <-]. simpl. constructor.
           ++ split; [reflexivity |]. exists blob, modified.
              repeat split; try assumption. now left.
           ++ exact (Hrest _ _ _ _ Hrun).
      * apply Hrest.
    + intros [= <- <- <-]. constructor.
Qed.

(** When no deletion of the run raises and every blob of the listing is
    dated, the loop deletes each blob older than the cutoff, in the order
    of the listing. *)
Lemma delete_older_complete (container : string) (cutoff : Z)
  (blobs : list BlobProperties) (w : W) (r : PyExc + unit) (w1 : W)
  (ev : list Event) :
  BlobService.delete_older container cutoff blobs w = (r, w1, ev) ->
  Forall (fun blob => is_Some (bp_last_modified blob)) blobs ->
  Forall (fun e => raised e = false) ev ->
  deletions ev
  = map (fun blob => (container, bp_name blob))
      (List.filter
         (fun blob =>
            match bp_last_modified blob with
            | Some modified => modified <? cutoff
            | None => false
            end) blobs).
Proof.
  intros Hrun Hdated. revert w r w1 ev Hrun.
  induction Hdated as [| blob rest [modified Hmodified] _ IH];
    intros w r w1 ev; simpl.
  - intros [= <- <- <-] _. reflexivity.
  - rewrite Hmodified. destruct (modified <? cutoff).
    + run_unfold.
      destruct (perform (BlobDelete container (bp_name blob)) w)
        as [[e | []] w2]; simpl.
      * intros [= <- <- <-] Hraised. inversion Hraised; discriminate.
      * destruct (BlobService.delete_older container cutoff rest w2)
          as [[r2 w3] ev2] eqn:Hrest.
        intros [= <- <- <-] Hraised. inversion Hraised; subst.
        simpl. f_equal. exact (IH _ _ _ _ Hrest ltac:(assumption)).
    + apply IH.
Qed.

(** X3.  [_delete_old_files] never raises, and the blobs it deletes are
    blobs of the given container that the listing dates before the
    cutoff, [max_age_hours] hours before the time read after the listing.
    When no call of the run raises and every blob of the listing is
    dated, these are all such blobs, in the order of the listing. *)
Theorem delete_old_files_scope (container : string) (hours : Z) (w : W) :
  exists w1 ev,
    BlobService._delete_old_files container hours w = (inr tt, w1, ev)
    /\ (forall deleted,
          In deleted (deletions ev) ->
          deleted.1 = container
          /\ exists blobs w0 blob modified,
               perform (ListBlobs container) w = (inr blobs, w0)
               /\ In blob blobs /\ bp_name blob = deleted.2
               /\ bp_last_modified blob = Some modified
               /\ modified < utcnow w0 - hours * BlobService.hour)
    /\ (forall blobs w0,
          perform (ListBlobs container) w = (inr blobs, w0) ->
          Forall (fun blob => is_Some (bp_last_modified blob)) blobs ->
          Forall (fun e => raised e = false) ev ->
          deletions ev
          = map (fun blob => (container, bp_name blob))
              (List.filter
                 (fun blob =>
                    match bp_last_modified blob with
                    | Some modified =>
                        modified <? utcnow w0 - hours * BlobService.hour
                    | None => false
                    end) blobs)).
Proof.
  unfold BlobService._delete_old_files. run_unfold.
  destruct (perform (ListBlobs container) w) as [[e | blobs] w0] eqn:Hlist;
    simpl.
  - do 2 eexists. split; [reflexivity |]. split.
    + intros deleted [].
    + intros blobs w1 [=].
  - destruct (BlobService.delete_older container
                (utcnow w0 - hours * BlobService.hour) blobs w0)
      as [[r w2] ev] eqn:Hloop.
    pose proof (delete_older_scope _ _ _ _ _ _ _ Hloop) as Hscope.
    exists w2, (EvCall (ListBlobs container) (inr blobs) :: ev).
    split; [| split].
    + destruct r as [e | []]; simpl; rewrite ?app_nil_r; reflexivity.
    + intros deleted Hin. simpl in Hin.
      rewrite Forall_forall in Hscope.
      apply list_elem_of_In in Hin.
      destruct (Hscope deleted Hin) as (Hc & blob & modified & Hblob).
      split; [exact Hc |]. exists blobs, w0, blob, modified.
      split; [reflexivity | exact Hblob].
    + intros blobs' w0' [= <- <-] Hdated Hraised.
      inversion Hraised; subst.
      exact (delete_older_complete _ _ _ _ _ _ _ Hloop Hdated
               ltac:(assumption)).
Qed.

End Cleanup.

(* ===================================================================== *)
(** * The preparation of the URLs                                       *)
(* ===================================================================== *)

Section Preparation.
Context {W : Type} `{Backend W}.

Lemma delete_old_files_in_container (container : string) (hours : Z) (w : W)
  (r : PyExc + unit) (w1 : W) (ev : list Event) :
  BlobService._delete_old_files container hours w = (r, w1, ev) ->
  r = inr tt /\ Forall (fun deleted => deleted.1 = container) (deletions ev).
Proof.
  unfold BlobService._delete_old_files. run_unfold.
  destruct (perform (ListBlobs container) w) as [[e | blobs] w0]; simpl.
  - intros [= <- <- <-]. split; [reflexivity | constructor].
  - destruct (BlobService.delete_older container
                (utcnow w0 - hours * BlobService.hour) blobs w0)
      as [[r2 w2] ev2] eqn:Hloop.
    pose proof (delete_older_scope _ _ _ _ _ _ _ Hloop) as Hscope.
    assert (Hin : Forall (fun deleted => deleted.1 = container)
                    (deletions ev2)).
    { eapply Forall_impl; [exact Hscope |]. now intros deleted [Hc _]. }
    destruct r2 as [e | []]; simpl; intros [= <- <- <-];
      rewrite ?app_nil_r; (split; [reflexivity | exact Hin]).
Qed.

Lemma check_and_delete_in_container (container blob : string) (w : W)
  (r : PyExc + unit) (w1 : W) (ev : list Event) :
  BlobService._check_and_delete_target_blob container blob w = (r, w1, ev) ->
  r = inr tt
  /\ Forall (fun deleted => deleted = (container, blob)) (deletions ev).
Proof.
  unfold BlobService._check_and_delete_target_blob. run_unfold.
  destruct (perform (BlobExists container blob) w) as [[e | []] w0]; simpl.
  - intros [= <- <- <-]. split; [reflexivity | constructor].
  - destruct (perform (BlobDelete container blob) w0) as [[e | []] w2];
      simpl; intros [= <- <- <-];
      (split; [reflexivity | repeat constructor]).
  - intros [= <- <- <-]. split; [reflexivity | constructor].
Qed.

(** X4.  [prepare_translation_urls] deletes in the output container only
    (old blobs and the blob of the same output name), takes the input name
    as it is, and signs two URLs: the input blob for reading and the blob
    [output_name] of the output container for reading and writing.  It
    raises exactly when one of the two signings raises, with that
    exception; a failure of the cleanup is not reported. *)
Theorem prepare_translation_urls_outcome (self : BlobService.t)
  (input_blob target_language : string) (w : W)
  (r : PyExc + BlobService.BlobUrls) (w1 : W) (ev : list Event) :
  BlobService.prepare_translation_urls self input_blob target_language w
  = (r, w1, ev) ->
  Forall (fun deleted => deleted.1 = BlobService.output_container self)
    (deletions ev)
  /\ exists cleanup signing,
       ev = cleanup ++ signing
       /\ match r with
          | inr urls =>
              exists source target,
                signing
                = [EvCall (GenerateSas (BlobService.input_container self)
                             input_blob "r") (inr source);
                   EvCall (GenerateSas (BlobService.output_container self)
                             (BlobService.output_name input_blob
                                target_language) "rw") (inr target)]
                /\ urls
                   = {| BlobService.source_url := Some source;
                        BlobService.target_url := Some target;
                        BlobService.input_blob_name := Some input_blob;
                        BlobService.output_blob_name :=
                          Some (BlobService.output_name input_blob
                                  target_language);
                        BlobService.original_file_name := Some input_blob;
                        BlobService.normalized_file_name :=
                          Some input_blob |}
          | inl e =>
              exists container blob permissions,
                last signing
                = Some (EvCall (GenerateSas container blob permissions)
                          (inl e))
          end.
Proof.
  unfold BlobService.prepare_translation_urls,
    BlobService._generate_sas_url.
  run_unfold. simpl.
  destruct (BlobService._delete_old_files _ 1 w) as [[r1 w2] ev1] eqn:Hold.
  destruct (delete_old_files_in_container _ _ _ _ _ _ Hold) as [-> Hev1].
  destruct (BlobService._check_and_delete_target_blob _ _ w2)
    as [[r2 w3] ev2] eqn:Htarget.
  destruct (check_and_delete_in_container _ _ _ _ _ _ Htarget)
    as [-> Hev2].
  assert (Hcleanup :
            Forall (fun deleted =>
                      deleted.1 = BlobService.output_container self)
              (deletions (ev1 ++ ev2))).
  { rewrite deletions_app. apply Forall_app. split; [exact Hev1 |].
    eapply Forall_impl; [exact Hev2 |]. now intros deleted ->. }
  destruct (perform (GenerateSas (BlobService.input_container self)
                       input_blob "r") w3) as [[e | source] w4]; simpl.
  - intros [= <- <- <-]. split.
    + rewrite app_assoc, deletions_app. apply Forall_app.
      split; [exact Hcleanup | constructor].
    + exists (ev1 ++ ev2). eexists.
      split; [now rewrite app_assoc |]. do 3 eexists. reflexivity.
  - destruct (perform (GenerateSas (BlobService.output_container self)
                         (BlobService.output_name input_blob target_language)
                         "rw") w4) as [[e | target] w5]; simpl;
      intros [= <- <- <-].
    + split.
      * rewrite app_assoc, deletions_app. apply Forall_app.
        split; [exact Hcleanup | constructor].
      * exists (ev1 ++ ev2). eexists.
        split; [now rewrite app_assoc |]. do 3 eexists. reflexivity.
    + split.
      * rewrite app_assoc, deletions_app. apply Forall_app.
        split; [exact Hcleanup | constructor].
      * exists (ev1 ++ ev2). eexists.
        split; [now rewrite app_assoc |]. do 2 eexists.
        split; reflexivity.
Qed.

End Preparation.

(* ===================================================================== *)
(** * The listing of the input container                                *)
(* ===================================================================== *)

Section Suffixes.

Lemma substring_all (s : string) :
  String.substring 0 (String.length s) s = s.
Proof. induction s as [| x s IH]; simpl; [reflexivity | now rewrite IH]. Qed.

Lemma substring_append (a b : string) :
  String.substring (String.length a) (String.length b) (a +:+ b) = b.
Proof.
  induction a as [| x a IH].
  - rewrite append_nil. apply substring_all.
  - rewrite append_cons. simpl. exact IH.
Qed.

Lemma take_substring (s : string) (m k : nat) :
  (m + k)%nat = String.length s ->
  s = Py.take m s +:+ String.substring m k s.
Proof.
  revert m k. induction s as [| x s IH]; intros m k Hlen; simpl in Hlen.
  - destruct m; [| discriminate]. destruct k; [| discriminate]. reflexivity.
  - destruct m as [| m]; simpl.
    + rewrite append_nil. destruct k as [| k]; [discriminate |].
      injection Hlen as Hlen. subst k. now rewrite substring_all.
    + rewrite append_cons. f_equal. apply IH. lia.
Qed.

(** [s.endswith(suffix)] holds exactly when [s] is some text followed by
    [suffix]. *)
Lemma endswith_spec (suffix s : string) :
  Py.endswith suffix s = true <-> exists stem, s = stem +:+ suffix.
Proof.
  unfold Py.endswith. split.
  - intros Hends. apply andb_true_iff in Hends as [Hle Heq].
    apply Nat.leb_le in Hle. apply String.eqb_eq in Heq.
    exists (Py.take (String.length s - String.length suffix) s).
    rewrite <- Heq at 2. apply take_substring. lia.
  - intros [stem ->]. rewrite length_append.
    apply andb_true_iff. split; [apply Nat.leb_le; lia |].
    replace (String.length stem + String.length suffix
             - String.length suffix)%nat
      with (String.length stem) by lia.
    rewrite substring_append. apply String.eqb_refl.
Qed.

End Suffixes.

Section Listing.
Context {W : Type} `{Backend W}.

(** X5.  [list_input_files] never raises and makes one call, the listing
    of the input container.  Its result is in the order of [str] and is
    the only ordered arrangement of the listed names that pass the filter;
    when the listing raises, the result is the empty list, as for an empty
    container. *)
Theorem list_input_files_sorted (self : BlobService.t)
  (filter_extension : option string) (w : W) :
  exists files w1,
    BlobService.list_input_files self filter_extension w
    = (inr files, w1,
       [EvCall (ListBlobs (BlobService.input_container self))
          (fst (perform (ListBlobs (BlobService.input_container self)) w))])
    /\ StronglySorted String.le files
    /\ match fst (perform (ListBlobs (BlobService.input_container self)) w)
       with
       | inr blobs =>
           files
           ≡ₚ List.filter (BlobService.extension_matches filter_extension)
                (map bp_name blobs)
           /\ forall other,
                StronglySorted String.le other ->
                other
                ≡ₚ List.filter
                     (BlobService.extension_matches filter_extension)
                     (map bp_name blobs) ->
                other = files
       | inl _ => files = []
       end.
Proof.
  unfold BlobService.list_input_files. run_unfold.
  destruct (perform (ListBlobs (BlobService.input_container self)) w)
    as [[e | blobs] w1]; simpl.
  - exists [], w1. repeat split. constructor.
  - do 2 eexists. split; [reflexivity |].
    split; [apply StronglySorted_merge_sort; apply _ |].
    split; [apply merge_sort_Permutation |].
    intros other Hsorted Hperm.
    apply (StronglySorted_unique String.le); [exact Hsorted | |].
    + apply StronglySorted_merge_sort; apply _.
    + rewrite Hperm. symmetry. apply merge_sort_Permutation.
Qed.

(** X6.  With a filter that is not empty, [list_input_files] returns
    exactly the listed names that, in lower case, end with a dot and the
    filter in lower case; without a filter ([None] or the empty string)
    it returns every listed name. *)
Theorem list_input_files_filter (self : BlobService.t)
  (filter_extension : option string) (w : W)
  (blobs : list BlobProperties) (w0 : W) (files : list string) (w1 : W)
  (ev : list Event) :
  perform (ListBlobs (BlobService.input_container self)) w
  = (inr blobs, w0) ->
  BlobService.list_input_files self filter_extension w
  = (inr files, w1, ev) ->
  forall name,
    In name files
    <-> In name (map bp_name blobs)
        /\ match filter_extension with
           | Some (String c extension) =>
               exists stem,
                 Py.str_lower name
                 = stem +:+ "." +:+ Py.str_lower (String c extension)
           | _ => True
           end.
Proof.
  intros Hlist. unfold BlobService.list_input_files. run_unfold.
  rewrite Hlist. simpl. intros [= <- <- <-] name.
  unfold Py.sorted.
  rewrite <- !list_elem_of_In, merge_sort_Permutation, list_elem_of_In.
  rewrite filter_In, <- !list_elem_of_In.
  apply and_iff_compat_l.
  destruct filter_extension as [[| c extension] |]; simpl;
    [tauto | | tauto].
  apply (endswith_spec ("." +:+ Py.str_lower (String c extension))).
Qed.

End Listing.

(* ===================================================================== *)
(** * The Graph service                                                 *)
(* ===================================================================== *)

Section Graph.
Context {W : Type} `{Backend W}.

Lemma uploads_app (a b : list Event) : uploads (a ++ b) = uploads a ++ uploads b.
Proof. unfold uploads. apply omap_app. Qed.

(** X7.  A service built from an environment that lacks one of CLIENT_ID,
    SECRET_ID, TENANT_ID and ONEDRIVE_FOLDER (unset or empty) makes no
    call at all: [save_to_onedrive] raises "Service MS Graph non
    configuré", [create_documents_folder] and [check_user_access] answer
    [False], and the instance and the world are unchanged. *)
Theorem unconfigured_graph_service_makes_no_call
  (environ : gmap string string) (key user_id : string)
  (file_content : bytes) (file_name target_language : string) (w : W) :
  In key ["CLIENT_ID"; "SECRET_ID"; "TENANT_ID"; "ONEDRIVE_FOLDER"] ->
  GraphService.truthy_opt (environ !! key) = false ->
  GraphService.save_to_onedrive user_id file_content file_name
    target_language (GraphService.new environ, w)
  = (inl (Exception "Service MS Graph non configuré"),
     (GraphService.new environ, w), [])
  /\ GraphService.create_documents_folder user_id
       (GraphService.new environ, w)
     = (inr false, (GraphService.new environ, w), [])
  /\ GraphService.check_user_access user_id (GraphService.new environ, w)
     = (inr false, (GraphService.new environ, w), []).
Proof.
  intros Hkey Hmissing.
  assert (Hdisabled : GraphService.enabled (GraphService.new environ) = false).
  { simpl in Hkey |- *.
    destruct Hkey as [<- | [<- | [<- | [<- | []]]]]; rewrite Hmissing;
      rewrite ?andb_false_r; reflexivity. }
  unfold GraphService.save_to_onedrive, GraphService.create_documents_folder,
    GraphService.check_user_access.
  run_unfold. cbv beta iota zeta delta [fst].
  rewrite Hdisabled. repeat split.
Qed.

(** [_get_access_token] never raises; it returns a token exactly when the
    identity endpoint answers 200 with a JSON body whose [access_token]
    is not empty, and leaves the instance as it was otherwise. *)
Lemma get_access_token_outcome (g : GraphService.t) (w : W) :
  match perform (GraphService.token_request g) w with
  | (answer, w1) =>
      exists token g1,
        GraphService._get_access_token (g, w)
        = (inr token, (g1, w1), [EvCall (GraphService.token_request g) answer])
        /\ match token with
           | Some access_token =>
               Py.truthy access_token = true
               /\ g1 = GraphService.set_access_token (Some access_token) g
               /\ exists response fields,
                    answer = inr response
                    /\ status_code response = 200
                    /\ json response = Some fields
                    /\ Py.get "access_token" fields = Some access_token
           | None => g1 = g
           end
  end.
Proof.
  unfold GraphService._get_access_token. run_unfold. simpl.
  destruct (perform (GraphService.token_request g) w)
    as [[e | response] w1]; simpl.
  { exists None, g. split; reflexivity. }
  destruct (Z.eqb_spec (status_code response) 200) as [Hok | Hko]; simpl;
    [| exists None, g; split; reflexivity].
  destruct (json response) as [fields |] eqn:Hjson; simpl;
    [| exists None, g; split; reflexivity].
  destruct (Py.get "access_token" fields) as [token |] eqn:Htoken; simpl;
    [| exists None, g; split; reflexivity].
  destruct (Py.truthy token) eqn:Htruthy; simpl;
    [| exists None, g; split; reflexivity].
  exists (Some token), (GraphService.set_access_token (Some token) g).
  split; [reflexivity |]. split; [exact Htruthy |]. split; [reflexivity |].
  exists response, fields. repeat split; assumption.
Qed.

(** X8.  [_get_access_token] never raises and sends one request, the
    client-credentials POST.  It returns a token exactly when that request
    is answered 200 with a JSON body whose [access_token] is not empty;
    the token is then that entry, and it is stored in [_access_token].
    In every other case the answer is [None] and the instance is
    unchanged. *)
Theorem get_access_token_result (g : GraphService.t) (w : W)
  (r : PyExc + option string) (g1 : GraphService.t) (w1 : W)
  (ev : list Event) :
  GraphService._get_access_token (g, w) = (r, (g1, w1), ev) ->
  exists token,
    r = inr token
    /\ ev = [EvCall (GraphService.token_request g)
               (fst (perform (GraphService.token_request g) w))]
    /\ w1 = snd (perform (GraphService.token_request g) w)
    /\ match token with
       | Some access_token =>
           access_token <> EmptyString
           /\ g1 = GraphService.set_access_token (Some access_token) g
           /\ exists response fields,
                fst (perform (GraphService.token_request g) w) = inr response
                /\ status_code response = 200
                /\ json response = Some fields
                /\ Py.get "access_token" fields = Some access_token
       | None =>
           g1 = g
           /\ forall response fields access_token,
                fst (perform (GraphService.token_request g) w) = inr response ->
                status_code response = 200 ->
                json response = Some fields ->
                Py.get "access_token" fields = Some access_token ->
                access_token = EmptyString
       end.
Proof.
  unfold GraphService._get_access_token. run_unfold. simpl.
  destruct (perform (GraphService.token_request g) w)
    as [[e | response] w2]; simpl.
  { intros [= <- <- <- <-]. exists None. repeat split. intros ? ? ? [=]. }
  destruct (Z.eqb_spec (status_code response) 200) as [Hok | Hko]; simpl.
  2:{ intros [= <- <- <- <-]. exists None. repeat split.
      intros ? ? ? [= <-] ?. contradiction. }
  destruct (json response) as [fields |] eqn:Hjson; simpl.
  2:{ intros [= <- <- <- <-]. exists None. repeat split.
      intros ? ? ? [= <-] _ Hnone. rewrite Hjson in Hnone. discriminate. }
  destruct (Py.get "access_token" fields) as [token |] eqn:Htoken; simpl.
  2:{ intros [= <- <- <- <-]. exists None. repeat split.
      intros ? ? ? [= <-] _ Hsome. rewrite Hjson in Hsome.
      injection Hsome as <-. rewrite Htoken. discriminate. }
  destruct token as [| c token]; simpl.
  { intros [= <- <- <- <-]. exists None. repeat split.
    intros ? ? ? [= <-] _ Hsome. rewrite Hjson in Hsome.
    injection Hsome as <-. rewrite Htoken. now intros [= <-]. }
  intros [= <- <- <- <-]. exists (Some (String c token)).
  repeat split; [discriminate |].
  exists response, fields. repeat split; assumption.
Qed.


(** [create_documents_folder] never raises and uploads nothing. *)
Lemma create_documents_folder_total (user_id : string) (g : GraphService.t)
  (w : W) :
  exists created s1 ev,
    GraphService.create_documents_folder user_id (g, w)
    = (inr created, s1, ev)
    /\ uploads ev = [].
Proof.
  unfold GraphService.create_documents_folder. run_unfold.
  cbv beta iota zeta delta [fst].
  destruct (GraphService.enabled g); simpl; [| do 3 eexists; split; reflexivity].
  pose proof (get_access_token_outcome g w) as Htoken.
  destruct (perform (GraphService.token_request g) w) as [answer w1].
  destruct Htoken as (token & g1 & -> & _). simpl.
  destruct (GraphService.truthy_opt token); simpl;
    [| do 3 eexists; split; reflexivity].
  match goal with
  | |- context [perform (HttpGet ?u ?b) w1] =>
      destruct (perform (HttpGet u b) w1) as [[e | response] w2]
  end; simpl; [do 3 eexists; split; reflexivity |].
  destruct (status_code response =? 200); simpl;
    [do 3 eexists; split; reflexivity |].
  match goal with
  | |- context [perform (HttpPost ?u ?b ?d) w2] =>
      destruct (perform (HttpPost u b d) w2) as [[e | created] w3]
  end; simpl; do 3 eexists; split; reflexivity.
Qed.

(** X9.  An enabled [save_to_onedrive] uploads at most once.  When its
    token request gives no token, it raises "Impossible d'obtenir le
    token d'accès MS Graph" and its run is that request alone: no folder
    is looked up and nothing is uploaded.  When it gives a token, the
    content is sent once with that token to
    [/users/{user_id}/drive/root:/{folder}/{output name}:/content],
    whatever the folder step answers; the call returns only if this
    upload is answered 200 or 201 with a JSON body. *)
Theorem save_to_onedrive_uploads (g : GraphService.t) (w : W)
  (user_id : string) (file_content : bytes)
  (file_name target_language : string)
  (r : PyExc + string) (s1 : GraphService.t * W) (ev : list Event) :
  GraphService.enabled g = true ->
  GraphService.save_to_onedrive user_id file_content file_name
    target_language (g, w) = (r, s1, ev) ->
  match GraphService._get_access_token (g, w) with
  | (inr (Some access_token), _, _) =>
      uploads ev
      = [(GraphService.graph_base_url g +:+ "/users/" +:+ user_id
          +:+ "/drive/root:/" +:+ Py.fmt (GraphService.onedrive_folder g)
          +:+ "/" +:+ BlobService.output_name file_name target_language
          +:+ ":/content",
          Some access_token, file_content)]
      /\ (forall url, r = inr url ->
            exists response fields,
              last ev
              = Some (EvCall
                        (HttpPut
                           (GraphService.graph_base_url g +:+ "/users/"
                            +:+ user_id +:+ "/drive/root:/"
                            +:+ Py.fmt (GraphService.onedrive_folder g)
                            +:+ "/"
                            +:+ BlobService.output_name file_name
                                  target_language
                            +:+ ":/content")
                           (Some access_token) file_content)
                        (inr response))
              /\ GraphService.created_or_ok (status_code response) = true
              /\ json response = Some fields
              /\ url = default "URL non disponible" (Py.get "webUrl" fields))
  | (_, _, ev0) =>
      r = inl (Exception "Impossible d'obtenir le token d'accès MS Graph")
      /\ ev = ev0
      /\ uploads ev = []
  end.
Proof.
  intros Henabled.
  unfold GraphService.save_to_onedrive. run_unfold.
  cbv beta iota zeta delta [fst]. rewrite Henabled. simpl.
  pose proof (get_access_token_outcome g w) as Htoken.
  destruct (perform (GraphService.token_request g) w) as [answer w1].
  destruct Htoken as (token & g1 & -> & Hshape). simpl.
  destruct token as [[| c access_token] |]; simpl.
  - destruct Hshape as [Htruthy _]. discriminate.
  - clear Hshape.
    destruct (create_documents_folder_total user_id g1 w1)
      as (created & [g2 w2] & ev2 & -> & Hfolder). simpl.
    match goal with
    | |- context [perform (HttpPut ?u ?b ?d) w2] =>
        destruct (perform (HttpPut u b d) w2) as [[e | response] w3]
    end; simpl.
    + destruct (is_RequestException e); intros [= <- <- <-];
        (split; [| intros ? [=]]);
        simpl; rewrite ?app_nil_r, !uploads_app, Hfolder; reflexivity.
    + destruct (GraphService.created_or_ok (status_code response)) eqn:Hok;
        simpl.
      * destruct (json response) as [fields |] eqn:Hjson; simpl;
          intros [= <- <- <-].
        -- split; [simpl; rewrite ?app_nil_r, !uploads_app, Hfolder; reflexivity |].
           intros url [= <-]. exists response, fields.
           rewrite ?app_nil_r.
           change (?x :: ?l ++ [?y]) with ((x :: l) ++ [y]).
           rewrite last_snoc. repeat split; assumption.
        -- split; [simpl; rewrite ?app_nil_r, !uploads_app, Hfolder; reflexivity |].
           intros ? [=].
      * intros [= <- <- <-].
        split; [simpl; rewrite ?app_nil_r, !uploads_app, Hfolder; reflexivity |].
        intros ? [=].
  - intros [= <- <- <-]. repeat split.
Qed.


(** X10.  The two probes of the Graph service never raise.
    [check_user_access] answers [True] only when its last call is the GET
    on [/users/{user_id}], sent with a token and answered 200;
    [create_documents_folder] answers [True] only when its last call is
    the GET on the folder answered 200, or the POST that creates it
    answered 200 or 201, sent with a token. *)
Theorem graph_probes_outcome (user_id : string) (g : GraphService.t)
  (w : W) :
  (exists allowed s1 ev,
     GraphService.check_user_access user_id (g, w) = (inr allowed, s1, ev)
     /\ (allowed = true ->
         exists access_token response,
           access_token <> EmptyString
           /\ last ev
              = Some (EvCall
                        (HttpGet
                           (GraphService.graph_base_url g +:+ "/users/"
                            +:+ user_id) (Some access_token))
                        (inr response))
           /\ status_code response = 200))
  /\ (exists created s1 ev,
        GraphService.create_documents_folder user_id (g, w)
        = (inr created, s1, ev)
        /\ (created = true ->
            exists access_token response,
              access_token <> EmptyString
              /\ ((last ev
                   = Some (EvCall
                             (HttpGet
                                (GraphService.graph_base_url g +:+ "/users/"
                                 +:+ user_id +:+ "/drive/root:/"
                                 +:+ Py.fmt (GraphService.onedrive_folder g))
                                (Some access_token))
                             (inr response))
                   /\ status_code response = 200)
                  \/ (last ev
                      = Some (EvCall
                                (HttpPost
                                   (GraphService.graph_base_url g
                                    +:+ "/users/" +:+ user_id
                                    +:+ "/drive/root/children")
                                   (Some access_token)
                                   [("name", GraphService.onedrive_folder g);
                                    ("folder", Some "{}");
                                    ("@microsoft.graph.conflictBehavior",
                                     Some "rename")])
                                (inr response))
                      /\ GraphService.created_or_ok (status_code response)
                         = true)))).
Proof.
  split.
  - unfold GraphService.check_user_access. run_unfold.
    cbv beta iota zeta delta [fst].
    destruct (GraphService.enabled g); simpl;
      [| do 3 eexists; split; [reflexivity | discriminate]].
    pose proof (get_access_token_outcome g w) as Htoken.
    destruct (perform (GraphService.token_request g) w) as [answer w1].
    destruct Htoken as (token & g1 & -> & Hshape). simpl.
    destruct token as [[| c access_token] |]; simpl;
      [do 3 eexists; split; [reflexivity | discriminate] |
      | do 3 eexists; split; [reflexivity | discriminate]].
    match goal with
    | |- context [perform (HttpGet ?u ?b) w1] =>
        destruct (perform (HttpGet u b) w1) as [[e | response] w2]
    end; simpl; [do 3 eexists; split; [reflexivity | discriminate] |].
    do 3 eexists. split; [reflexivity |].
    intros Hok. apply Z.eqb_eq in Hok.
    exists (String c access_token), response.
    split; [discriminate |]. split; [reflexivity | exact Hok].
  - unfold GraphService.create_documents_folder. run_unfold.
    cbv beta iota zeta delta [fst].
    destruct (GraphService.enabled g); simpl;
      [| do 3 eexists; split; [reflexivity | discriminate]].
    pose proof (get_access_token_outcome g w) as Htoken.
    destruct (perform (GraphService.token_request g) w) as [answer w1].
    destruct Htoken as (token & g1 & -> & Hshape). simpl.
    destruct token as [[| c access_token] |]; simpl;
      [do 3 eexists; split; [reflexivity | discriminate] |
      | do 3 eexists; split; [reflexivity | discriminate]].
    match goal with
    | |- context [perform (HttpGet ?u ?b) w1] =>
        destruct (perform (HttpGet u b) w1) as [[e | response] w2]
    end; simpl; [do 3 eexists; split; [reflexivity | discriminate] |].
    destruct (Z.eqb_spec (status_code response) 200) as [Hok | Hko]; simpl.
    + do 3 eexists. split; [reflexivity |]. intros _.
      exists (String c access_token), response.
      split; [discriminate |]. left. split; [reflexivity | exact Hok].
    + match goal with
      | |- context [perform (HttpPost ?u ?b ?d) w2] =>
          destruct (perform (HttpPost u b d) w2) as [[e | created] w3]
      end; simpl; [do 3 eexists; split; [reflexivity | discriminate] |].
      do 3 eexists. split; [reflexivity |]. intros Hcreated.
      exists (String c access_token), created.
      split; [discriminate |]. right. split; [reflexivity | exact Hcreated].
Qed.

End Graph.

(* ===================================================================== *)
(** * The recovery scan                                                 *)
(* ===================================================================== *)

Section Recovery.
Context {W : Type} `{Backend W}.


(** X11.  [max_last_modified], the [max] of the recovery path, returns the
    first of the most recent entries: an entry of the list, later than
    every entry before it and at least as late as every entry after it. *)
Theorem max_last_modified_is_first_latest (best : ApiServer.RecentFile)
  (l : list ApiServer.RecentFile) :
  exists before after,
    best :: l = before ++ ApiServer.max_last_modified best l :: after
    /\ Forall (fun x =>
                 ApiServer.rf_last_modified x
                 < ApiServer.rf_last_modified
                     (ApiServer.max_last_modified best l)) before
    /\ Forall (fun x =>
                 ApiServer.rf_last_modified x
                 <= ApiServer.rf_last_modified
                      (ApiServer.max_last_modified best l)) after.
Proof.
  revert best. induction l as [| x rest IH]; intros best; simpl.
  - exists [], []. repeat split; constructor.
  - destruct (Z.ltb_spec (ApiServer.rf_last_modified best)
                (ApiServer.rf_last_modified x)) as [Hlt | Hge].
    + destruct (IH x) as (before & after & Hsplit & Hbefore & Hafter).
      exists (best :: before), after. split; [simpl; now rewrite Hsplit |].
      split; [| exact Hafter].
      constructor; [| exact Hbefore].
      assert (Hx : ApiServer.rf_last_modified x
                   <= ApiServer.rf_last_modified
                        (ApiServer.max_last_modified x rest)).
      { destruct before as [| y before]; simpl in Hsplit.
        - injection Hsplit as <- _. lia.
        - injection Hsplit as <- _. inversion Hbefore; subst. lia. }
      lia.
    + destruct (IH best) as (before & after & Hsplit & Hbefore & Hafter).
      assert (Hbest : ApiServer.rf_last_modified best
                      <= ApiServer.rf_last_modified
                           (ApiServer.max_last_modified best rest)).
      { destruct before as [| y before]; simpl in Hsplit.
        - injection Hsplit as <- _. lia.
        - injection Hsplit as <- _. inversion Hbefore; subst. lia. }
      destruct before as [| y before]; simpl in Hsplit.
      * injection Hsplit as Hmax Hrest.
        exists [], (x :: after). split; [simpl; congruence |].
        split; [constructor |].
        constructor; [lia | exact Hafter].
      * injection Hsplit as Hy Hrest. subst y.
        exists (best :: x :: before), after.
        split; [simpl; do 2 f_equal; exact Hrest |].
        inversion Hbefore as [| ? ? Hlt Hothers]; subst.
        split; [| exact Hafter].
        constructor; [exact Hlt |].
        constructor; [lia | exact Hothers].
Qed.

(** X12.  Every entry of the recovery scan is a blob of the listing
    modified less than 7200 seconds before the scan, and its URL leads
    [download_translated_file] back to that blob of the output container
    (for names and containers without a slash or a question mark). *)
Theorem recovered_url_is_parsed_back (self : BlobService.t) (now : Z)
  (blobs : list BlobProperties) (file : ApiServer.RecentFile) (w : W) :
  In file (ApiServer.recent_files_of self now blobs) ->
  Py.contains "/" (BlobService.output_container self) = false ->
  Py.contains "/" (ApiServer.rf_name file) = false ->
  Py.contains "?" (ApiServer.rf_name file) = false ->
  (exists blob,
     In blob blobs /\ bp_name blob = ApiServer.rf_name file
     /\ bp_last_modified blob = Some (ApiServer.rf_last_modified file))
  /\ now - ApiServer.rf_last_modified file < 7200 * 1000000
  /\ (forall w1 content w2,
        perform (BlobExists (BlobService.output_container self)
                   (ApiServer.rf_name file)) w = (inr true, w1) ->
        perform (BlobDownload (BlobService.output_container self)
                   (ApiServer.rf_name file)) w1 = (inr content, w2) ->
        BlobService.download_translated_file (ApiServer.rf_url file) w
        = (inr content, w2,
           [EvCall (BlobExists (BlobService.output_container self)
                      (ApiServer.rf_name file)) (inr true);
            EvCall (BlobDownload (BlobService.output_container self)
                      (ApiServer.rf_name file)) (inr content)])).
Proof.
  intros Hin Hcontainer Hslash Hquery.
  unfold ApiServer.recent_files_of in Hin.
  apply list_elem_of_In, list_elem_of_omap in Hin
    as (blob & Hblob & Hfile).
  apply list_elem_of_In in Hblob.
  destruct (bp_last_modified blob) as [modified |] eqn:Hmodified;
    [| discriminate].
  destruct (Z.ltb_spec (now - modified) (7200 * 1000000)) as [Hrecent | ];
    [| discriminate].
  injection Hfile as <-. simpl in *.
  split; [exists blob; repeat split; assumption |].
  split; [exact Hrecent |].
  intros w1 content w2 Hexists Hdownload.
  destruct (url_parts_unsigned
              ("https://" +:+ Py.fmt (BlobService.account_name self)
               +:+ ".blob.core.windows.net")
              (BlobService.output_container self) (bp_name blob)
              Hcontainer Hslash Hquery) as [H2 H1].
  rewrite !append_assoc in H2, H1.
  rewrite (download_at _ _ _ w H2 H1), Hexists, Hdownload. reflexivity.
Qed.

End Recovery.

(* ===================================================================== *)
(** * The submission of a job                                           *)
(* ===================================================================== *)

Section Submitting.
Context {W : Type} `{Backend W}.

(** X13.  A body that lacks one of [blob_name], [target_language] and
    [user_id] is answered 400 with the first missing one of them, in this
    order; nothing is called or changed, and no configuration is read. *)
Theorem translate_document_missing_field (request : Request)
  (s : ApiServer.State W) (data : gmap string string) (field : string) :
  req_json request = inr data ->
  In field ApiServer.required_fields ->
  data !! field = None ->
  exists first,
    ApiServer.translate_document request s
    = (inr (json_response
              [("success", JBool false);
               ("error", JStr ("Paramètre manquant: " +:+ first))] 400),
       s, [])
    /\ data !! first = None
    /\ (first = "blob_name"
        \/ (first = "target_language" /\ is_Some (data !! "blob_name"))
        \/ (first = "user_id" /\ is_Some (data !! "blob_name")
            /\ is_Some (data !! "target_language"))).
Proof.
  intros Hjson Hfield Hmissing.
  unfold ApiServer.translate_document, ApiServer.required_fields.
  run_unfold. rewrite Hjson. simpl.
  destruct (data !! "blob_name") as [blob_name |] eqn:Hblob; simpl.
  2:{ exists "blob_name". repeat split; [exact Hblob | now left]. }
  destruct (data !! "target_language") as [language |] eqn:Hlanguage; simpl.
  2:{ exists "target_language". repeat split; [exact Hlanguage |].
      right; left. split; [reflexivity | eauto]. }
  destruct (data !! "user_id") as [user_id |] eqn:Huser; simpl.
  2:{ exists "user_id". repeat split; [exact Huser |].
      right; right. repeat split; eauto. }
  exfalso. simpl in Hfield.
  destruct Hfield as [<- | [<- | [<- | []]]]; congruence.
Qed.

(** What a run of [translate_document] is: an answer other than 200 that
    leaves the table as it was, or the answer 200 after the provider
    accepted the job, with the record stored under the provider's
    identifier. *)
Lemma translate_document_outcome (request : Request) (s : ApiServer.State W) :
  exists response w1 ev,
    (ApiServer.translate_document request s
     = (inr response, ApiServer.set_world w1 s, ev)
     /\ resp_status response <> 200
     /\ Py.get "translation_id" (resp_body response) = None)
    \/ (exists data blob_name target_language user_id blob_urls source
          target translation_id,
          ApiServer.translate_document request s
          = (inr response,
             ApiServer.set_active_translations
               (<[translation_id :=
                    submitted_record blob_name target_language user_id
                      blob_urls (utcnow w1)]>)
               (ApiServer.set_world w1 s),
             ev)
          /\ response
             = json_response
                 [("success", JBool true);
                  ("translation_id", JStr translation_id);
                  ("message",
                   JStr ("Traduction démarrée avec succès pour "
                         +:+ blob_name));
                  ("status", JStr "En cours");
                  ("target_language", JStr target_language);
                  ("estimated_time", JStr "2-5 minutes")] 200
          /\ req_json request = inr data
          /\ data !! "blob_name" = Some blob_name
          /\ data !! "target_language" = Some target_language
          /\ data !! "user_id" = Some user_id
          /\ TranslationService_init (ApiServer.environ s) = None
          /\ last ev
             = Some (EvCall (StartTranslation source target target_language)
                       (inr translation_id))).
Proof.
  unfold ApiServer.translate_document, ApiServer.required_fields.
  run_unfold.
  destruct (req_json request) as [e | data] eqn:Hjson; simpl.
  { exists (json_response
              [("success", JBool false);
               ("error", JStr ("Erreur lors de la traduction: " +:+ str_exc e))]
              500), (ApiServer.world s), [].
    left. rewrite <- set_world_same. repeat split. discriminate. }
  destruct (data !! "blob_name") as [blob_name |] eqn:Hblob; simpl.
  2:{ do 2 eexists. exists []. left. rewrite <- set_world_same.
      repeat split. discriminate. }
  destruct (data !! "target_language") as [language |] eqn:Hlanguage; simpl.
  2:{ do 2 eexists. exists []. left. rewrite <- set_world_same.
      repeat split. discriminate. }
  destruct (data !! "user_id") as [user_id |] eqn:Huser; simpl.
  2:{ do 2 eexists. exists []. left. rewrite <- set_world_same.
      repeat split. discriminate. }
  destruct (BlobService.new (ApiServer.environ s)) as [e | self]; simpl.
  { do 2 eexists. exists []. left. rewrite <- set_world_same.
    repeat split. discriminate. }
  destruct (TranslationService_init (ApiServer.environ s)) as [e |] eqn:Hts;
    simpl.
  { do 2 eexists. exists []. left. rewrite <- set_world_same.
    repeat split. discriminate. }
  destruct (BlobService.check_blob_exists _ blob_name (ApiServer.world s))
    as [[[e | []] w1] ev1]; simpl.
  { do 3 eexists. left. repeat split. discriminate. }
  2:{ do 3 eexists. left. repeat split. discriminate. }
  destruct (BlobService.prepare_translation_urls self blob_name language w1)
    as [[[e | blob_urls] w2] ev2]; simpl.
  { do 3 eexists. left. repeat split. discriminate. }
  destruct (BlobService.source_url blob_urls) as [source |]; simpl.
  2:{ do 3 eexists. left. repeat split. discriminate. }
  destruct (BlobService.target_url blob_urls) as [target |]; simpl.
  2:{ do 3 eexists. left. repeat split. discriminate. }
  destruct (perform (StartTranslation source target language) w2)
    as [[e | translation_id] w3]; simpl.
  { do 3 eexists. left. repeat split. discriminate. }
  do 3 eexists. right.
  exists data, blob_name, language, user_id, blob_urls, source, target,
    translation_id.
  split; [reflexivity |]. repeat split; try assumption.
  rewrite ?app_nil_r, !app_assoc. apply last_snoc.
Qed.

(** X14.  [translate_document] always answers, and the table of jobs
    changes exactly when the answer is 200: then the provider has accepted
    the job as the last call of the run, and the record of the submitted
    blob, language and user is stored under the identifier the provider
    returned, with the status "En cours".  Every other answer leaves the
    table as it was. *)
Theorem translate_document_registers_on_success (request : Request)
  (s : ApiServer.State W) :
  exists response s1 ev,
    ApiServer.translate_document request s = (inr response, s1, ev)
    /\ ApiServer.environ s1 = ApiServer.environ s
    /\ (resp_status response <> 200 ->
        ApiServer.active_translations s1 = ApiServer.active_translations s)
    /\ (resp_status response = 200 ->
        exists data blob_name target_language user_id blob_urls source
          target translation_id,
          req_json request = inr data
          /\ data !! "blob_name" = Some blob_name
          /\ data !! "target_language" = Some target_language
          /\ data !! "user_id" = Some user_id
          /\ last ev
             = Some (EvCall (StartTranslation source target target_language)
                       (inr translation_id))
          /\ Py.get "translation_id" (resp_body response)
             = Some (JStr translation_id)
          /\ ApiServer.active_translations s1
             = <[translation_id :=
                   submitted_record blob_name target_language user_id
                     blob_urls (utcnow (ApiServer.world s1))]>
                 (ApiServer.active_translations s)).
Proof.
  destruct (translate_document_outcome request s)
    as (response & w1 & ev
        & [(Hrun & Hstatus & _)
          | (data & blob_name & language & user_id & blob_urls & source
             & target & translation_id & Hrun & -> & Hjson & Hblob & Hlanguage
             & Huser & _ & Hlast)]).
  - do 3 eexists. split; [exact Hrun |]. split; [reflexivity |].
    split; [reflexivity | intros Hok; contradiction].
  - do 3 eexists. split; [exact Hrun |]. split; [reflexivity |].
    split; [intros Hko; now contradiction Hko |]. intros _.
    exists data, blob_name, language, user_id, blob_urls, source, target,
      translation_id.
    repeat split; assumption.
Qed.

End Submitting.

(* ===================================================================== *)
(** * The status of a job                                               *)
(* ===================================================================== *)

Section Status.
Context {W : Type} `{Backend W}.

(** [check_status] on a registered job with a provider that answers. *)
Lemma check_status_registered (request : Request) (s : ApiServer.State W)
  (translation_id : string) (info : TranslationInfo.t) (started_at : Z)
  (status : StatusDict) (w1 : W) :
  match_info request !! "translation_id" = Some translation_id ->
  ApiServer.active_translations s !! translation_id = Some info ->
  TranslationInfo.started_at info = Some started_at ->
  TranslationService_init (ApiServer.environ s) = None ->
  perform (CheckTranslationStatus translation_id) (ApiServer.world s)
  = (inr status, w1) ->
  ApiServer.check_status request s
  = (inr (json_response
            (ApiServer.status_body translation_id status info started_at)
            200),
     ApiServer.set_active_translations
       (<[translation_id :=
            TranslationInfo.set_last_checked (utcnow w1)
              (TranslationInfo.set_status (st_status status) info)]>)
       (ApiServer.set_world w1 s),
     [poll translation_id status]).
Proof.
  intros Hid Hjob Hstarted Hts Hcall.
  unfold ApiServer.check_status, ApiServer.update_translation.
  run_unfold. rewrite Hid. simpl. rewrite Hjob. simpl.
  rewrite Hts. simpl. rewrite Hcall. simpl. rewrite Hjob. simpl.
  rewrite lookup_alter_eq, Hjob. simpl.
  rewrite lookup_alter_eq, lookup_alter_eq, Hjob. simpl.
  rewrite Hstarted. simpl.
  f_equal. f_equal.
  unfold ApiServer.set_active_translations, ApiServer.set_world. simpl.
  f_equal. apply map_eq. intros k.
  destruct (decide (k = translation_id)) as [-> | Hk].
  - rewrite lookup_insert_eq, !lookup_alter_eq, Hjob. reflexivity.
  - rewrite lookup_insert_ne, !lookup_alter_ne by congruence. reflexivity.
Qed.


(** X15.  [check_status] always answers, and it neither adds nor removes
    a job: the table holds the same identifiers afterwards, the records of
    the other jobs are untouched, and the configuration is unchanged.  For
    an identifier that is not in the table it answers 404 without calling
    the provider or the storage (there is no recovery scan as in
    [get_result]). *)
Theorem check_status_keeps_jobs (request : Request) (s : ApiServer.State W) :
  exists response s1 ev,
    ApiServer.check_status request s = (inr response, s1, ev)
    /\ ApiServer.environ s1 = ApiServer.environ s
    /\ dom (ApiServer.active_translations s1)
       = dom (ApiServer.active_translations s)
    /\ (forall other,
          match_info request !! "translation_id" <> Some other ->
          ApiServer.active_translations s1 !! other
          = ApiServer.active_translations s !! other)
    /\ (forall translation_id,
          match_info request !! "translation_id" = Some translation_id ->
          ApiServer.active_translations s !! translation_id = None ->
          response = ApiServer.unknown_translation translation_id
          /\ s1 = s /\ ev = []).
Proof.
  unfold ApiServer.check_status, ApiServer.update_translation.
  run_unfold.
  destruct (match_info request !! "translation_id") as [translation_id |]
    eqn:Hid; simpl.
  2:{ do 3 eexists. split; [reflexivity |]. split; [reflexivity |].
      split; [reflexivity |]. split; [reflexivity |]. intros ? [=]. }
  destruct (ApiServer.active_translations s !! translation_id) as [info |]
    eqn:Hjob; simpl.
  2:{ do 3 eexists. split; [reflexivity |]. split; [reflexivity |].
      split; [reflexivity |]. split; [reflexivity |].
      intros ? [= <-] _. split; [reflexivity |].
      split; [now destruct s | reflexivity]. }
  destruct (TranslationService_init (ApiServer.environ s)) as [e |]; simpl.
  { do 3 eexists. split; [reflexivity |]. split; [reflexivity |].
    split; [reflexivity |]. split; [reflexivity |].
    intros ? [= <-]. congruence. }
  destruct (perform (CheckTranslationStatus translation_id)
              (ApiServer.world s)) as [[e | status] w1]; simpl.
  { do 3 eexists. split; [reflexivity |]. split; [reflexivity |].
    split; [reflexivity |]. split; [reflexivity |].
    intros ? [= <-]. congruence. }
  rewrite Hjob. simpl. rewrite lookup_alter_eq, Hjob. simpl.
  rewrite !lookup_alter_eq, Hjob. simpl.
  assert (Hdom :
            dom (alter (TranslationInfo.set_last_checked (utcnow w1))
                   translation_id
                   (alter (TranslationInfo.set_status (st_status status))
                      translation_id (ApiServer.active_translations s)))
            = dom (ApiServer.active_translations s)).
  { now rewrite !dom_alter_L. }
  assert (Hother :
            forall other, Some translation_id <> Some other ->
              alter (TranslationInfo.set_last_checked (utcnow w1))
                translation_id
                (alter (TranslationInfo.set_status (st_status status))
                   translation_id (ApiServer.active_translations s))
              !! other
              = ApiServer.active_translations s !! other).
  { intros other Hne. rewrite !lookup_alter_ne by congruence. reflexivity. }
  destruct (TranslationInfo.started_at info) as [started_at |]; simpl;
    do 3 eexists; (split; [reflexivity |]); simpl;
    (split; [reflexivity |]); (split; [exact Hdom |]);
    (split; [exact Hother |]); intros ? [= <-]; congruence.
Qed.

(** X16.  A job that [translate_document] has accepted can be followed:
    whatever happens to the world in between, [check_status] on the
    identifier of the 200 answer asks the provider once and, when the
    provider answers, replies 200 with the provider's status and the blob
    name that was submitted, and stores that status in the record. *)
Theorem submitted_job_can_be_checked (request : Request)
  (s : ApiServer.State W) (response : Response) (s1 : ApiServer.State W)
  (ev : list Event) (translation_id : string) :
  ApiServer.translate_document request s = (inr response, s1, ev) ->
  Py.get "translation_id" (resp_body response)
  = Some (JStr translation_id) ->
  forall (query : Request) (w : W) (status : StatusDict) (w1 : W),
    match_info query !! "translation_id" = Some translation_id ->
    perform (CheckTranslationStatus translation_id) w = (inr status, w1) ->
    exists body s2 data blob_name,
      ApiServer.check_status query (ApiServer.set_world w s1)
      = (inr (json_response body 200), s2, [poll translation_id status])
      /\ req_json request = inr data
      /\ data !! "blob_name" = Some blob_name
      /\ Py.get "file_name" body = Some (JStr blob_name)
      /\ Py.get "status" body = Some (JStr (st_status status))
      /\ TranslationInfo.status
           <$> ApiServer.active_translations s2 !! translation_id
         = Some (Some (st_status status))
      /\ dom (ApiServer.active_translations s2)
         = dom (ApiServer.active_translations s1).
Proof.
  intros Hrun Hbody query w status w1 Hid Hcall.
  destruct (translate_document_outcome request s)
    as (response' & w0 & ev'
        & [(Hrun' & _ & Hnone)
          | (data & blob_name & language & user_id & blob_urls & source
             & target & tid & Hrun' & Hresponse & Hjson & Hblob & _ & _
             & Hts & _)]);
    rewrite Hrun in Hrun'; injection Hrun' as <- -> <-.
  { rewrite Hbody in Hnone. discriminate. }
  subst response. simpl in Hbody. injection Hbody as <-.
  rewrite (check_status_registered query _ tid
             (submitted_record blob_name language user_id blob_urls
                (utcnow w0)) (utcnow w0) status w1 Hid);
    [| simpl; apply lookup_insert_eq | reflexivity | exact Hts | exact Hcall].
  do 2 eexists. exists data, blob_name.
  split; [reflexivity |]. split; [exact Hjson |]. split; [exact Hblob |].
  unfold ApiServer.status_body. simpl.
  split; [destruct (String.eqb (st_status status) "Failed"); reflexivity |].
  split; [destruct (String.eqb (st_status status) "Failed"); reflexivity |].
  split; [rewrite lookup_insert_eq; reflexivity |].
  simpl. rewrite insert_insert_eq, !dom_insert_L. reflexivity.
Qed.

End Status.

(* ===================================================================== *)
(** * Retrieval of a job that is not registered                         *)
(* ===================================================================== *)

Section Unregistered.
Context {W : Type} `{Backend W}.

Lemma recover_frames (translation_id : string) :
  frames (ApiServer.recover_translation_info translation_id).
Proof.
  unfold ApiServer.recover_translation_info, ApiServer.new_BlobService.
  repeat frames_step.
Qed.

(** An early return of the recovery scan is the answer 404. *)
Lemma recover_early (translation_id : string) (s s1 : ApiServer.State W)
  (response : Response) (ev : list Event) :
  ApiServer.recover_translation_info translation_id s
  = (inr (inl response), s1, ev) ->
  resp_status response = 404.
Proof.
  unfold ApiServer.recover_translation_info. run_unfold.
  destruct (BlobService.new (ApiServer.environ s)) as [e | self]; simpl;
    [discriminate |].
  destruct (perform (ListBlobs (BlobService.output_container self))
              (ApiServer.world s)) as [[e | blobs] w1]; simpl.
  - intros [= <- <- <-]. reflexivity.
  - destruct (ApiServer.recent_files_of self (utcnow w1) blobs)
      as [| first rest]; simpl.
    + intros [= <- <- <-]. reflexivity.
    + destruct (ApiServer.reverse_output_name _). simpl. discriminate.
Qed.


(** X17.  For an identifier that is not in the table, [get_result] never
    answers 200 and never changes the table.  When the recovery scan
    proposes a recent object and that object is fetched, the content is
    passed on as for a registered job, and then the deletion of the
    record raises [KeyError]: the answer is 500 with the text of that
    error, which is the [repr] of the identifier (quoted, with its
    quotes, backslashes and unprintable characters escaped). *)
Theorem get_result_unregistered_never_succeeds (request : Request)
  (s : ApiServer.State W) (translation_id : string)
  (response : Response) (s1 : ApiServer.State W) (ev : list Event) :
  match_info request !! "translation_id" = Some translation_id ->
  ApiServer.active_translations s !! translation_id = None ->
  ApiServer.get_result request s = (inr response, s1, ev) ->
  resp_status response <> 200
  /\ ApiServer.active_translations s1 = ApiServer.active_translations s
  /\ (forall info s2 ev2 content s3 ev3,
        ApiServer.recover_translation_info translation_id s
        = (inr (inr info), s2, ev2) ->
        TranslationService_init (ApiServer.environ s) = None ->
        ApiServer.fetch_translated_content translation_id info s2
        = (inr (inr content), s3, ev3) ->
        response
        = json_response
            [("success", JBool false);
             ("error",
              JStr ("Erreur lors de la récupération: "
                    +:+ Py.repr translation_id))] 500
        /\ exists ev4, ev = ev2 ++ ev3 ++ ev4).
Proof.
  intros Hid Hjob.
  unfold ApiServer.get_result. run_unfold.
  rewrite Hid. simpl. rewrite Hjob. simpl.
  destruct (ApiServer.recover_translation_info translation_id s)
    as [[[e | [early | info]] s2] ev2] eqn:Hrecover;
    destruct (recover_frames _ _ _ _ _ Hrecover) as [w2 ->]; simpl.
  - intros [= <- <- <-]. split; [discriminate |]. split; [reflexivity |].
    intros ? ? ? ? ? ? [=].
  - intros [= <- <- <-].
    split; [rewrite (recover_early _ _ _ _ _ Hrecover); discriminate |].
    split; [reflexivity |]. intros ? ? ? ? ? ? [=].
  - destruct (TranslationService_init (ApiServer.environ s)) as [e |]
      eqn:Hts; simpl.
    { intros [= <- <- <-]. split; [discriminate |]. split; [reflexivity |].
      intros ? ? ? ? ? ? _ [=]. }
    destruct (BlobService.new (ApiServer.environ s)) as [e | self] eqn:Hbs;
      simpl.
    { unfold ApiServer.recover_translation_info in Hrecover.
      revert Hrecover. run_unfold. rewrite Hbs. discriminate. }
    destruct (ApiServer.fetch_translated_content translation_id info
                (ApiServer.set_world w2 s))
      as [[[e | [early | content]] s3] ev3] eqn:Hfetch;
      destruct (fetch_frames _ _ _ _ _ _ Hfetch) as [w3 ->]; simpl.
    + intros [= <- <- <-]. split; [discriminate |]. split; [reflexivity |].
      intros ? ? ? ? ? ? [= <- <- <-] _ Hfetch'.
      rewrite Hfetch in Hfetch'. discriminate.
    + intros [= <- <- <-].
      split; [destruct (fetch_early _ _ _ _ _ _ Hfetch) as [-> | ->];
              discriminate |].
      split; [reflexivity |].
      intros ? ? ? ? ? ? [= <- <- <-] _ Hfetch'.
      rewrite Hfetch in Hfetch'. discriminate.
    + destruct (deliver_total translation_id info
                  (GraphService.new (ApiServer.environ s)) content
                  (ApiServer.set_world w3 (ApiServer.set_world w2 s)))
        as (extra & s4 & ev4 & Hdeliver).
      simpl in Hdeliver |- *. rewrite Hdeliver.
      destruct (deliver_frames _ _ _ _ _ _ _ _ Hdeliver) as [w4 ->].
      simpl. rewrite Hjob. simpl.
      intros [= <- <- <-]. split; [discriminate |]. split; [reflexivity |].
      intros ? ? ? ? ? ? [= <- <- <-] _ Hfetch'.
      rewrite Hfetch in Hfetch'. injection Hfetch' as <- <- <-.
      split; [reflexivity |]. exists ev4.
      rewrite ?app_nil_r, <- ?app_assoc. reflexivity.
Qed.

End Unregistered.

(* ===================================================================== *)
(** * The query string of a retrieval                                     *)
(* ===================================================================== *)

Section Query.
Context {W : Type} `{Backend W}.

Lemma uploads_nil_of_emits (ev : list Event) :
  Forall (fun e => upload_of e = None) ev -> uploads ev = [].
Proof.
  unfold uploads. induction 1 as [| e l He _ IH]; [reflexivity |].
  simpl. rewrite He. exact IH.
Qed.

(** Neither the download nor the polling loop sends an upload. *)
Lemma fetch_uploads_nothing (translation_id : string)
  (info : TranslationInfo.t) (s : ApiServer.State W)
  (r : PyExc + (Response + bytes)) (s1 : ApiServer.State W)
  (ev : list Event) :
  ApiServer.fetch_translated_content translation_id info s = (r, s1, ev) ->
  uploads ev = [].
Proof.
  intros Hrun. apply uploads_nil_of_emits. revert Hrun.
  apply (fun Hemits => Hemits s r s1 ev).
  unfold ApiServer.fetch_translated_content, ApiServer.download_target,
    ApiServer.io, BlobService.download_translated_file.
  generalize (seq 0 ApiServer.max_retries). intros retries.
  assert (Hpoll : forall l,
             emits (fun e => upload_of e = None)
               (ApiServer.poll_status translation_id l)).
  { induction l as [| retry rest IH]; simpl; [apply emits_ret |].
    repeat first [exact IH | emits_step]; reflexivity. }
  repeat first [apply Hpoll | emits_step]; reflexivity.
Qed.

(** An enabled [save_to_onedrive] whose token request is answered with a
    token sends the content once, with that token. *)
Lemma save_to_onedrive_sends (g : GraphService.t) (w w1 : W)
  (user_id : string) (file_content : bytes)
  (file_name target_language : string)
  (response : HttpResponse) (fields : list (string * string))
  (access_token : string) :
  GraphService.enabled g = true ->
  perform (GraphService.token_request g) w = (inr response, w1) ->
  status_code response = 200 ->
  json response = Some fields ->
  Py.get "access_token" fields = Some access_token ->
  Py.truthy access_token = true ->
  exists r s1 ev,
    GraphService.save_to_onedrive user_id file_content file_name
      target_language (g, w) = (r, s1, ev)
    /\ uploads ev
       = [(GraphService.graph_base_url g +:+ "/users/" +:+ user_id
           +:+ "/drive/root:/" +:+ Py.fmt (GraphService.onedrive_folder g)
           +:+ "/" +:+ BlobService.output_name file_name target_language
           +:+ ":/content",
           Some access_token, file_content)].
Proof.
  intros Henabled Hanswer Hok Hjson Htoken Htruthy.
  unfold GraphService.save_to_onedrive. run_unfold.
  cbv beta iota zeta delta [fst]. rewrite Henabled. simpl.
  assert (Hget :
            GraphService._get_access_token (g, w)
            = (inr (Some access_token),
               (GraphService.set_access_token (Some access_token) g, w1),
               [EvCall (GraphService.token_request g) (inr response)])).
  { unfold GraphService._get_access_token, GraphService.response_json.
    run_unfold. simpl. rewrite Hanswer. simpl. rewrite Hok. simpl.
    rewrite Hjson. simpl. rewrite Htoken. simpl. rewrite Htruthy.
    reflexivity. }
  rewrite Hget. simpl.
  unfold GraphService.truthy_opt. rewrite Htruthy. simpl.
  destruct (create_documents_folder_total user_id
              (GraphService.set_access_token (Some access_token) g) w1)
    as (created & [g2 w2] & ev2 & -> & Hfolder). simpl.
  match goal with
  | |- context [perform (HttpPut ?u ?b ?d) w2] =>
      destruct (perform (HttpPut u b d) w2) as [[e | answer] w3]
  end; simpl.
  - destruct (is_RequestException e); do 3 eexists;
      (split; [reflexivity |]);
      simpl; rewrite ?app_nil_r, !uploads_app, Hfolder; reflexivity.
  - destruct (GraphService.created_or_ok (status_code answer)); simpl.
    + destruct (json answer) as [info |]; simpl; do 3 eexists;
        (split; [reflexivity |]);
        simpl; rewrite ?app_nil_r, !uploads_app, Hfolder; reflexivity.
    + do 3 eexists. split; [reflexivity |].
      simpl. rewrite ?app_nil_r, !uploads_app, Hfolder. reflexivity.
Qed.

(** X18.  The import to OneDrive cannot be declined.  [get_result] reads
    the query parameter [save_to_onedrive] and does not use it: for every
    request, whatever its query string says, once the artifact of a
    registered job is fetched and the Graph service is configured and
    obtains a token, the content is sent to OneDrive, once, with that
    token, under the output name of the job's file; the answer is 200 and
    the record is removed. *)
Theorem get_result_import_cannot_be_declined (request : Request)
  (s : ApiServer.State W) (translation_id : string)
  (info : TranslationInfo.t) (self : BlobService.t) (content : bytes)
  (s1 : ApiServer.State W) (ev1 : list Event) (response : HttpResponse)
  (fields : list (string * string)) (access_token : string) (w2 : W) :
  match_info request !! "translation_id" = Some translation_id ->
  ApiServer.active_translations s !! translation_id = Some info ->
  TranslationService_init (ApiServer.environ s) = None ->
  BlobService.new (ApiServer.environ s) = inr self ->
  ApiServer.fetch_translated_content translation_id info s
  = (inr (inr content), s1, ev1) ->
  GraphService.enabled (GraphService.new (ApiServer.environ s)) = true ->
  perform (GraphService.token_request
             (GraphService.new (ApiServer.environ s))) (ApiServer.world s1)
  = (inr response, w2) ->
  status_code response = 200 ->
  json response = Some fields ->
  Py.get "access_token" fields = Some access_token ->
  Py.truthy access_token = true ->
  exists answer s' ev,
    ApiServer.get_result request s = (inr answer, s', ev)
    /\ resp_status answer = 200
    /\ uploads ev
       = [("https://graph.microsoft.com/v1.0/users/"
           +:+ TranslationInfo.user_id info +:+ "/drive/root:/"
           +:+ Py.fmt (ApiServer.environ s !! "ONEDRIVE_FOLDER") +:+ "/"
           +:+ BlobService.output_name (TranslationInfo.display_name info)
                 (TranslationInfo.target_language info)
           +:+ ":/content",
           Some access_token, content)]
    /\ ApiServer.active_translations s'
       = delete translation_id (ApiServer.active_translations s).
Proof.
  intros Hid Hjob Hts Hbs Hfetch Henabled Hanswer Hok Hjson Htoken Htruthy.
  pose proof (fetch_uploads_nothing _ _ _ _ _ _ Hfetch) as Hquiet.
  destruct (fetch_frames _ _ _ _ _ _ Hfetch) as [w1 ->].
  rewrite (get_result_registered _ _ _ _ _ Hid Hjob Hts Hbs), Hfetch.
  destruct (save_to_onedrive_sends _ _ _ (TranslationInfo.user_id info)
              content (TranslationInfo.display_name info)
              (TranslationInfo.target_language info) _ _ _
              Henabled Hanswer Hok Hjson Htoken Htruthy)
    as (r & [g3 w3] & ev2 & Hsave & Hsent).
  unfold ApiServer.deliver. run_unfold. simpl.
  simpl in Henabled, Hsave. rewrite Henabled. simpl. rewrite Hsave.
  destruct r as [e | url]; simpl; rewrite Hjob; simpl;
    do 3 eexists; (split; [reflexivity |]); (split; [reflexivity |]);
    (split; [| reflexivity]);
    rewrite ?app_nil_r, uploads_app, Hquiet; exact Hsent.
Qed.

End Query.


(* ===================================================================== *)
(** * The listing handlers                                              *)
(* ===================================================================== *)

Section Files.
Context {W : Type} `{Backend W}.

(** The run of [list_input_files]: one listing, never an exception. *)
Lemma list_input_files_run (self : BlobService.t)
  (filter_extension : option string) (w : W) :
  BlobService.list_input_files self filter_extension w
  = (inr match fst (perform
                      (ListBlobs (BlobService.input_container self)) w) with
         | inr blobs =>
             Py.sorted
               (List.filter (BlobService.extension_matches filter_extension)
                  (map bp_name blobs))
         | inl _ => []
         end,
     snd (perform (ListBlobs (BlobService.input_container self)) w),
     [EvCall (ListBlobs (BlobService.input_container self))
        (fst (perform (ListBlobs (BlobService.input_container self)) w))]).
Proof.
  unfold BlobService.list_input_files. run_unfold.
  destruct (perform (ListBlobs (BlobService.input_container self)) w)
    as [[e | blobs] w1]; reflexivity.
Qed.

Lemma sorted_ordered (l : list string) : StronglySorted String.le (Py.sorted l).
Proof. apply StronglySorted_merge_sort; apply _. Qed.

(** X19.  [list_files] always answers and leaves the table of jobs alone.
    It answers 500 only when [BlobService()] cannot be built; otherwise it
    answers 200 with [success] true, the names in order under [files] and
    their number under [count].  A listing that raises is answered in the
    same way as an empty container: 200, no file, [count] 0. *)
Theorem list_files_answers (request : Request) (s : ApiServer.State W) :
  exists listing s1 ev,
    ApiServer.list_files request s = (inr listing, s1, ev)
    /\ ApiServer.active_translations s1 = ApiServer.active_translations s
    /\ match BlobService.new (ApiServer.environ s) with
       | inl e =>
           listing_status listing = 500 /\ ev = []
           /\ Py.get "success" (listing_body listing)
              = Some (JPlain (JBool false))
       | inr self =>
           exists files,
             listing_status listing = 200
             /\ Py.get "success" (listing_body listing)
                = Some (JPlain (JBool true))
             /\ Py.get "files" (listing_body listing) = Some (JNames files)
             /\ Py.get "count" (listing_body listing)
                = Some (JPlain (JNum (Z.of_nat (length files))))
             /\ StronglySorted String.le files
             /\ (forall e w1,
                   perform (ListBlobs "doc-to-trad") (ApiServer.world s)
                   = (inl e, w1) ->
                   files = [])
       end.
Proof.
  unfold ApiServer.list_files. run_unfold.
  destruct (BlobService.new (ApiServer.environ s)) as [e | self] eqn:Hnew;
    simpl.
  - do 3 eexists. split; [reflexivity |]. repeat split.
  - destruct (new_BlobService_containers _ _ Hnew) as [Hin _].
    rewrite list_input_files_run, Hin. simpl.
    do 3 eexists. split; [reflexivity |]. split; [reflexivity |].
    eexists. split; [reflexivity |]. split; [reflexivity |].
    split; [reflexivity |]. split; [reflexivity |]. split.
    + destruct (fst (perform (ListBlobs "doc-to-trad") (ApiServer.world s)));
        [constructor | apply sorted_ordered].
    + intros e w1 ->. reflexivity.
Qed.

End Files.

Section Tools.
Context {W : Type} `{Backend W}.

(** A handler whose [except] clause returns a text never raises. *)
Lemma try_except_total {S A} (m : M S A) (h : PyExc -> A) (s : S) :
  exists a s1 ev, try_except m (fun e => ret (h e)) s = (inr a, s1, ev).
Proof.
  unfold try_except, ret.
  destruct (m s) as [[[e | a] s1] ev]; eauto.
Qed.

(** X20.  [_handle_list_files] never reports a failure: it answers with
    the text "Aucun fichier trouvé" or with the list of the names in
    order, and leaves the table of jobs alone.  A listing that raises
    gives the text of the empty container. *)
Theorem mcp_list_files_never_reports_failure (a : McpServer.ToolArgs)
  (s : McpServer.State W) :
  exists text s1 ev,
    McpServer._handle_list_files a s = (inr text, s1, ev)
    /\ McpServer.active_translations s1 = McpServer.active_translations s
    /\ (text
        = McpServer.no_files
            (BlobService.input_container (McpServer.blob_service s))
        \/ exists files,
             files <> [] /\ StronglySorted String.le files
             /\ text
                = McpServer.files_text
                    (BlobService.input_container (McpServer.blob_service s))
                    files)
    /\ (forall e w1,
          perform
            (ListBlobs
               (BlobService.input_container (McpServer.blob_service s)))
            (McpServer.world s) = (inl e, w1) ->
          text
          = McpServer.no_files
              (BlobService.input_container (McpServer.blob_service s))).
Proof.
  unfold McpServer._handle_list_files. run_unfold.
  rewrite list_input_files_run. simpl.
  destruct (perform
              (ListBlobs
                 (BlobService.input_container (McpServer.blob_service s)))
              (McpServer.world s)) as [[e | blobs] w1]; simpl.
  - do 3 eexists. split; [reflexivity |]. split; [reflexivity |].
    split; [now left |]. reflexivity.
  - pose proof (sorted_ordered
                  (List.filter
                     (BlobService.extension_matches
                        (McpServer.args a !! "filter_extension"))
                     (map bp_name blobs))) as Hsorted.
    destruct (Py.sorted _) as [| file files]; simpl.
    + do 3 eexists. split; [reflexivity |]. split; [reflexivity |].
      split; [now left |]. intros ? ? [=].
    + do 3 eexists. split; [reflexivity |]. split; [reflexivity |].
      split; [| intros ? ? [=]].
      right. exists (file :: files).
      split; [discriminate |]. split; [exact Hsorted | reflexivity].
Qed.

End Tools.

(* ===================================================================== *)
(** * The tools of the MCP server                                       *)
(* ===================================================================== *)

Section OwnJobs.
Context {W : Type} `{Backend W}.


(** [_handle_check_status] on a record without [file_name]. *)
Lemma mcp_check_status_without_file_name (a : McpServer.ToolArgs)
  (s : McpServer.State W) (translation_id : string)
  (info : TranslationInfo.t) :
  McpServer.args a !! "translation_id" = Some translation_id ->
  McpServer.active_translations s !! translation_id = Some info ->
  TranslationInfo.file_name info = None ->
  McpServer._handle_check_status a s
  = match perform (CheckTranslationStatus translation_id)
            (McpServer.world s) with
    | (inr status, w1) =>
        (inr "❌ Erreur lors de la vérification: 'file_name'",
         McpServer.set_active_translations
           (<[translation_id :=
                TranslationInfo.set_status (st_status status) info]>)
           (McpServer.set_world w1 s),
         [poll translation_id status])
    | (inl e, w1) =>
        (inr ("❌ Erreur lors de la vérification: " +:+ str_exc e),
         McpServer.set_world w1 s,
         [EvCall (CheckTranslationStatus translation_id) (inl e)])
    end.
Proof.
  intros Hid Hjob Hname.
  unfold McpServer._handle_check_status. run_unfold.
  rewrite Hid. simpl. rewrite Hjob. simpl.
  destruct (perform (CheckTranslationStatus translation_id)
              (McpServer.world s)) as [[e | status] w1]; simpl;
    [reflexivity |].
  rewrite Hjob. simpl. rewrite lookup_alter_eq, Hjob. simpl.
  rewrite Hname. simpl.
  f_equal. f_equal.
  unfold McpServer.set_active_translations, McpServer.set_world. simpl.
  f_equal. apply map_eq. intros k.
  destruct (decide (k = translation_id)) as [-> | Hk].
  - rewrite lookup_insert_eq, lookup_alter_eq, Hjob. reflexivity.
  - rewrite lookup_insert_ne, lookup_alter_ne by congruence. reflexivity.
Qed.

(** [_handle_get_result] on a record without [file_name] keeps the
    record and answers that the job is not finished, or an error. *)
Lemma mcp_get_result_without_file_name (a : McpServer.ToolArgs)
  (s : McpServer.State W) (translation_id : string)
  (info : TranslationInfo.t) :
  McpServer.args a !! "translation_id" = Some translation_id ->
  McpServer.active_translations s !! translation_id = Some info ->
  TranslationInfo.file_name info = None ->
  exists text w1 ev,
    McpServer._handle_get_result a s
    = (inr text, McpServer.set_world w1 s, ev)
    /\ ((exists status, text = McpServer.not_finished status)
        \/ exists e,
             text = "❌ Erreur lors de la récupération: " +:+ str_exc e).
Proof.
  intros Hid Hjob Hname.
  unfold McpServer._handle_get_result. run_unfold.
  rewrite Hid. simpl. rewrite Hjob. simpl.
  destruct (perform (CheckTranslationStatus translation_id)
              (McpServer.world s)) as [[e | status] w1]; simpl;
    [do 3 eexists; split; [reflexivity | right; eauto] |].
  destruct (String.eqb (st_status status) "Succeeded"); simpl;
    [| do 3 eexists; split; [reflexivity | left; eauto]].
  destruct (BlobService.target_url (TranslationInfo.blob_urls info))
    as [url |]; simpl.
  2:{ do 3 eexists. split; [reflexivity |]. right.
      exists (KeyError "target_url"). reflexivity. }
  destruct (BlobService.download_translated_file url w1)
    as [[[e | content] w2] ev2]; simpl;
    [do 3 eexists; split; [reflexivity | right; eauto] |].
  rewrite Hname. simpl.
  do 3 eexists. split; [reflexivity |]. right.
  exists (KeyError "file_name"). reflexivity.
Qed.

(** X21.  [_handle_check_status] reads the key [file_name] of the record.
    On a record without this key, and with a provider that answers, it
    stores the provider's status in the record and then answers with the
    text of the [KeyError], not with the status. *)
Theorem mcp_check_status_needs_file_name (a : McpServer.ToolArgs)
  (s : McpServer.State W) (translation_id : string)
  (info : TranslationInfo.t) (status : StatusDict) (w1 : W) :
  McpServer.args a !! "translation_id" = Some translation_id ->
  McpServer.active_translations s !! translation_id = Some info ->
  TranslationInfo.file_name info = None ->
  perform (CheckTranslationStatus translation_id) (McpServer.world s)
  = (inr status, w1) ->
  McpServer._handle_check_status a s
  = (inr "❌ Erreur lors de la vérification: 'file_name'",
     McpServer.set_active_translations
       (<[translation_id :=
            TranslationInfo.set_status (st_status status) info]>)
       (McpServer.set_world w1 s),
     [poll translation_id status]).
Proof.
  intros Hid Hjob Hname Hcall.
  rewrite (mcp_check_status_without_file_name a s translation_id info
             Hid Hjob Hname), Hcall.
  reflexivity.
Qed.

(** X22.  A job that [_handle_translate_document] has registered cannot be
    read back through the tools of the same server: its record has no
    [file_name], so, whatever happens to the world in between,
    [_handle_check_status] answers with an error text and never with the
    status, and [_handle_get_result] answers "not finished" or an error
    text and keeps the record in the table. *)
Theorem mcp_own_jobs_cannot_be_read (a : McpServer.ToolArgs)
  (s : McpServer.State W) (text : string) (s1 : McpServer.State W)
  (ev : list Event) (translation_id : string) :
  McpServer._handle_translate_document a s = (inr text, s1, ev) ->
  McpServer.active_translations s !! translation_id = None ->
  is_Some (McpServer.active_translations s1 !! translation_id) ->
  forall (q : McpServer.ToolArgs) (w : W),
    McpServer.args q !! "translation_id" = Some translation_id ->
    (exists e s2 ev2,
       McpServer._handle_check_status q (McpServer.set_world w s1)
       = (inr ("❌ Erreur lors de la vérification: " +:+ str_exc e), s2, ev2))
    /\ (exists answer s2 ev2,
          McpServer._handle_get_result q (McpServer.set_world w s1)
          = (inr answer, s2, ev2)
          /\ McpServer.active_translations s2
             = McpServer.active_translations s1
          /\ ((exists status, answer = McpServer.not_finished status)
              \/ exists e,
                   answer
                   = "❌ Erreur lors de la récupération: " +:+ str_exc e)).
Proof.
  intros Hrun Hnew Hregistered q w Hid.
  destruct (mcp_translate_outcome a s)
    as (text' & w1 & ev'
        & [Hrun' | (tid & info & Hrun' & Hname)]);
    rewrite Hrun in Hrun'; injection Hrun' as <- -> <-.
  { simpl in Hregistered. rewrite Hnew in Hregistered.
    now destruct Hregistered. }
  simpl in Hregistered.
  destruct (decide (tid = translation_id)) as [-> | Hne].
  2:{ rewrite lookup_insert_ne, Hnew in Hregistered by exact Hne.
      now destruct Hregistered. }
  assert (Hjob :
            McpServer.active_translations
              (McpServer.set_world w
                 (McpServer.set_active_translations
                    (<[translation_id := info]>) (McpServer.set_world w1 s)))
            !! translation_id = Some info).
  { simpl. apply lookup_insert_eq. }
  split.
  - rewrite (mcp_check_status_without_file_name q _ translation_id info
               Hid Hjob Hname).
    destruct (perform (CheckTranslationStatus translation_id) _)
      as [[e | status] w2].
    + do 3 eexists. reflexivity.
    + exists (KeyError "file_name"). do 2 eexists. reflexivity.
  - destruct (mcp_get_result_without_file_name q _ translation_id info
                Hid Hjob Hname) as (answer & w2 & ev2 & Hget & Hanswer).
    exists answer. do 2 eexists. split; [exact Hget |].
    split; [reflexivity | exact Hanswer].
Qed.

(** The four handlers never raise. *)
Lemma mcp_handlers_total (a : McpServer.ToolArgs) (s : McpServer.State W) :
  (exists text s1 ev,
     McpServer._handle_translate_document a s = (inr text, s1, ev))
  /\ (exists text s1 ev,
        McpServer._handle_list_files a s = (inr text, s1, ev))
  /\ (exists text s1 ev,
        McpServer._handle_check_status a s = (inr text, s1, ev))
  /\ (exists text s1 ev,
        McpServer._handle_get_result a s = (inr text, s1, ev)).
Proof.
  unfold McpServer._handle_translate_document, McpServer._handle_list_files,
    McpServer._handle_check_status, McpServer._handle_get_result.
  repeat split; apply try_except_total.
Qed.

(** X23.  [call_tool] never raises, and its own [except] clause is never
    taken: for each of the four tools its run is the run of the handler,
    and for any other name it answers "non reconnu" without a call or a
    change. *)
Theorem call_tool_dispatch (name : string) (arguments : McpServer.ToolArgs)
  (s : McpServer.State W) :
  (exists text s1 ev,
     McpServer.call_tool name arguments s = (inr text, s1, ev))
  /\ (forall handler,
        In (name, handler)
          [("translate_document", McpServer._handle_translate_document);
           ("list_available_files", McpServer._handle_list_files);
           ("check_translation_status", McpServer._handle_check_status);
           ("get_translation_result", McpServer._handle_get_result)] ->
        McpServer.call_tool name arguments s = handler arguments s)
  /\ (~ In name ["translate_document"; "list_available_files";
                 "check_translation_status"; "get_translation_result"] ->
      McpServer.call_tool name arguments s
      = (inr ("❌ Outil '" +:+ name +:+ "' non reconnu"), s, [])).
Proof.
  assert (Hwrap : forall (m : M (McpServer.State W) string) text s1 ev,
             m s = (inr text, s1, ev) ->
             try_except m (fun e => ret ("❌ Erreur: " +:+ str_exc e)) s
             = m s).
  { intros m text s1 ev Hm. unfold try_except. rewrite Hm. reflexivity. }
  destruct (mcp_handlers_total arguments s)
    as ((t1 & s1 & ev1 & Htranslate) & (t2 & s2 & ev2 & Hlist)
        & (t3 & s3 & ev3 & Hstatus) & (t4 & s4 & ev4 & Hresult)).
  split; [apply try_except_total |]. split.
  - intros handler Hin. simpl in Hin.
    destruct Hin as [[= <- <-] | [[= <- <-] | [[= <- <-] | [[= <- <-] | []]]]];
      unfold McpServer.call_tool; simpl.
    + exact (Hwrap _ _ _ _ Htranslate).
    + exact (Hwrap _ _ _ _ Hlist).
    + exact (Hwrap _ _ _ _ Hstatus).
    + exact (Hwrap _ _ _ _ Hresult).
  - intros Hname. unfold McpServer.call_tool.
    destruct (String.eqb_spec name "translate_document") as [-> | _];
      [contradiction Hname; simpl; tauto |].
    destruct (String.eqb_spec name "list_available_files") as [-> | _];
      [contradiction Hname; simpl; tauto |].
    destruct (String.eqb_spec name "check_translation_status") as [-> | _];
      [contradiction Hname; simpl; tauto |].
    destruct (String.eqb_spec name "get_translation_result") as [-> | _];
      [contradiction Hname; simpl; tauto |].
    reflexivity.
Qed.

End OwnJobs.

(* ===================================================================== *)
(** * The configuration                                                 *)
(* ===================================================================== *)

Section Configuration.
Context {W : Type} `{Backend W}.

Lemma missing_nil_iff (value : option string) (message : string) :
  Config.missing value message = [] <-> GraphService.truthy_opt value = true.
Proof.
  unfold Config.missing.
  destruct (GraphService.truthy_opt value); simpl; split; congruence.
Qed.

(** A configuration without an error has the seven variables. *)
Lemma validate_nil (environ : gmap string string) :
  Config.validate (Config.load environ) = [] ->
  Forall (fun name => GraphService.truthy_opt (environ !! name) = true)
    ["AZURE_ACCOUNT_NAME"; "AZURE_ACCOUNT_KEY";
     "TRANSLATOR_TEXT_SUBSCRIPTION_KEY"; "TRANSLATOR_TEXT_ENDPOINT";
     "CLIENT_ID"; "SECRET_ID"; "TENANT_ID"].
Proof.
  unfold Config.validate, Config.load. simpl. intros Hnil.
  apply app_eq_nil in Hnil as [Hname Hnil].
  apply app_eq_nil in Hnil as [Hkey Hnil].
  apply app_eq_nil in Hnil as [Htranslator Hnil].
  apply app_eq_nil in Hnil as [Hendpoint Hgraph].
  apply missing_nil_iff in Hname, Hkey, Htranslator, Hendpoint.
  destruct (GraphService.truthy_opt (environ !! "CLIENT_ID")) eqn:Hclient;
    [| discriminate].
  destruct (GraphService.truthy_opt (environ !! "SECRET_ID")) eqn:Hsecret;
    [| discriminate].
  destruct (GraphService.truthy_opt (environ !! "TENANT_ID")) eqn:Htenant;
    [| discriminate].
  rewrite !Forall_cons, Forall_nil. repeat split; assumption.
Qed.

(** X24.  [Config.validate] returns no error exactly when the seven
    variables AZURE_ACCOUNT_NAME, AZURE_ACCOUNT_KEY,
    TRANSLATOR_TEXT_SUBSCRIPTION_KEY, TRANSLATOR_TEXT_ENDPOINT, CLIENT_ID,
    SECRET_ID and TENANT_ID are set and not empty: the three variables of
    Microsoft Graph count as errors like the others, and ONEDRIVE_FOLDER
    is not looked at. *)
Theorem validate_accepts (environ : gmap string string) :
  Config.validate (Config.load environ) = []
  <-> Forall (fun name => GraphService.truthy_opt (environ !! name) = true)
        ["AZURE_ACCOUNT_NAME"; "AZURE_ACCOUNT_KEY";
         "TRANSLATOR_TEXT_SUBSCRIPTION_KEY"; "TRANSLATOR_TEXT_ENDPOINT";
         "CLIENT_ID"; "SECRET_ID"; "TENANT_ID"].
Proof.
  split; [apply validate_nil |].
  intros Hall. rewrite !Forall_cons in Hall.
  destruct Hall as (Hname & Hkey & Htranslator & Hendpoint & Hclient
                    & Hsecret & Htenant & _).
  unfold Config.validate, Config.load, Config.missing. simpl.
  rewrite Hname, Hkey, Htranslator, Hendpoint, Hclient, Hsecret, Htenant.
  reflexivity.
Qed.

Lemma endswith_append (suffix s : string) :
  Py.endswith suffix (s +:+ suffix) = true.
Proof. apply endswith_spec. now exists s. Qed.

(** X25.  Under a configuration that [Config.validate] accepts, the
    services can be built from the same environment: [BlobService()]
    fails only if the storage client refuses the account, the batch URL of
    the translator is defined, and the Graph service is enabled exactly
    when ONEDRIVE_FOLDER is set and not empty. *)
Theorem validated_configuration_builds_services
  (environ : gmap string string) :
  Config.validate (Config.load environ) = [] ->
  (exists key,
     environ !! "AZURE_ACCOUNT_KEY" = Some key
     /\ BlobService.new environ
        = match BlobServiceClient_init
                  (Config.get_storage_url (Config.load environ))
                  (if Py.endswith "==" key then key else key +:+ "==") with
          | Some e => inl e
          | None =>
              inr {| BlobService.account_name :=
                       environ !! "AZURE_ACCOUNT_NAME";
                     BlobService.account_key :=
                       if Py.endswith "==" key then key else key +:+ "==";
                     BlobService.input_container := "doc-to-trad";
                     BlobService.output_container := "doc-trad" |}
          end)
  /\ (exists url,
        Config.get_translator_batch_url (Config.load environ) = inr url)
  /\ GraphService.enabled (GraphService.new environ)
     = GraphService.truthy_opt (environ !! "ONEDRIVE_FOLDER").
Proof.
  intros Hvalid. apply validate_nil in Hvalid.
  rewrite !Forall_cons in Hvalid.
  destruct Hvalid as (_ & Hkey & _ & Hendpoint & Hclient & Hsecret & Htenant
                      & _).
  split; [| split].
  - destruct (environ !! "AZURE_ACCOUNT_KEY") as [key |] eqn:Hk;
      [| discriminate].
    exists key. split; [reflexivity |].
    unfold BlobService.new. rewrite Hk. reflexivity.
  - unfold Config.get_translator_batch_url, Config.load. simpl.
    destruct (environ !! "TRANSLATOR_TEXT_ENDPOINT"); [eauto | discriminate].
  - simpl. rewrite Hclient, Hsecret, Htenant. reflexivity.
Qed.

(** X26.  The batch URL does not depend on a trailing slash of the
    endpoint: an endpoint without one and the same endpoint followed by a
    slash give the same URL, the endpoint followed by
    [/translator/text/batch/v1.1/batches]. *)
Theorem batch_url_ignores_trailing_slash (cls cls' : Config.t)
  (endpoint : string) :
  Config.TRANSLATOR_ENDPOINT cls = Some endpoint ->
  Config.TRANSLATOR_ENDPOINT cls' = Some (endpoint +:+ "/") ->
  Py.endswith "/" endpoint = false ->
  Config.get_translator_batch_url cls
  = inr (endpoint +:+ "/translator/text/batch/v1.1/batches")
  /\ Config.get_translator_batch_url cls'
     = Config.get_translator_batch_url cls.
Proof.
  intros Hcls Hcls' Hslash.
  unfold Config.get_translator_batch_url.
  rewrite Hcls, Hcls', Hslash, endswith_append. simpl.
  rewrite append_assoc. split; reflexivity.
Qed.

End Configuration.

(* ===================================================================== *)
(** * The staging of an uploaded file                                   *)
(* ===================================================================== *)

Section Staging.
Context {W : Type} `{Backend W}.

Lemma stores_app (a b : list Event) : stores (a ++ b) = stores a ++ stores b.
Proof. unfold stores. apply omap_app. Qed.

Lemma signings_app (a b : list Event) :
  signings (a ++ b) = signings a ++ signings b.
Proof. unfold signings. apply omap_app. Qed.

(** The cleanup before a translation deletes in its container only, and
    neither stores nor signs. *)
Lemma cleanup_events (container blob : string) (w : W) :
  exists w1 ev,
    (_ <- BlobService._delete_old_files container 1 ;;
     BlobService._check_and_delete_target_blob container blob) w
    = (inr tt, w1, ev)
    /\ Forall (fun deleted => deleted.1 = container) (deletions ev)
    /\ stores ev = [] /\ signings ev = [].
Proof.
  run_unfold.
  destruct (BlobService._delete_old_files container 1 w)
    as [[r1 w1] ev1] eqn:Hold.
  destruct (delete_old_files_in_container _ _ _ _ _ _ Hold) as [-> Hev1].
  destruct (BlobService._check_and_delete_target_blob container blob w1)
    as [[r2 w2] ev2] eqn:Htarget.
  destruct (check_and_delete_in_container _ _ _ _ _ _ Htarget) as [-> Hev2].
  exists w2, (ev1 ++ ev2). split; [reflexivity |]. split.
  - rewrite deletions_app. apply Forall_app. split; [exact Hev1 |].
    eapply Forall_impl; [exact Hev2 |]. now intros deleted ->.
  - rewrite stores_app, signings_app.
    assert (Hquiet1 : stores ev1 = [] /\ signings ev1 = []).
    { revert Hold. unfold BlobService._delete_old_files. run_unfold.
      destruct (perform (ListBlobs container) w) as [[e | blobs] w0]; simpl.
      - intros [= <- <-]. split; reflexivity.
      - generalize (utcnow w0 - 1 * BlobService.hour). intros cutoff.
        assert (Hloop : forall w r w1 ev,
                   BlobService.delete_older container cutoff blobs w
                   = (r, w1, ev) -> stores ev = [] /\ signings ev = []).
        { clear. induction blobs as [| b rest IH]; intros w r w1 ev; simpl.
          - intros [= <- <- <-]. split; reflexivity.
          - destruct (bp_last_modified b) as [modified |];
              [| intros [= <- <- <-]; split; reflexivity].
            destruct (modified <? cutoff); [| apply IH].
            run_unfold.
            destruct (perform (BlobDelete container (bp_name b)) w)
              as [[e | []] w2]; simpl;
              [intros [= <- <- <-]; split; reflexivity |].
            destruct (BlobService.delete_older container cutoff rest w2)
              as [[r2 w3] ev2] eqn:Hrest.
            intros [= <- <- <-]. exact (IH _ _ _ _ Hrest). }
        destruct (BlobService.delete_older container cutoff blobs w0)
          as [[r0 w3] ev3] eqn:Hrun.
        destruct (Hloop _ _ _ _ Hrun) as [Hs Hg].
        destruct r0 as [e | []]; simpl; intros [= <- <-];
          rewrite ?app_nil_r; split; assumption. }
    assert (Hquiet2 : stores ev2 = [] /\ signings ev2 = []).
    { revert Htarget. unfold BlobService._check_and_delete_target_blob.
      run_unfold.
      destruct (perform (BlobExists container blob) w1) as [[e | []] w0];
        simpl; try (intros [= <- <-]; split; reflexivity).
      destruct (perform (BlobDelete container blob) w0) as [[e | []] w3];
        simpl; intros [= <- <-]; split; reflexivity. }
    destruct Hquiet1 as [-> ->], Hquiet2 as [-> ->]. split; reflexivity.
Qed.


(** X27.  [prepare_blobs] cleans the output container before it decodes
    the upload: every run starts with the run of [_delete_old_files] on
    the output container and then that of [_check_and_delete_target_blob]
    on the output name, neither of which raises, stores or signs, and
    which delete in the output container only.  When the base64 text
    cannot be decoded, the decoder's exception is raised right after this
    cleanup: the run holds nothing else.  When it can, the next call
    stores the decoded content in the input container under the
    normalised name; nothing else is stored or deleted, and a run that
    returns has then signed the input blob for reading and the output
    blob for reading and writing, in this order, and returns the
    original and the normalised name. *)
Theorem prepare_blobs_stages_once (self : BlobService.t)
  (file_content_base64 file_name target_language : string) (w : W) :
  exists w2 ev2 w3 ev3,
    BlobService._delete_old_files (BlobService.output_container self) 1 w
    = (inr tt, w2, ev2)
    /\ BlobService._check_and_delete_target_blob
         (BlobService.output_container self)
         (BlobService.output_name
            (BlobService._normalize_blob_name file_name) target_language)
         w2
       = (inr tt, w3, ev3)
    /\ Forall (fun deleted => deleted.1 = BlobService.output_container self)
         (deletions (ev2 ++ ev3))
    /\ stores (ev2 ++ ev3) = []
    /\ signings (ev2 ++ ev3) = []
    /\ match b64decode file_content_base64 with
       | inl e =>
           BlobService.prepare_blobs self file_content_base64 file_name
             target_language w
           = (inl e, w3, ev2 ++ ev3)
       | inr data =>
           exists r w1 ev4,
             BlobService.prepare_blobs self file_content_base64 file_name
               target_language w
             = (r, w1,
                ev2 ++ ev3
                ++ EvCall
                     (BlobUpload (BlobService.input_container self)
                        (BlobService._normalize_blob_name file_name) data)
                     (fst (perform
                             (BlobUpload (BlobService.input_container self)
                                (BlobService._normalize_blob_name file_name)
                                data) w3))
                   :: ev4)
             /\ deletions ev4 = []
             /\ stores ev4 = []
             /\ (forall urls,
                   r = inr urls ->
                   signings ev4
                   = [(BlobService.input_container self,
                       BlobService._normalize_blob_name file_name, "r");
                      (BlobService.output_container self,
                       BlobService.output_name
                         (BlobService._normalize_blob_name file_name)
                         target_language, "rw")]
                   /\ BlobService.original_file_name urls = Some file_name
                   /\ BlobService.normalized_file_name urls
                      = Some (BlobService._normalize_blob_name file_name)
                   /\ BlobService.input_blob_name urls
                      = Some (BlobService._normalize_blob_name file_name)
                   /\ BlobService.output_blob_name urls
                      = Some (BlobService.output_name
                                (BlobService._normalize_blob_name file_name)
                                target_language))
       end.
Proof.
  destruct (cleanup_events (BlobService.output_container self)
              (BlobService.output_name
                 (BlobService._normalize_blob_name file_name) target_language)
              w) as (w4 & ev & Hcleanup & Hdeleted & Hstored & Hsigned).
  revert Hcleanup.
  unfold BlobService.prepare_blobs, BlobService._generate_sas_url.
  run_unfold. simpl.
  destruct (BlobService._delete_old_files _ 1 w) as [[[e1 | []] w2] ev2];
    [discriminate |].
  destruct (BlobService._check_and_delete_target_blob _ _ w2)
    as [[[e3 | []] w3] ev3] eqn:Htarget; [discriminate |].
  intros [= <- <-].
  exists w2, ev2, w3, ev3.
  split; [reflexivity |]. split; [exact Htarget |].
  split; [exact Hdeleted |]. split; [exact Hstored |].
  split; [exact Hsigned |].
  destruct (b64decode file_content_base64) as [e | data]; simpl.
  { rewrite !app_nil_r. reflexivity. }
  destruct (perform (BlobUpload (BlobService.input_container self)
                       (BlobService._normalize_blob_name file_name) data)
              w3) as [[e | []] w5]; simpl.
  { do 3 eexists. rewrite ?app_nil_r.
    split; [reflexivity |]. split; [reflexivity |].
    split; [reflexivity |]. intros ? [=]. }
  destruct (perform (GenerateSas (BlobService.input_container self)
                       (BlobService._normalize_blob_name file_name) "r") w5)
    as [[e | source] w6]; simpl.
  { do 3 eexists. rewrite ?app_nil_r.
    split; [reflexivity |]. split; [reflexivity |].
    split; [reflexivity |]. intros ? [=]. }
  destruct (perform (GenerateSas (BlobService.output_container self)
                       (BlobService.output_name
                          (BlobService._normalize_blob_name file_name)
                          target_language) "rw") w6)
    as [[e | target] w7]; simpl;
    do 3 eexists; rewrite ?app_nil_r;
    (split; [reflexivity |]); (split; [reflexivity |]);
    (split; [reflexivity |]); [intros ? [=] |].
  intros urls [= <-]. repeat split.
Qed.

End Staging.

(* ===================================================================== *)
(** * Submission through the tool, and the errors of the import         *)
(* ===================================================================== *)

Section ToolSubmission.
Context {W : Type} `{Backend W}.

Lemma accepted_jobs_app (a b : list Event) :
  accepted_jobs (a ++ b) = accepted_jobs a ++ accepted_jobs b.
Proof. unfold accepted_jobs. apply omap_app. Qed.

Lemma delete_older_emits (P : Event -> Prop) (container : string)
  (cutoff : Z) (blobs : list BlobProperties) :
  (forall blob r, P (EvCall (BlobDelete container blob) r)) ->
  emits P (BlobService.delete_older container cutoff blobs).
Proof.
  intros Hdelete. induction blobs as [| blob rest IH]; simpl.
  - apply emits_ret.
  - destruct (bp_last_modified blob) as [modified |]; [| apply emits_raise].
    destruct (modified <? cutoff); [| exact IH].
    apply emits_bind; [apply emits_call; intros r; apply Hdelete |].
    intros _. exact IH.
Qed.

(** The preparation of the URLs does not talk to the provider. *)
Lemma prepare_translation_urls_accepts_nothing (self : BlobService.t)
  (blob_name target_language : string) (w : W)
  (r : PyExc + BlobService.BlobUrls) (w1 : W) (ev : list Event) :
  BlobService.prepare_translation_urls self blob_name target_language w
  = (r, w1, ev) ->
  accepted_jobs ev = [].
Proof.
  intros Hrun.
  assert (Hnone : Forall (fun e => accepted_job e = None) ev).
  { revert Hrun.
    apply (fun Hemits => Hemits w r w1 ev).
    unfold BlobService.prepare_translation_urls,
      BlobService._delete_old_files,
      BlobService._check_and_delete_target_blob,
      BlobService._generate_sas_url.
    repeat first [apply delete_older_emits; intros ? ? | emits_step];
      reflexivity. }
  unfold accepted_jobs. clear Hrun.
  induction Hnone as [| e l He _ IH]; [reflexivity |].
  simpl. rewrite He. exact IH.
Qed.

(** X28.  [_handle_translate_document] always answers with a text, and
    the table of jobs changes exactly when the provider accepts the job.
    A run in which the provider accepted no job leaves the table as it
    was.  A run in which it accepted one ends with that acceptance, has
    stored one record under the provider's identifier, with the blob
    name, the language and the user of the arguments, the URLs that were
    sent to the provider, the status "En cours" and no [file_name], and
    answers with the success text that names the identifier.  No run
    holds two acceptances.  A missing argument is answered with the text
    of the [KeyError], without a call or a change. *)
Theorem mcp_translate_registers_on_success (a : McpServer.ToolArgs)
  (s : McpServer.State W) :
  exists text s1 ev,
    McpServer._handle_translate_document a s = (inr text, s1, ev)
    /\ McpServer.blob_service s1 = McpServer.blob_service s
    /\ match accepted_jobs ev with
       | [] =>
           McpServer.active_translations s1
           = McpServer.active_translations s
       | [translation_id] =>
           exists blob_name target_language user_id blob_urls source target,
             McpServer.args a !! "blob_name" = Some blob_name
             /\ McpServer.args a !! "target_language" = Some target_language
             /\ McpServer.args a !! "user_id" = Some user_id
             /\ BlobService.source_url blob_urls = Some source
             /\ BlobService.target_url blob_urls = Some target
             /\ last ev
                = Some (EvCall
                          (StartTranslation source target target_language)
                          (inr translation_id))
             /\ McpServer.active_translations s1
                = <[translation_id :=
                      {| TranslationInfo.blob_name := Some blob_name;
                         TranslationInfo.file_name := None;
                         TranslationInfo.target_language := target_language;
                         TranslationInfo.user_id := user_id;
                         TranslationInfo.blob_urls := blob_urls;
                         TranslationInfo.status := Some "En cours";
                         TranslationInfo.started_at :=
                           Some (utcnow (McpServer.world s1));
                         TranslationInfo.created_at := None;
                         TranslationInfo.last_checked := None |}]>
                    (McpServer.active_translations s)
             /\ text
                = "✅ Traduction démarrée avec succès!" +:+ newline
                  +:+ newline
                  +:+ "📄 Fichier: " +:+ blob_name +:+ newline
                  +:+ "🌍 Langue cible: " +:+ target_language +:+ newline
                  +:+ "🆔 ID de traduction: " +:+ translation_id
                  +:+ newline +:+ newline
                  +:+ "💡 Utilisez 'check_translation_status' avec cet ID pour suivre l'avancement."
       | _ :: _ :: _ => False
       end
    /\ (forall key,
          In key ["blob_name"; "target_language"; "user_id"] ->
          McpServer.args a !! key = None ->
          s1 = s /\ ev = []
          /\ exists missing,
               McpServer.args a !! missing = None
               /\ text
                  = "❌ Erreur lors du démarrage de la traduction: "
                    +:+ str_exc (KeyError missing)).
Proof.
  assert (Hsame : s = McpServer.set_world (McpServer.world s) s)
    by now destruct s.
  unfold McpServer._handle_translate_document. run_unfold.
  destruct (McpServer.args a !! "blob_name") as [blob_name |] eqn:Hblob;
    simpl.
  2:{ do 3 eexists. split; [reflexivity |]. split; [reflexivity |].
      split; [reflexivity |]. intros key _ _.
      split; [reflexivity |]. split; [reflexivity |].
      exists "blob_name". split; [exact Hblob | reflexivity]. }
  destruct (McpServer.args a !! "target_language") as [language |]
    eqn:Hlanguage; simpl.
  2:{ do 3 eexists. split; [reflexivity |]. split; [reflexivity |].
      split; [reflexivity |]. intros key _ _.
      split; [reflexivity |]. split; [reflexivity |].
      exists "target_language". split; [exact Hlanguage | reflexivity]. }
  destruct (McpServer.args a !! "user_id") as [user_id |] eqn:Huser; simpl.
  2:{ do 3 eexists. split; [reflexivity |]. split; [reflexivity |].
      split; [reflexivity |]. intros key _ _.
      split; [reflexivity |]. split; [reflexivity |].
      exists "user_id". split; [exact Huser | reflexivity]. }
  assert (Hpresent : forall key,
             In key ["blob_name"; "target_language"; "user_id"] ->
             McpServer.args a !! key = None -> False).
  { intros key Hkey Hnone. simpl in Hkey.
    destruct Hkey as [<- | [<- | [<- | []]]]; congruence. }
  assert (Hprobe : forall r w1 ev1,
             BlobService.check_blob_exists
               (BlobService.input_container (McpServer.blob_service s))
               blob_name (McpServer.world s) = (r, w1, ev1) ->
             accepted_jobs ev1 = []).
  { unfold BlobService.check_blob_exists. run_unfold. intros r w1 ev1.
    destruct (perform (BlobExists _ blob_name) (McpServer.world s))
      as [[e | present] w0]; simpl; intros [= <- <- <-]; reflexivity. }
  destruct (BlobService.check_blob_exists _ blob_name (McpServer.world s))
    as [[[e | []] w1] ev1] eqn:Hexists; simpl;
    pose proof (Hprobe _ _ _ eq_refl) as Hquiet1;
    try (do 3 eexists; split; [reflexivity |]; split; [reflexivity |];
         rewrite ?app_nil_r, Hquiet1;
         split; [reflexivity |]; intros key Hkey Hnone;
         destruct (Hpresent key Hkey Hnone)).
  destruct (BlobService.prepare_translation_urls _ blob_name language w1)
    as [[[e | blob_urls] w2] ev2] eqn:Hprepare; simpl;
    pose proof (prepare_translation_urls_accepts_nothing _ _ _ _ _ _ _
                  Hprepare) as Hquiet2;
    try (do 3 eexists; split; [reflexivity |]; split; [reflexivity |];
         rewrite ?app_nil_r, ?accepted_jobs_app, Hquiet1, Hquiet2;
         split; [reflexivity |]; intros key Hkey Hnone;
         destruct (Hpresent key Hkey Hnone)).
  destruct (BlobService.source_url blob_urls) as [source |] eqn:Hsource;
    simpl;
    try (do 3 eexists; split; [reflexivity |]; split; [reflexivity |];
         rewrite ?app_nil_r, ?accepted_jobs_app, Hquiet1, Hquiet2;
         split; [reflexivity |]; intros key Hkey Hnone;
         destruct (Hpresent key Hkey Hnone)).
  destruct (BlobService.target_url blob_urls) as [target |] eqn:Htarget;
    simpl;
    try (do 3 eexists; split; [reflexivity |]; split; [reflexivity |];
         rewrite ?app_nil_r, ?accepted_jobs_app, Hquiet1, Hquiet2;
         split; [reflexivity |]; intros key Hkey Hnone;
         destruct (Hpresent key Hkey Hnone)).
  destruct (perform (StartTranslation source target language) w2)
    as [[e | translation_id] w3]; simpl;
    try (do 3 eexists; split; [reflexivity |]; split; [reflexivity |];
         rewrite ?app_nil_r, ?accepted_jobs_app, Hquiet1, Hquiet2;
         split; [reflexivity |]; intros key Hkey Hnone;
         destruct (Hpresent key Hkey Hnone)).
  do 3 eexists. split; [reflexivity |]. split; [reflexivity |].
  rewrite ?app_nil_r, ?accepted_jobs_app, Hquiet1, Hquiet2.
  split; [| intros key Hkey Hnone; destruct (Hpresent key Hkey Hnone)].
  simpl.
  exists blob_name, language, user_id, blob_urls, source, target.
  split; [reflexivity |]. split; [reflexivity |]. split; [reflexivity |].
  split; [exact Hsource |]. split; [exact Htarget |].
  split; [| split; reflexivity].
  rewrite !app_assoc. apply last_snoc.
Qed.




End ToolSubmission.

(* ===================================================================== *)
(** * The properties above in the concrete world                        *)
(* ===================================================================== *)

Section Instances.
Import Scenario.

Lemma download_translated_file_parses_url_witness :
  BlobService.download_translated_file
    "https://account1.blob.core.windows.net/doc-trad/report-es.pdf?sp=rw"
    ready
  = (inr hola, ready,
     [EvCall (BlobExists "doc-trad" "report-es.pdf") (inr true);
      EvCall (BlobDownload "doc-trad" "report-es.pdf") (inr hola)]).
Proof.
  destruct (@download_translated_file_parses_url World backend
              "https://account1.blob.core.windows.net" "doc-trad"
              "report-es.pdf" "sp=rw" ready
              eq_refl eq_refl eq_refl eq_refl) as [Hfound _].
  apply (Hfound ready hola ready); reflexivity.
Defined.

Lemma download_translated_file_failures_witness :
  BlobService.download_translated_file job1_target quiet
  = (inl (Exception
            "Erreur lors de la récupération: Le fichier traduit report-es.pdf n'existe pas dans le conteneur doc-trad"),
     quiet, [EvCall (BlobExists "doc-trad" "report-es.pdf") (inr false)])
  /\ exists msg,
       Exception
         "Erreur lors de la récupération: Le fichier traduit report-es.pdf n'existe pas dans le conteneur doc-trad"
       = Exception ("Erreur lors de la récupération: " +:+ msg).
Proof.
  split; [reflexivity |].
  destruct (@download_translated_file_failures World backend job1_target
              quiet _ _ _ eq_refl) as [Hwrapped _].
  apply Hwrapped. reflexivity.
Defined.

(** A world with a staged source, an output of an earlier job that is
    older than an hour, and an output of the same name as the target. *)
Lemma prepare_translation_urls_outcome_witness :
  exists urls w1 ev,
    BlobService.prepare_translation_urls service "report.pdf" "es"
      (with_stored [staged "report.pdf";
                    translated "old-fr.pdf" (1000 * second);
                    translated "report-es.pdf" (9900 * second)] quiet)
    = (inr urls, w1, ev)
    /\ deletions ev
       = [("doc-trad", "old-fr.pdf"); ("doc-trad", "report-es.pdf")]
    /\ Forall (fun deleted => deleted.1 = "doc-trad") (deletions ev).
Proof.
  do 3 eexists. split; [vm_compute; reflexivity |].
  split; [reflexivity |].
  apply (@prepare_translation_urls_outcome World backend service
           "report.pdf" "es"
           (with_stored [staged "report.pdf";
                         translated "old-fr.pdf" (1000 * second);
                         translated "report-es.pdf" (9900 * second)] quiet)
           _ _ _ eq_refl).
Defined.

Lemma list_input_files_filter_witness :
  BlobService.list_input_files service (Some "pdf")
    (with_stored [staged "b.pdf"; staged "a.txt"; staged "A.PDF"] quiet)
  = (inr ["A.PDF"; "b.pdf"],
     with_stored [staged "b.pdf"; staged "a.txt"; staged "A.PDF"] quiet,
     [EvCall (ListBlobs "doc-to-trad")
        (fst (perform (ListBlobs "doc-to-trad")
                (with_stored [staged "b.pdf"; staged "a.txt"; staged "A.PDF"]
                   quiet)))])
  /\ (In "A.PDF" ["A.PDF"; "b.pdf"]
      <-> In "A.PDF" ["b.pdf"; "a.txt"; "A.PDF"]
          /\ exists stem, "a.pdf" = stem +:+ "." +:+ "pdf").
Proof.
  split; [reflexivity |].
  apply (@list_input_files_filter World backend service (Some "pdf")
           (with_stored [staged "b.pdf"; staged "a.txt"; staged "A.PDF"]
              quiet)
           _ _ ["A.PDF"; "b.pdf"] _ _ eq_refl eq_refl "A.PDF").
Defined.

Lemma unconfigured_graph_service_makes_no_call_witness :
  GraphService.save_to_onedrive "user-1" hola "report.pdf" "es"
    (GraphService.new storage_env, quiet)
  = (inl (Exception "Service MS Graph non configuré"),
     (GraphService.new storage_env, quiet), []).
Proof.
  apply (@unconfigured_graph_service_makes_no_call World backend storage_env
           "CLIENT_ID" "user-1" hola "report.pdf" "es" quiet).
  - simpl. tauto.
  - reflexivity.
Defined.

Lemma get_access_token_result_witness :
  GraphService._get_access_token (GraphService.new full_env, quiet)
  = (inr (Some "token-1"),
     (GraphService.set_access_token (Some "token-1")
        (GraphService.new full_env), quiet),
     [EvCall (GraphService.token_request (GraphService.new full_env))
        (inr (ok_response [("access_token", "token-1")] 200))])
  /\ json (ok_response [("access_token", "token-1")] 200)
     = Some [("access_token", "token-1")]
  /\ "token-1" <> EmptyString.
Proof.
  split; [reflexivity |]. split; [reflexivity |].
  destruct (@get_access_token_result World backend
              (GraphService.new full_env) quiet _ _ _ _ eq_refl)
    as (token & Htoken & _ & _ & Hshape).
  injection Htoken as <-. exact (proj1 Hshape).
Defined.

Lemma save_to_onedrive_uploads_witness :
  exists url s1 ev,
    GraphService.save_to_onedrive "user-1" hola "report.pdf" "es"
      (GraphService.new full_env, quiet) = (inr url, s1, ev)
    /\ uploads ev
       = [("https://graph.microsoft.com/v1.0/users/user-1/drive/root:/Translations/report-es.pdf:/content",
           Some "token-1", hola)].
Proof.
  do 3 eexists. split; [vm_compute; reflexivity |].
  apply (@save_to_onedrive_uploads World backend
           (GraphService.new full_env) quiet "user-1" hola "report.pdf" "es"
           _ _ _ eq_refl eq_refl).
Defined.

Lemma recovered_url_is_parsed_back_witness :
  BlobService.download_translated_file
    "https://account1.blob.core.windows.net/doc-trad/report-es.pdf" ready
  = (inr hola, ready,
     [EvCall (BlobExists "doc-trad" "report-es.pdf") (inr true);
      EvCall (BlobDownload "doc-trad" "report-es.pdf") (inr hola)]).
Proof.
  destruct (@recovered_url_is_parsed_back World backend service
              (10000 * second)
              [{| bp_name := "report-es.pdf"; bp_size := 4;
                  bp_last_modified := Some (9900 * second) |}]
              {| ApiServer.rf_name := "report-es.pdf";
                 ApiServer.rf_size := 4;
                 ApiServer.rf_last_modified := 9900 * second;
                 ApiServer.rf_url :=
                   "https://account1.blob.core.windows.net/doc-trad/report-es.pdf" |}
              ready (or_introl eq_refl) eq_refl eq_refl eq_refl)
    as (_ & _ & Hdownload).
  apply (Hdownload ready hola ready); reflexivity.
Defined.

Lemma translate_document_missing_field_witness :
  exists first,
    ApiServer.translate_document
      {| req_json := inr (list_to_map [("blob_name", "report.pdf");
                                       ("user_id", "user-1")]);
         match_info := ∅; query := ∅ |}
      (api_state quiet ∅ [])
    = (inr (json_response
              [("success", JBool false);
               ("error", JStr ("Paramètre manquant: " +:+ first))] 400),
       api_state quiet ∅ [], [])
    /\ (list_to_map [("blob_name", "report.pdf"); ("user_id", "user-1")]
          : gmap string string) !! first = None.
Proof.
  destruct (@translate_document_missing_field World backend
              {| req_json := inr (list_to_map [("blob_name", "report.pdf");
                                               ("user_id", "user-1")]);
                 match_info := ∅; query := ∅ |}
              (api_state quiet ∅ [])
              (list_to_map [("blob_name", "report.pdf");
                            ("user_id", "user-1")])
              "target_language" eq_refl
              (or_intror (or_introl eq_refl)))
    as (first & Hrun & Hnone & _); [reflexivity |].
  exists first. split; assumption.
Defined.

(** The submission of a staged source, then a status request. *)
Lemma submitted_job_can_be_checked_witness :
  exists response s1 ev body s2,
    ApiServer.translate_document (translate_request "report.pdf" "es" "user-1")
      (api_state (with_stored [staged "report.pdf"] quiet) storage_env [])
    = (inr response, s1, ev)
    /\ resp_status response = 200
    /\ ApiServer.check_status (result_request "job-1")
         (ApiServer.set_world quiet s1)
       = (inr (json_response body 200), s2, [poll "job-1" running])
    /\ Py.get "file_name" body = Some (JStr "report.pdf")
    /\ Py.get "status" body = Some (JStr "Running").
Proof.
  assert (Hrun :
            exists response s1 ev,
              ApiServer.translate_document
                (translate_request "report.pdf" "es" "user-1")
                (api_state (with_stored [staged "report.pdf"] quiet)
                   storage_env [])
              = (inr response, s1, ev)
              /\ resp_status response = 200
              /\ Py.get "translation_id" (resp_body response)
                 = Some (JStr "job-1")).
  { do 3 eexists. split; [vm_compute; reflexivity |]. split; reflexivity. }
  destruct Hrun as (response & s1 & ev & Hrun & Hok & Hid).
  destruct (@submitted_job_can_be_checked World backend _ _ _ _ _ "job-1"
              Hrun Hid (result_request "job-1") quiet running quiet)
    as (body & s2 & data & blob_name & Hcheck & Hjson & Hblob & Hname
        & Hstatus & _); [reflexivity | reflexivity |].
  exists response, s1, ev, body, s2.
  split; [exact Hrun |]. split; [exact Hok |]. split; [exact Hcheck |].
  injection Hjson as <-. vm_compute in Hblob. injection Hblob as <-.
  split; assumption.
Defined.


Lemma mcp_check_status_needs_file_name_witness :
  McpServer._handle_check_status (tool_args [("translation_id", "job-1")])
    (mcp_state quiet [("job-1", job1)])
  = (inr "❌ Erreur lors de la vérification: 'file_name'",
     McpServer.set_active_translations
       (<["job-1" := TranslationInfo.set_status "Running" job1]>)
       (McpServer.set_world quiet (mcp_state quiet [("job-1", job1)])),
     [poll "job-1" running]).
Proof.
  apply (@mcp_check_status_needs_file_name World backend
           (tool_args [("translation_id", "job-1")])
           (mcp_state quiet [("job-1", job1)]) "job-1" job1 running quiet);
    reflexivity.
Defined.

(** A submission through the tool, then the two tools that read the job
    back. *)
Lemma mcp_own_jobs_cannot_be_read_witness :
  exists text s1 ev,
    McpServer._handle_translate_document
      (tool_args [("blob_name", "report.pdf"); ("target_language", "es");
                  ("user_id", "user-1")])
      (mcp_state (with_stored [staged "report.pdf"] quiet) [])
    = (inr text, s1, ev)
    /\ is_Some (McpServer.active_translations s1 !! "job-1")
    /\ (exists e s2 ev2,
          McpServer._handle_check_status
            (tool_args [("translation_id", "job-1")])
            (McpServer.set_world ready s1)
          = (inr ("❌ Erreur lors de la vérification: " +:+ str_exc e),
             s2, ev2))
    /\ (exists answer s2 ev2,
          McpServer._handle_get_result
            (tool_args [("translation_id", "job-1")])
            (McpServer.set_world ready s1)
          = (inr answer, s2, ev2)
          /\ McpServer.active_translations s2
             = McpServer.active_translations s1).
Proof.
  assert (Hrun :
            exists text s1 ev,
              McpServer._handle_translate_document
                (tool_args [("blob_name", "report.pdf");
                            ("target_language", "es");
                            ("user_id", "user-1")])
                (mcp_state (with_stored [staged "report.pdf"] quiet) [])
              = (inr text, s1, ev)
              /\ is_Some (McpServer.active_translations s1 !! "job-1")).
  { do 3 eexists. split; [vm_compute; reflexivity |].
    vm_compute. eauto. }
  destruct Hrun as (text & s1 & ev & Hrun & Hregistered).
  destruct (@mcp_own_jobs_cannot_be_read World backend _ _ _ _ _ "job-1"
              Hrun eq_refl Hregistered
              (tool_args [("translation_id", "job-1")]) ready)
    as [Hstatus (answer & s2 & ev2 & Hresult & Htable & _)];
    [reflexivity |].
  exists text, s1, ev. split; [exact Hrun |]. split; [exact Hregistered |].
  split; [exact Hstatus |]. exists answer, s2, ev2. split; assumption.
Defined.

(** A configuration with the seven variables and no ONEDRIVE_FOLDER. *)
Lemma validated_configuration_builds_services_witness :
  Config.validate
    (Config.load
       (list_to_map [("AZURE_ACCOUNT_NAME", "account1");
                     ("AZURE_ACCOUNT_KEY", "a2V5");
                     ("TRANSLATOR_TEXT_SUBSCRIPTION_KEY", "key-1");
                     ("TRANSLATOR_TEXT_ENDPOINT", "https://translator.example");
                     ("CLIENT_ID", "client-1"); ("SECRET_ID", "secret-1");
                     ("TENANT_ID", "tenant-1")])) = []
  /\ GraphService.enabled
       (GraphService.new
          (list_to_map [("AZURE_ACCOUNT_NAME", "account1");
                        ("AZURE_ACCOUNT_KEY", "a2V5");
                        ("TRANSLATOR_TEXT_SUBSCRIPTION_KEY", "key-1");
                        ("TRANSLATOR_TEXT_ENDPOINT",
                         "https://translator.example");
                        ("CLIENT_ID", "client-1"); ("SECRET_ID", "secret-1");
                        ("TENANT_ID", "tenant-1")]))
     = false.
Proof.
  split; [reflexivity |].
  destruct (@validated_configuration_builds_services World backend
              (list_to_map [("AZURE_ACCOUNT_NAME", "account1");
                            ("AZURE_ACCOUNT_KEY", "a2V5");
                            ("TRANSLATOR_TEXT_SUBSCRIPTION_KEY", "key-1");
                            ("TRANSLATOR_TEXT_ENDPOINT",
                             "https://translator.example");
                            ("CLIENT_ID", "client-1");
                            ("SECRET_ID", "secret-1");
                            ("TENANT_ID", "tenant-1")]))
    as (_ & _ & Henabled); [reflexivity |].
  exact Henabled.
Defined.

Lemma batch_url_ignores_trailing_slash_witness :
  Config.get_translator_batch_url
    (Config.load {[ "TRANSLATOR_TEXT_ENDPOINT" := "https://translator.example/" ]})
  = Config.get_translator_batch_url
      (Config.load {[ "TRANSLATOR_TEXT_ENDPOINT" := "https://translator.example" ]}).
Proof.
  apply (@batch_url_ignores_trailing_slash
           (Config.load
              {[ "TRANSLATOR_TEXT_ENDPOINT" := "https://translator.example" ]})
           (Config.load
              {[ "TRANSLATOR_TEXT_ENDPOINT" := "https://translator.example/" ]})
           "https://translator.example"); reflexivity.
Defined.

(** The output container holds an object of an earlier job and a recent
    one: the cleanup deletes the first. *)
Lemma delete_old_files_scope_witness :
  exists w1 ev,
    BlobService._delete_old_files "doc-trad" 1
      (with_stored [translated "old-fr.pdf" (1000 * second);
                    translated "report-es.pdf" (9900 * second)] quiet)
    = (inr tt, w1, ev)
    /\ deletions ev = [("doc-trad", "old-fr.pdf")].
Proof.
  destruct (@delete_old_files_scope World backend "doc-trad" 1
              (with_stored [translated "old-fr.pdf" (1000 * second);
                            translated "report-es.pdf" (9900 * second)]
                 quiet))
    as (w1 & ev & Hrun & _ & Hall).
  exists w1, ev. split; [exact Hrun |].
  vm_compute in Hrun. injection Hrun as <- <-.
  rewrite (Hall _ _ eq_refl);
    [reflexivity | repeat constructor; eauto | repeat constructor].
Defined.

(** With the storage down, the REST listing answers 200 and no file. *)
Lemma list_files_answers_witness :
  exists listing s1 ev,
    ApiServer.list_files (result_request "job-1")
      (api_state (with_storage_down quiet) storage_env [])
    = (inr listing, s1, ev)
    /\ listing_status listing = 200
    /\ Py.get "files" (listing_body listing) = Some (JNames [])
    /\ Py.get "count" (listing_body listing) = Some (JPlain (JNum 0)).
Proof.
  destruct (@list_files_answers World backend (result_request "job-1")
              (api_state (with_storage_down quiet) storage_env []))
    as (listing & s1 & ev & Hrun & _ & Hshape).
  exists listing, s1, ev. split; [exact Hrun |].
  change (BlobService.new
            (ApiServer.environ
               (api_state (with_storage_down quiet) storage_env [])))
    with (inr service : PyExc + BlobService.t) in Hshape.
  destruct Hshape as (files & Hok & _ & Hfiles & Hcount & _ & Hdown).
  rewrite (Hdown _ _ eq_refl) in Hfiles, Hcount.
  repeat split; assumption.
Defined.

(** With the storage down, the tool answers as for an empty container. *)
Lemma mcp_list_files_never_reports_failure_witness :
  exists s1 ev,
    McpServer._handle_list_files (tool_args [])
      (mcp_state (with_storage_down quiet) [])
    = (inr (McpServer.no_files "doc-to-trad"), s1, ev).
Proof.
  destruct (@mcp_list_files_never_reports_failure World backend (tool_args [])
              (mcp_state (with_storage_down quiet) []))
    as (text & s1 & ev & Hrun & _ & _ & Hdown).
  exists s1, ev. rewrite Hrun, (Hdown _ _ eq_refl). reflexivity.
Defined.

Lemma check_status_keeps_jobs_witness :
  ApiServer.check_status (result_request "job-9")
    (api_state quiet storage_env [("job-1", job1)])
  = (inr (ApiServer.unknown_translation "job-9"),
     api_state quiet storage_env [("job-1", job1)], []).
Proof.
  destruct (@check_status_keeps_jobs World backend (result_request "job-9")
              (api_state quiet storage_env [("job-1", job1)]))
    as (response & s1 & ev & Hrun & _ & _ & _ & Hunknown).
  destruct (Hunknown "job-9") as (-> & -> & ->);
    [reflexivity | reflexivity |].
  exact Hrun.
Defined.

Lemma call_tool_dispatch_witness :
  McpServer.call_tool "delete_translation" (tool_args [])
    (mcp_state quiet [("job-1", job1)])
  = (inr "❌ Outil 'delete_translation' non reconnu",
     mcp_state quiet [("job-1", job1)], [])
  /\ McpServer.call_tool "check_translation_status"
       (tool_args [("translation_id", "job-1")])
       (mcp_state quiet [("job-1", job1)])
     = McpServer._handle_check_status
         (tool_args [("translation_id", "job-1")])
         (mcp_state quiet [("job-1", job1)]).
Proof.
  split.
  - apply (@call_tool_dispatch World backend "delete_translation").
    simpl. intros [Hname | [Hname | [Hname | [Hname | []]]]];
      discriminate.
  - apply (@call_tool_dispatch World backend "check_translation_status").
    simpl. tauto.
Defined.

Lemma graph_probes_outcome_witness :
  exists s1 ev,
    GraphService.check_user_access "user-1" (GraphService.new full_env, quiet)
    = (inr true, s1, ev)
    /\ exists access_token response,
         last ev
         = Some (EvCall
                   (HttpGet "https://graph.microsoft.com/v1.0/users/user-1"
                      (Some access_token)) (inr response))
         /\ status_code response = 200.
Proof.
  destruct (@graph_probes_outcome World backend "user-1"
              (GraphService.new full_env) quiet)
    as [(allowed & s1 & ev & Hrun & Htrue) _].
  assert (Hallowed : allowed = true).
  { vm_compute in Hrun. now injection Hrun as <- _ _. }
  subst allowed. exists s1, ev. split; [exact Hrun |].
  destruct (Htrue eq_refl) as (access_token & response & _ & Hlast & Hok).
  exists access_token, response. split; assumption.
Defined.

Lemma translate_document_registers_on_success_witness :
  exists response s1 ev,
    ApiServer.translate_document (translate_request "report.pdf" "es" "user-1")
      (api_state (with_stored [staged "report.pdf"] quiet) storage_env [])
    = (inr response, s1, ev)
    /\ resp_status response = 200
    /\ exists blob_urls,
         ApiServer.active_translations s1
         = {[ "job-1" :=
                submitted_record "report.pdf" "es" "user-1" blob_urls
                  (10000 * second) ]}.
Proof.
  destruct (@translate_document_registers_on_success World backend
              (translate_request "report.pdf" "es" "user-1")
              (api_state (with_stored [staged "report.pdf"] quiet)
                 storage_env []))
    as (response & s1 & ev & Hrun & _ & _ & Hstored).
  assert (Hok : resp_status response = 200
                /\ Py.get "translation_id" (resp_body response)
                   = Some (JStr "job-1")
                /\ utcnow (ApiServer.world s1) = 10000 * second).
  { vm_compute in Hrun. injection Hrun as <- <- _. repeat split. }
  destruct Hok as (Hok & Hid & Hnow).
  exists response, s1, ev. split; [exact Hrun |]. split; [exact Hok |].
  destruct (Hstored Hok)
    as (data & blob_name & language & user_id & blob_urls & source & target
        & translation_id & Hjson & Hblob & Hlanguage & Huser & _ & Hbody
        & Htable).
  rewrite Hid in Hbody. injection Hbody as <-.
  injection Hjson as <-.
  vm_compute in Hblob, Hlanguage, Huser.
  injection Hblob as <-. injection Hlanguage as <-. injection Huser as <-.
  exists blob_urls. rewrite Htable, Hnow. reflexivity.
Defined.


(** The identifier [job'9] is not in the table and the output container
    holds a recent object: the object is downloaded, and the answer is
    500 with the identifier between double quotes, as [repr] writes a
    text that holds a single quote. *)
Lemma get_result_unregistered_never_succeeds_witness :
  exists response s1 ev,
    ApiServer.get_result (result_request "job'9")
      (api_state ready storage_env []) = (inr response, s1, ev)
    /\ response
       = json_response
           [("success", JBool false);
            ("error",
             JStr ("Erreur lors de la récupération: "
                   +:+ String Py.double_quote
                         ("job'9" +:+ String Py.double_quote EmptyString)))] 500
    /\ ev = [EvCall (ListBlobs "doc-trad")
               (fst (perform (ListBlobs "doc-trad") ready));
             EvCall (BlobExists "doc-trad" "report-es.pdf") (inr true);
             EvCall (BlobDownload "doc-trad" "report-es.pdf") (inr hola)]
    /\ resp_status response <> 200
    /\ ApiServer.active_translations s1 = ∅.
Proof.
  assert (Hrun :
            exists response s1 ev,
              ApiServer.get_result (result_request "job'9")
                (api_state ready storage_env []) = (inr response, s1, ev)
              /\ ev = [EvCall (ListBlobs "doc-trad")
                         (fst (perform (ListBlobs "doc-trad") ready));
                       EvCall (BlobExists "doc-trad" "report-es.pdf")
                         (inr true);
                       EvCall (BlobDownload "doc-trad" "report-es.pdf")
                         (inr hola)]).
  { do 3 eexists. split; [vm_compute; reflexivity |]. reflexivity. }
  destruct Hrun as (response & s1 & ev & Hrun & Hev).
  destruct (@get_result_unregistered_never_succeeds World backend
              (result_request "job'9") (api_state ready storage_env [])
              "job'9" response s1 ev)
    as (Hstatus & Htable & Hrecovered);
    [reflexivity | reflexivity | exact Hrun |].
  assert (Hscan :
            exists info s2 ev2 s3 ev3,
              ApiServer.recover_translation_info "job'9"
                (api_state ready storage_env [])
              = (inr (inr info), s2, ev2)
              /\ ApiServer.fetch_translated_content "job'9" info s2
                 = (inr (inr hola), s3, ev3)).
  { do 5 eexists. split; vm_compute; reflexivity. }
  destruct Hscan as (info & s2 & ev2 & s3 & ev3 & Hscan & Hfetch).
  destruct (Hrecovered info s2 ev2 hola s3 ev3 Hscan eq_refl Hfetch)
    as [Hresponse _].
  exists response, s1, ev. split; [exact Hrun |].
  split; [exact Hresponse |]. split; [exact Hev |].
  split; [exact Hstatus | exact Htable].
Defined.

(** The request declines the import with [save_to_onedrive=false]; the
    translation of [report.pdf] is uploaded all the same. *)
Lemma get_result_import_cannot_be_declined_witness :
  query (declining_request "job-1") !! "save_to_onedrive" = Some "false"
  /\ exists answer s' ev,
       ApiServer.get_result (declining_request "job-1")
         (api_state ready full_env [("job-1", job1)])
       = (inr answer, s', ev)
       /\ resp_status answer = 200
       /\ uploads ev
          = [("https://graph.microsoft.com/v1.0/users/user-1/drive/root:/Translations/report-es.pdf:/content",
              Some "token-1", hola)]
       /\ ApiServer.active_translations s' !! "job-1" = None.
Proof.
  split; [reflexivity |].
  destruct (@get_result_import_cannot_be_declined World backend
              (declining_request "job-1")
              (api_state ready full_env [("job-1", job1)])
              "job-1" job1 service hola
              (ApiServer.set_world ready
                 (api_state ready full_env [("job-1", job1)]))
              [EvCall (BlobExists "doc-trad" "report-es.pdf") (inr true);
               EvCall (BlobDownload "doc-trad" "report-es.pdf") (inr hola)]
              (ok_response [("access_token", "token-1")] 200)
              [("access_token", "token-1")] "token-1" ready)
    as (answer & s' & ev & Hrun & Hok & Hsent & Hreg);
    [reflexivity | reflexivity | reflexivity | reflexivity
     | vm_compute; reflexivity | reflexivity | reflexivity | reflexivity
     | reflexivity | reflexivity | reflexivity |].
  exists answer, s', ev. split; [exact Hrun |]. split; [exact Hok |].
  split; [exact Hsent |]. rewrite Hreg. reflexivity.
Defined.

(** An upload through [prepare_blobs]: the earlier output of the same
    name is deleted, then the two decoded bytes are stored under the
    normalised name and the two URLs are signed.  A text that is not
    base64 is refused after the same deletion, and nothing is stored. *)
Lemma prepare_blobs_stages_once_witness :
  (exists urls w1 ev4,
      BlobService.prepare_blobs service "SGk=" "Report (final).pdf" "es"
        (with_stored [translated "Report_final_-es.pdf" (9900 * second)]
           quiet)
      = (inr urls, w1,
         [EvCall (ListBlobs "doc-trad")
            (inr [{| bp_name := "Report_final_-es.pdf"; bp_size := 4;
                     bp_last_modified := Some (9900 * second) |}])]
         ++ [EvCall (BlobExists "doc-trad" "Report_final_-es.pdf")
               (inr true);
             EvCall (BlobDelete "doc-trad" "Report_final_-es.pdf")
               (inr tt)]
         ++ EvCall (BlobUpload "doc-to-trad" "Report_final_.pdf"
                      [Byte.x48; Byte.x69]) (inr tt)
            :: ev4)
      /\ signings ev4
         = [("doc-to-trad", "Report_final_.pdf", "r");
            ("doc-trad", "Report_final_-es.pdf", "rw")]
      /\ BlobService.original_file_name urls = Some "Report (final).pdf"
      /\ BlobService.input_blob_name urls = Some "Report_final_.pdf")
  /\ BlobService.prepare_blobs service "SGk" "Report (final).pdf" "es"
       (with_stored [translated "Report_final_-es.pdf" (9900 * second)]
          quiet)
     = (inl (ExternalError "Incorrect padding"), quiet,
        [EvCall (ListBlobs "doc-trad")
           (inr [{| bp_name := "Report_final_-es.pdf"; bp_size := 4;
                    bp_last_modified := Some (9900 * second) |}])]
        ++ [EvCall (BlobExists "doc-trad" "Report_final_-es.pdf") (inr true);
            EvCall (BlobDelete "doc-trad" "Report_final_-es.pdf")
              (inr tt)]).
Proof.
  split.
  - destruct (@prepare_blobs_stages_once World backend service "SGk="
                "Report (final).pdf" "es"
                (with_stored [translated "Report_final_-es.pdf"
                                (9900 * second)] quiet))
      as (w2 & ev2 & w3 & ev3 & Hold & Htarget & _ & _ & _ & Hrun).
    vm_compute in Hold. injection Hold as <- <-.
    vm_compute in Htarget. injection Htarget as <- <-.
    change (b64decode "SGk=") with (@inr PyExc bytes [Byte.x48; Byte.x69])
      in Hrun.
    destruct Hrun as (r & w1 & ev4 & Hrun & _ & _ & Hreturned).
    assert (Hfull :
              exists urls w5 ev5,
                BlobService.prepare_blobs service "SGk=" "Report (final).pdf"
                  "es"
                  (with_stored [translated "Report_final_-es.pdf"
                                  (9900 * second)] quiet)
                = (inr urls, w5, ev5)).
    { do 3 eexists. vm_compute. reflexivity. }
    destruct Hfull as (urls & w5 & ev5 & Hfull).
    assert (Hr : r = inr urls).
    { rewrite Hrun in Hfull.
      apply (f_equal (fun x => fst (fst x))) in Hfull. exact Hfull. }
    subst r.
    destruct (Hreturned urls eq_refl)
      as (Hsigned & Horiginal & _ & Hinput & _).
    exists urls, w1, ev4. split; [exact Hrun |].
    split; [exact Hsigned |]. split; [exact Horiginal | exact Hinput].
  - destruct (@prepare_blobs_stages_once World backend service "SGk"
                "Report (final).pdf" "es"
                (with_stored [translated "Report_final_-es.pdf"
                                (9900 * second)] quiet))
      as (w2 & ev2 & w3 & ev3 & Hold & Htarget & _ & _ & _ & Hrun).
    vm_compute in Hold. injection Hold as <- <-.
    vm_compute in Htarget. injection Htarget as <- <-.
    change (b64decode "SGk")
      with (@inl PyExc bytes (ExternalError "Incorrect padding")) in Hrun.
    exact Hrun.
Defined.

(** A submission through the tool: the provider accepts the job as
    [job-1] and the record is stored, without the key [file_name].  With
    the argument [user_id] missing, nothing is called and nothing
    changes. *)
Lemma mcp_translate_registers_on_success_witness :
  (exists text s1 ev info,
      McpServer._handle_translate_document
        (tool_args [("blob_name", "report.pdf"); ("target_language", "es");
                    ("user_id", "user-1")])
        (mcp_state (with_stored [staged "report.pdf"] quiet) [])
      = (inr text, s1, ev)
      /\ accepted_jobs ev = ["job-1"]
      /\ McpServer.active_translations s1 !! "job-1" = Some info
      /\ TranslationInfo.blob_name info = Some "report.pdf"
      /\ TranslationInfo.file_name info = None
      /\ TranslationInfo.target_language info = "es"
      /\ TranslationInfo.user_id info = "user-1"
      /\ TranslationInfo.status info = Some "En cours")
  /\ (exists text s1 ev,
        McpServer._handle_translate_document
          (tool_args [("blob_name", "report.pdf"); ("target_language", "es")])
          (mcp_state (with_stored [staged "report.pdf"] quiet) [])
        = (inr text, s1, ev)
        /\ s1 = mcp_state (with_stored [staged "report.pdf"] quiet) []
        /\ ev = []).
Proof.
  split.
  - destruct (@mcp_translate_registers_on_success World backend
                (tool_args [("blob_name", "report.pdf");
                            ("target_language", "es");
                            ("user_id", "user-1")])
                (mcp_state (with_stored [staged "report.pdf"] quiet) []))
      as (text & s1 & ev & Hrun & _ & Haccepted & _).
    assert (Hfull :
              exists text0 s0 ev0,
                McpServer._handle_translate_document
                  (tool_args [("blob_name", "report.pdf");
                              ("target_language", "es");
                              ("user_id", "user-1")])
                  (mcp_state (with_stored [staged "report.pdf"] quiet) [])
                = (inr text0, s0, ev0)
                /\ accepted_jobs ev0 = ["job-1"]).
    { do 3 eexists. split; [vm_compute; reflexivity |]. reflexivity. }
    destruct Hfull as (text0 & s0 & ev0 & Hfull & Hjobs).
    assert (Hev : ev0 = ev).
    { rewrite Hfull in Hrun. exact (f_equal snd Hrun). }
    rewrite Hev in Hjobs. rewrite Hjobs in Haccepted.
    destruct Haccepted
      as (blob_name & language & user_id & blob_urls & source & target
          & Hblob & Hlanguage & Huser & _ & _ & _ & Htable & _).
    vm_compute in Hblob, Hlanguage, Huser.
    injection Hblob as <-. injection Hlanguage as <-. injection Huser as <-.
    exists text, s1, ev. eexists.
    split; [exact Hrun |]. split; [exact Hjobs |].
    split; [rewrite Htable; apply lookup_insert_eq |].
    repeat split.
  - destruct (@mcp_translate_registers_on_success World backend
                (tool_args [("blob_name", "report.pdf");
                            ("target_language", "es")])
                (mcp_state (with_stored [staged "report.pdf"] quiet) []))
      as (text & s1 & ev & Hrun & _ & _ & Hmissing).
    exists text, s1, ev. split; [exact Hrun |].
    destruct (Hmissing "user_id") as (Hstate & Hev & _);
      [simpl; tauto | reflexivity |].
    split; assumption.
Defined.


End Instances.
